(** * rubEns: drawing tools, canvas and colour effect

    A shallow embedding of the classes
      - [Canvas]              (Image/Canvas.ts; in the sources, the second
                               part of src/ts/Effects/Effect.ts),
      - [EllipseTool]         (src/ts/DrawingTools/EllipseTool.ts),
      - [FreeHandTool]        (DrawingTools/FreeHandTool.ts; in the sources,
                               the second part of EllipseTool.ts),
      - [InverseColorEffect]  (src/ts/Effects/InverseColorEffect.ts),
    and the properties of the tool state machines and of the effect.

    Modelling conventions.
      - A JavaScript [number] is idealised as a rational ([Q]): no rounding,
        no NaN, no infinities.  Division is only meaningful for a non-zero
        divisor (Rocq's [/] gives 0 there, JavaScript an infinity or NaN), so
        statements about the value of a quotient take a non-zero divisor
        (a canvas node of non-zero width and height).
      - Objects that the code shares and mutates (the canvases) live in a heap
        indexed by references; a tool or a workspace holds references, so two
        fields may name the same canvas.
      - A method is a function in a state-and-error monad over the heap; the
        error ([None]) stands for a thrown exception.
      - The calls on the 2D context are also recorded in a log, most recent
        first, so that the writes of a surface can be counted.
      - The browser's 2D context is modelled on an array of bytes:
        [getImageData] copies a rectangle out, [putImageData] copies one in,
        [clearRect] zeroes one; colours are stored as given.  A real context
        keeps colours premultiplied by alpha, and may give back other bytes
        than it was given for a pixel that is neither opaque nor transparent
        black: a statement about the bytes read back after a write takes the
        written pixels to be opaque or transparent black ([storedExactly]). *)

From Stdlib Require Import ZArith QArith Qround List Lia String.
From stdpp Require Import base option list gmap.
Import ListNotations.

Local Open Scope nat_scope.

(** ** Numbers and points *)

Definition number : Type := Q.

(** [Math.floor] *)
Definition Math_floor (v : number) : number := inject_Z (Qfloor v).

Module Point.
(** [utils/Point]: [new Point(x, y)] *)
Record t : Type := new { x : number; y : number }.

(** [p.x = Math.floor(p.x); p.y = Math.floor(p.y);] *)
Definition floor (p : t) : t := new (Math_floor (x p)) (Math_floor (y p)).
End Point.

Module MouseEvent.
Record t : Type := new { clientX : number; clientY : number }.
End MouseEvent.

Module ClientRect.
Record t : Type := new { left : number; top : number; right : number; bottom : number }.
End ClientRect.

(** ** Pixel arrays

    Row-major RGBA bytes, four per pixel, origin top-left. *)

Definition pixel_index (w x y : nat) : nat := 4 * (y * w + x).

(** Channel [c] of pixel [(x, y)] of a [w] x [h] array; transparent black
    outside of the array, as the 2D context reads it. *)
Definition channel (w h : nat) (d : list Z) (x y c : nat) : Z :=
  if (x <? w) && (y <? h) then nth (pixel_index w x y + c) d 0%Z else 0%Z.

(** The [w] x [h] array whose channel [c] of pixel [(x, y)] is [f x y c]. *)
Definition tabulate (w h : nat) (f : nat -> nat -> nat -> Z) : list Z :=
  flat_map (fun y => flat_map (fun x => map (f x y) [0; 1; 2; 3]) (seq 0 w)) (seq 0 h).

Module ImageData.
(** The browser's [ImageData]: [data] is a [Uint8ClampedArray]. *)
Record t : Type := new { width : nat; height : nat; data : list Z }.
End ImageData.

Module HTMLCanvasElement.
(** The canvas node: its [width] and [height] attributes and the bitmap its
    2D context draws on. *)
Record t : Type := new { width : nat; height : nat; bitmap : list Z }.

(** [context.getImageData(0, 0, sw, sh)]; the browser throws when the
    requested rectangle is empty. *)
Definition getImageData (sw sh : nat) (e : t) : option ImageData.t :=
  if (sw =? 0) || (sh =? 0) then None
  else Some (ImageData.new sw sh (tabulate sw sh (channel (width e) (height e) (bitmap e)))).

(** [context.putImageData(data, 0, 0)]: the pixels of [data] that fall in
    the bitmap replace the bitmap's. *)
Definition putImageData (d : ImageData.t) (e : t) : t :=
  new (width e) (height e)
    (tabulate (width e) (height e) (fun x y c =>
       if (x <? ImageData.width d) && (y <? ImageData.height d)
       then channel (ImageData.width d) (ImageData.height d) (ImageData.data d) x y c
       else channel (width e) (height e) (bitmap e) x y c)).

(** [context.clearRect(0, 0, w, h)]: transparent black in the rectangle. *)
Definition clearRect (w h : nat) (e : t) : t :=
  new (width e) (height e)
    (tabulate (width e) (height e) (fun x y c =>
       if (x <? w) && (y <? h) then 0%Z
       else channel (width e) (height e) (bitmap e) x y c)).
End HTMLCanvasElement.

(** ** [Canvas] (src/ts/Image/Canvas.ts), as a value *)

Module Canvas.
Record t : Type := new {
  canvas : HTMLCanvasElement.t;
  width : nat;
  height : nat;
  canvasBoundingRect : ClientRect.t
}.

(** [getImageData ()] *)
Definition getImageData (this : t) : option ImageData.t :=
  HTMLCanvasElement.getImageData (width this) (height this) (canvas this).

(** [setImageData (data)] *)
Definition setImageData (data : ImageData.t) (this : t) : t :=
  new (HTMLCanvasElement.putImageData data (canvas this))
      (width this) (height this) (canvasBoundingRect this).

(** [clear ()] *)
Definition clear (this : t) : t :=
  new (HTMLCanvasElement.clearRect (width this) (height this) (canvas this))
      (width this) (height this) (canvasBoundingRect this).

(** [getMouseEventCoordinates (event)] *)
Definition getMouseEventCoordinates (event : MouseEvent.t) (this : t) : Point.t :=
  let boundingRect := canvasBoundingRect this in
  let mouseX := (MouseEvent.clientX event - ClientRect.left boundingRect)%Q in
  let mouseY := (MouseEvent.clientY event - ClientRect.top boundingRect)%Q in
  Point.new
    (mouseX * ((ClientRect.right boundingRect - ClientRect.left boundingRect)
               / inject_Z (Z.of_nat (HTMLCanvasElement.width (canvas this)))))%Q
    (mouseY * ((ClientRect.bottom boundingRect - ClientRect.top boundingRect)
               / inject_Z (Z.of_nat (HTMLCanvasElement.height (canvas this)))))%Q.
End Canvas.

(** ** The heap of canvases and the method monad *)

Definition ref : Type := nat.

Inductive ContextCall : Type :=
| GetImageData (c : ref)
| PutImageData (c : ref)
| ClearRect (c : ref).

Record World : Type := mkWorld {
  heap : gmap ref Canvas.t;
  calls : list ContextCall
}.

Definition M (A : Type) : Type := World -> option (A * World).

Definition ret {A : Type} (a : A) : M A := fun w => Some (a, w).

Definition bind {A B : Type} (m : M A) (k : A -> M B) : M B :=
  fun w => match m w with
           | Some (a, w') => k a w'
           | None => None
           end.

Declare Scope method_scope.
Delimit Scope method_scope with method.
Notation "'let*' v ':=' m 'in' k" := (bind m (fun v => k))
  (at level 10, v name, m at level 100, k at level 200) : method_scope.
Notation "m ';;;' k" := (bind m (fun _ => k))
  (at level 100, k at level 200, right associativity) : method_scope.
Local Open Scope method_scope.

(** Following a reference to a canvas object. *)
Definition deref (c : ref) : M Canvas.t :=
  fun w => match heap w !! c with
           | Some v => Some (v, w)
           | None => None
           end.

(** [c.getImageData()] on a reference *)
Definition Canvas_getImageData (c : ref) : M ImageData.t :=
  fun w => match heap w !! c with
           | Some v => match Canvas.getImageData v with
                       | Some d => Some (d, mkWorld (heap w) (GetImageData c :: calls w))
                       | None => None
                       end
           | None => None
           end.

(** [c.setImageData(data)] on a reference *)
Definition Canvas_setImageData (c : ref) (data : ImageData.t) : M unit :=
  fun w => match heap w !! c with
           | Some v => Some (tt, mkWorld (<[c := Canvas.setImageData data v]> (heap w))
                                         (PutImageData c :: calls w))
           | None => None
           end.

(** [c.clear()] on a reference *)
Definition Canvas_clear (c : ref) : M unit :=
  fun w => match heap w !! c with
           | Some v => Some (tt, mkWorld (<[c := Canvas.clear v]> (heap w))
                                         (ClearRect c :: calls w))
           | None => None
           end.

(** [c.getMouseEventCoordinates(event)] on a reference *)
Definition Canvas_getMouseEventCoordinates (c : ref) (event : MouseEvent.t) : M Point.t :=
  let* v := deref c in ret (Canvas.getMouseEventCoordinates event v).

(** Passing a possibly-null point where the callee reads its fields. *)
Definition nonnull {A : Type} (o : option A) : M A :=
  fun w => match o with
           | Some a => Some (a, w)
           | None => None
           end.

(** ** The drawing primitives

    [DrawingPrimitives/Ellipse], [DrawingPrimitives/Line] and
    [DrawingPrimitives/ColorEffects] are used by the tools and by the effect;
    the tools and the effect are stated over any implementation of them.  A
    primitive mutates the [ImageData] it is given: here it returns the new
    one. *)

Class DrawingPrimitives : Type := {
  (** the type of the pixel callback of [Line.draw] *)
  PixelCallback : Type;
  (** [Ellipse.drawFromBoundingRect(firstPoint, secondPoint, imageData)] *)
  Ellipse_drawFromBoundingRect : Point.t -> Point.t -> ImageData.t -> ImageData.t;
  (** [Line.draw(imageData, from, to, callback)] *)
  Line_draw : ImageData.t -> Point.t -> Point.t -> PixelCallback -> ImageData.t;
  (** [Line.paintItBlack] *)
  Line_paintItBlack : PixelCallback;
  (** [ColorEffects.inverseColors(imageData)] *)
  ColorEffects_inverseColors : ImageData.t -> ImageData.t
}.

(** The three kinds of mouse events the tools register callbacks for. *)
Inductive PointerEvent : Type :=
| MouseDown (event : MouseEvent.t)
| MouseMove (event : MouseEvent.t)
| MouseUp (event : MouseEvent.t).

(** ** [EllipseTool] (src/ts/DrawingTools/EllipseTool.ts) *)

Module EllipseTool.
Record t : Type := mk {
  firstPoint : option Point.t;
  secondPoint : option Point.t;
  (** inherited from [DrawingTool] *)
  workingCanvas : ref;
  drawingCanvas : ref
}.

Definition set_firstPoint (p : option Point.t) (this : t) : t :=
  mk p (secondPoint this) (workingCanvas this) (drawingCanvas this).

Definition set_secondPoint (p : option Point.t) (this : t) : t :=
  mk (firstPoint this) p (workingCanvas this) (drawingCanvas this).

(** [constructor(workingCanvas, previewCanvas)]: both points are set to
    null.  [super(workingCanvas, previewCanvas)] is the constructor of
    [DrawingTool], which is not among the sources: it is taken to keep its
    two arguments, in this order, in the fields [workingCanvas] and
    [drawingCanvas] that the methods read. *)
Definition constructor (workingCanvas previewCanvas : ref) : t :=
  mk None None workingCanvas previewCanvas.

Section Methods.
Context `{DrawingPrimitives}.

(** [apply(image, parameters)] *)
Definition apply (image : ref) (this : t) : M unit :=
  let* imageData := Canvas_getImageData image in
  let* p := nonnull (firstPoint this) in
  let* q := nonnull (secondPoint this) in
  Canvas_setImageData image (Ellipse_drawFromBoundingRect p q imageData).

(** [onMouseDown(event)] *)
Definition onMouseDown (event : MouseEvent.t) (this : t) : M t :=
  let* p := Canvas_getMouseEventCoordinates (workingCanvas this) event in
  ret (set_firstPoint (Some (Point.floor p)) this).

(** [onMouseUp(event)] *)
Definition onMouseUp (event : MouseEvent.t) (this : t) : M t :=
  match firstPoint this with
  | None => ret this
  | Some _ =>
      let* p := Canvas_getMouseEventCoordinates (workingCanvas this) event in
      let this := set_secondPoint (Some (Point.floor p)) this in
      apply (drawingCanvas this) this ;;;
      Canvas_clear (workingCanvas this) ;;;
      let this := set_firstPoint None this in
      let this := set_secondPoint None this in
      ret this
  end.

(** [onMouseMove(event)] *)
Definition onMouseMove (event : MouseEvent.t) (this : t) : M t :=
  match firstPoint this with
  | None => ret this
  | Some _ =>
      let* p := Canvas_getMouseEventCoordinates (workingCanvas this) event in
      let this := set_secondPoint (Some (Point.floor p)) this in
      Canvas_clear (workingCanvas this) ;;;
      apply (workingCanvas this) this ;;;
      ret this
  end.

(** The callbacks registered by [initEventHandlers]: "mousedown",
    "mouseup" and "mousemove". *)
Definition dispatch (e : PointerEvent) (this : t) : M t :=
  match e with
  | MouseDown event => onMouseDown event this
  | MouseMove event => onMouseMove event this
  | MouseUp event => onMouseUp event this
  end.

(** The events of a list delivered in order. *)
Fixpoint run (es : list PointerEvent) (this : t) : M t :=
  match es with
  | [] => ret this
  | e :: es' => let* this := dispatch e this in run es' this
  end.
End Methods.
End EllipseTool.

(** ** [ImageWorkspace], as the tools and the effect use it *)

Module Layer.
Record t : Type := new { canvas : ref }.
End Layer.

Module DrawingLayers.
Record t : Type := new { layers : list Layer.t; selectedLayer : option Layer.t }.
End DrawingLayers.

Module ImageWorkspace.
Record t : Type := new {
  workingCanvas : ref;
  drawingCanvas : ref;
  drawingLayers : DrawingLayers.t
}.
End ImageWorkspace.

(** ** [FreeHandTool] (src/ts/DrawingTools/FreeHandTool.ts) *)

Module FreeHandParameters.
Record t : Type := mk { color : string; thickess : Z }.

(** [new FreeHandParameters()] *)
Definition new : t := mk "#000000" 1.
End FreeHandParameters.

Module FreeHandTool.
Record t : Type := mk {
  parameters : FreeHandParameters.t;
  lastPosition : option Point.t;
  (** inherited from [Tool] *)
  workspace : ImageWorkspace.t
}.

Definition set_lastPosition (p : option Point.t) (this : t) : t :=
  mk (parameters this) p (workspace this).

(** [constructor(workspace)] *)
Definition constructor (workspace : ImageWorkspace.t) : t :=
  mk FreeHandParameters.new None workspace.

Section Methods.
Context `{DrawingPrimitives}.

(** [drawLine(image, currentPosition)] *)
Definition drawLine (image : ref) (currentPosition : Point.t) (this : t) : M unit :=
  let* imageData := Canvas_getImageData image in
  let* from := nonnull (lastPosition this) in
  Canvas_setImageData image (Line_draw imageData from currentPosition Line_paintItBlack).

(** [onMouseDown(event)] *)
Definition onMouseDown (event : MouseEvent.t) (this : t) : M t :=
  match lastPosition this with
  | Some _ => ret this
  | None =>
      let* p := Canvas_getMouseEventCoordinates
                  (ImageWorkspace.workingCanvas (workspace this)) event in
      ret (set_lastPosition (Some (Point.floor p)) this)
  end.

(** [onMouseMove(event)] *)
Definition onMouseMove (event : MouseEvent.t) (this : t) : M t :=
  match lastPosition this with
  | None => ret this
  | Some _ =>
      let* p := Canvas_getMouseEventCoordinates
                  (ImageWorkspace.workingCanvas (workspace this)) event in
      let currentPosition := Point.floor p in
      drawLine (ImageWorkspace.drawingCanvas (workspace this)) currentPosition this ;;;
      ret (set_lastPosition (Some currentPosition) this)
  end.

(** [onMouseUp(event)] *)
Definition onMouseUp (event : MouseEvent.t) (this : t) : M t :=
  let* this := onMouseMove event this in
  ret (set_lastPosition None this).

(** The callbacks registered by [initEventHandlers]. *)
Definition dispatch (e : PointerEvent) (this : t) : M t :=
  match e with
  | MouseDown event => onMouseDown event this
  | MouseMove event => onMouseMove event this
  | MouseUp event => onMouseUp event this
  end.

(** The events of a list delivered in order. *)
Fixpoint run (es : list PointerEvent) (this : t) : M t :=
  match es with
  | [] => ret this
  | e :: es' => let* this := dispatch e this in run es' this
  end.
End Methods.
End FreeHandTool.

(** ** [InverseColorEffect] (src/ts/Effects/InverseColorEffect.ts) *)

Module InverseColorEffect.
(** The fields of [Effect] that [apply] uses. *)
Record t : Type := mk { workspace : ImageWorkspace.t }.

Section Methods.
Context `{DrawingPrimitives}.

(** [apply()] *)
Definition apply (this : t) : M unit :=
  match DrawingLayers.selectedLayer (ImageWorkspace.drawingLayers (workspace this)) with
  | None => ret tt
  | Some selectedLayer =>
      let* imageData := Canvas_getImageData (Layer.canvas selectedLayer) in
      Canvas_setImageData (Layer.canvas selectedLayer) (ColorEffects_inverseColors imageData)
  end.
End Methods.
End InverseColorEffect.

(** ** Reference primitives

    The three primitive modules are not among the sources; the definitions
    below follow their contracts in the design document.  The general
    theorems do not use them: they serve to run the tools on concrete
    inputs. *)

(** A store into a [Uint8ClampedArray] clamps to 0..255. *)
Definition clamp8 (v : Z) : Z := Z.max 0 (Z.min 255 v).

(** A well-formed [Uint8ClampedArray]. *)
Definition bytes (d : list Z) : Prop := Forall (fun b => (0 <= b <= 255)%Z) d.

Module ColorEffects.
(** Modelled from the spec: the body of [ColorEffects.inverseColors]
    (DrawingPrimitives/ColorEffects.ts is missing).  "For every pixel,
    replaces each of the R, G, B channels with 255 - channel and leaves the
    alpha channel untouched. Full-buffer, in-place, no sampling or
    blending." *)
Fixpoint inverse (d : list Z) : list Z :=
  match d with
  | r :: g :: b :: a :: rest =>
      clamp8 (255 - r) :: clamp8 (255 - g) :: clamp8 (255 - b) :: a :: inverse rest
  | _ => d
  end.

(** Modelled from the spec: [ColorEffects.inverseColors(buffer)]
    (DrawingPrimitives/ColorEffects.ts is missing). *)
Definition inverseColors (imageData : ImageData.t) : ImageData.t :=
  ImageData.new (ImageData.width imageData) (ImageData.height imageData)
                (inverse (ImageData.data imageData)).
End ColorEffects.

Definition Color : Type := (Z * Z * Z * Z)%type.

(** Writing the four channels of pixel [(x, y)]; nothing outside of the
    buffer. *)
Definition setPixel (x y : Z) (c : Color) (img : ImageData.t) : ImageData.t :=
  let '(r, g, b, a) := c in
  let w := ImageData.width img in
  let h := ImageData.height img in
  if ((0 <=? x) && (x <? Z.of_nat w) && (0 <=? y) && (y <? Z.of_nat h))%Z
  then
    let i := pixel_index w (Z.to_nat x) (Z.to_nat y) in
    ImageData.new w h
      (<[i + 3 := clamp8 a]> (<[i + 2 := clamp8 b]> (<[i + 1 := clamp8 g]>
         (<[i := clamp8 r]> (ImageData.data img)))))
  else img.

Module Line.
(** Modelled from the spec: the pixel callback of [Line.draw]
    (DrawingPrimitives/Line.ts is missing).  "colorFn is invoked once per
    visited pixel with its coordinates and decides the output color". *)
Definition PixelCallback : Type := Z -> Z -> Color.

(** Modelled from the spec: [Line.paintItBlack] (DrawingPrimitives/Line.ts is
    missing), the "pure-black default stroke". *)
Definition paintItBlack : PixelCallback := fun _ _ => (0, 0, 0, 255)%Z.

(** Modelled from the spec: the stepping loop of [Line.draw]
    (DrawingPrimitives/Line.ts is missing).  "A symmetric, bidirectional,
    single-pixel-wide stepping algorithm (Bresenham-class): at each step
    choose the axis to advance based on an accumulated error term". *)
Fixpoint walk (fuel : nat) (x0 y0 x1 y1 dx dy sx sy err : Z)
    (colorFn : PixelCallback) (img : ImageData.t) : ImageData.t :=
  let img := setPixel x0 y0 (colorFn x0 y0) img in
  match fuel with
  | O => img
  | S fuel' =>
      if ((x0 =? x1) && (y0 =? y1))%Z then img
      else
        let e2 := (2 * err)%Z in
        let stepx := (dy <=? e2)%Z in
        let stepy := (e2 <=? dx)%Z in
        let err := if stepx then (err + dy)%Z else err in
        let x0 := if stepx then (x0 + sx)%Z else x0 in
        let err := if stepy then (err + dx)%Z else err in
        let y0 := if stepy then (y0 + sy)%Z else y0 in
        walk fuel' x0 y0 x1 y1 dx dy sx sy err colorFn img
  end.

(** Modelled from the spec: [Line.draw(buffer, p0, p1, colorFn)]
    (DrawingPrimitives/Line.ts is missing).  "Rasterizes the segment between
    two integer pixel points ... Degenerate case p0 == p1 draws a single
    pixel." *)
Definition draw (img : ImageData.t) (p0 p1 : Point.t) (colorFn : PixelCallback)
    : ImageData.t :=
  let x0 := Qfloor (Point.x p0) in
  let y0 := Qfloor (Point.y p0) in
  let x1 := Qfloor (Point.x p1) in
  let y1 := Qfloor (Point.y p1) in
  let dx := Z.abs (x1 - x0) in
  let dy := (- Z.abs (y1 - y0))%Z in
  let sx := if (x0 <? x1)%Z then 1%Z else (-1)%Z in
  let sy := if (y0 <? y1)%Z then 1%Z else (-1)%Z in
  walk (Z.to_nat (dx - dy)) x0 y0 x1 y1 dx dy sx sy (dx + dy)%Z colorFn img.
End Line.

Module Ellipse.
(** Modelled from the spec: membership of pixel [(x, y)] in the ellipse
    inscribed in the rectangle of pixels of corners [(x0, y0)] and
    [(x1, y1)], with [x0 <= x1] and [y0 <= y1] (DrawingPrimitives/Ellipse.ts
    is missing).  The rectangle covers [w = x1 - x0 + 1] by [h = y1 - y0 + 1]
    pixels; with [(u, v)] twice the offset of the centre of the pixel from
    the centre of the rectangle, the test is [(u/w)^2 + (v/h)^2 <= 1]. *)
Definition inside (x0 y0 x1 y1 x y : Z) : bool :=
  let w := (x1 - x0 + 1)%Z in
  let h := (y1 - y0 + 1)%Z in
  let u := (2 * (x - x0) + 1 - w)%Z in
  let v := (2 * (y - y0) + 1 - h)%Z in
  ((x0 <=? x) && (x <=? x1) && (y0 <=? y) && (y <=? y1)
   && (u * u * (h * h) + v * v * (w * w) <=? w * w * (h * h)))%Z.

(** Modelled from the spec: the outline, "not filled (outline only)"
    (DrawingPrimitives/Ellipse.ts is missing): the pixels of the ellipse
    with a horizontal or vertical neighbour out of it. *)
Definition outline (x0 y0 x1 y1 x y : Z) : bool :=
  inside x0 y0 x1 y1 x y
  && negb (inside x0 y0 x1 y1 (x - 1) y && inside x0 y0 x1 y1 (x + 1) y
           && inside x0 y0 x1 y1 x (y - 1) && inside x0 y0 x1 y1 x (y + 1)).

(** Modelled from the spec: [Ellipse.drawFromBoundingRect(p0, p1, buffer)]
    (DrawingPrimitives/Ellipse.ts is missing).  "Treats p0/p1 as two opposite
    corners of an axis-aligned rectangle and rasterizes the ellipse inscribed
    in that rectangle. Must handle p0/p1 given in either order (normalize to
    min/max per axis first) and degenerate rectangles". *)
Definition drawFromBoundingRect (p0 p1 : Point.t) (img : ImageData.t) : ImageData.t :=
  let ax := Qfloor (Point.x p0) in
  let ay := Qfloor (Point.y p0) in
  let bx := Qfloor (Point.x p1) in
  let b_y := Qfloor (Point.y p1) in
  let x0 := Z.min ax bx in
  let x1 := Z.max ax bx in
  let y0 := Z.min ay b_y in
  let y1 := Z.max ay b_y in
  fold_left (fun img dy =>
    fold_left (fun img dx =>
      let x := (x0 + Z.of_nat dx)%Z in
      let y := (y0 + Z.of_nat dy)%Z in
      if outline x0 y0 x1 y1 x y then setPixel x y (0, 0, 0, 255)%Z img else img)
      (seq 0 (S (Z.to_nat (x1 - x0)))) img)
    (seq 0 (S (Z.to_nat (y1 - y0)))) img.
End Ellipse.

(** The reference primitives as an implementation of [DrawingPrimitives]. *)
Definition reference_primitives : DrawingPrimitives :=
  {| PixelCallback := Line.PixelCallback;
     Ellipse_drawFromBoundingRect := Ellipse.drawFromBoundingRect;
     Line_draw := Line.draw;
     Line_paintItBlack := Line.paintItBlack;
     ColorEffects_inverseColors := ColorEffects.inverseColors |}.

(** ** Concrete worlds for running the tools *)

Definition ZQ (z : Z) : number := inject_Z z.

Definition mouseAt (cx cy : Z) : MouseEvent.t := MouseEvent.new (ZQ cx) (ZQ cy).

(** A transparent [w] x [h] canvas displayed at its own size at the origin of
    the client area, as [updateDimensions] sets it up. *)
Definition blankCanvas (w h : nat) : Canvas.t :=
  Canvas.new (HTMLCanvasElement.new w h (repeat 0%Z (4 * w * h))) w h
             (ClientRect.new (ZQ 0) (ZQ 0) (ZQ (Z.of_nat w)) (ZQ (Z.of_nat h))).

(** Reference 1 is the working (preview) canvas, reference 2 the drawing
    canvas. *)
Definition blankWorld (w h : nat) : World :=
  mkWorld (<[1 := blankCanvas w h]> (<[2 := blankCanvas w h]> ∅)) [].

(** The bitmap of the canvas behind a reference. *)
Definition bitmapOf (c : ref) (w : World) : option (list Z) :=
  match heap w !! c with
  | Some v => Some (HTMLCanvasElement.bitmap (Canvas.canvas v))
  | None => None
  end.

(** The image data read from a blank canvas. *)
Definition blankImage (w h : nat) : ImageData.t :=
  ImageData.new w h (repeat 0%Z (4 * w * h)).

(** What a run shows: the tool, and the bitmaps of the working canvas and of
    the drawing canvas of [blankWorld]. *)
Definition observe {T : Type} (r : option (T * World))
    : option (T * option (list Z) * option (list Z)) :=
  match r with
  | Some (t, w) => Some (t, bitmapOf 1 w, bitmapOf 2 w)
  | None => None
  end.

(** A workspace over the two canvases of [blankWorld], with the given
    selection. *)
Definition workspaceOf (selectedLayer : option Layer.t) : ImageWorkspace.t :=
  ImageWorkspace.new 1 2 (DrawingLayers.new [Layer.new 2] selectedLayer).

Definition pointAt (px py : Z) : Point.t := Point.new (ZQ px) (ZQ py).

(** Four transparent pixels, and the same with the first [n] painted black. *)
Definition blackPixels (n : nat) : list Z :=
  flat_map (fun i => if i <? n then [0; 0; 0; 255]%Z else [0; 0; 0; 0]%Z) (seq 0 4).

(** Does a call write the pixels of canvas [c]? *)
Definition is_write (c : ref) (call : ContextCall) : bool :=
  match call with
  | PutImageData c' | ClearRect c' => c' =? c
  | GetImageData _ => false
  end.

(** The number of calls in a log that write canvas [c]. *)
Definition writes (c : ref) (log : list ContextCall) : nat :=
  length (List.filter (is_write c) log).

(** Does the delivery of [pe] to the ellipse tool [this] end a gesture, that
    is, is it a pointer-up while an anchor point is held? *)
Definition ends_gesture (pe : PointerEvent) (this : EllipseTool.t) : bool :=
  match pe, EllipseTool.firstPoint this with
  | MouseUp _, Some _ => true
  | _, _ => false
  end.

(** ** More of [Canvas], and what the statements below speak of *)

(** A canvas as [updateDimensions] leaves it: the [width] and [height] of
    the object are those of its node, and the bitmap of the node has four
    bytes for each of its pixels. *)
Definition wellFormed (v : Canvas.t) : Prop :=
  HTMLCanvasElement.width (Canvas.canvas v) = Canvas.width v
  /\ HTMLCanvasElement.height (Canvas.canvas v) = Canvas.height v
  /\ length (HTMLCanvasElement.bitmap (Canvas.canvas v))
     = 4 * Canvas.width v * Canvas.height v.

(** An [ImageData] of the size of canvas [v]. *)
Definition fits (d : ImageData.t) (v : Canvas.t) : Prop :=
  ImageData.width d = Canvas.width v
  /\ ImageData.height d = Canvas.height v
  /\ length (ImageData.data d) = 4 * Canvas.width v * Canvas.height v.

(** The four channels of pixel [(x, y)] of the bitmap of a node. *)
Definition pixelOf (e : HTMLCanvasElement.t) (x y : nat) : Color :=
  let ch := channel (HTMLCanvasElement.width e) (HTMLCanvasElement.height e)
                    (HTMLCanvasElement.bitmap e) x y in
  (ch 0, ch 1, ch 2, ch 3).

Definition channelOf (c : nat) (p : Color) : Z :=
  let '(r, g, b, a) := p in
  match c with
  | 0 => r
  | 1 => g
  | 2 => b
  | _ => a
  end.

Module CanvasImage.
(** [context.drawImage(image, dx, dy)], the image being the node of a
    canvas: in the rectangle that the image covers once its top-left corner
    is put at [(dx, dy)], each pixel of the bitmap becomes the pixel of the
    image composited on it by [over]; the other pixels stay. *)
Definition drawImage (over : Color -> Color -> Color) (image : HTMLCanvasElement.t)
    (dx dy : nat) (e : HTMLCanvasElement.t) : HTMLCanvasElement.t :=
  HTMLCanvasElement.new (HTMLCanvasElement.width e) (HTMLCanvasElement.height e)
    (tabulate (HTMLCanvasElement.width e) (HTMLCanvasElement.height e) (fun x y c =>
       if (dx <=? x) && (x <? dx + HTMLCanvasElement.width image)
          && (dy <=? y) && (y <? dy + HTMLCanvasElement.height image)
       then channelOf c (over (pixelOf image (x - dx) (y - dy)) (pixelOf e x y))
       else channel (HTMLCanvasElement.width e) (HTMLCanvasElement.height e)
                    (HTMLCanvasElement.bitmap e) x y c)).

(** [drawCanvas(canvas)] of [Canvas]:
    [this.canvas2DContext.drawImage(canvas.canvas, this.width, this.height)] *)
Definition drawCanvas (over : Color -> Color -> Color) (canvas : Canvas.t)
    (this : Canvas.t) : Canvas.t :=
  Canvas.new (drawImage over (Canvas.canvas canvas) (Canvas.width this)
                        (Canvas.height this) (Canvas.canvas this))
             (Canvas.width this) (Canvas.height this) (Canvas.canvasBoundingRect this).
End CanvasImage.

(** Two canvases of the same size, displayed at the same place. *)
Definition sameGeometry (v v' : Canvas.t) : Prop :=
  Canvas.width v' = Canvas.width v
  /\ Canvas.height v' = Canvas.height v
  /\ Canvas.canvasBoundingRect v' = Canvas.canvasBoundingRect v.

(** The blank canvas of the size and at the place of [v]. *)
Definition blankLike (v : Canvas.t) : Canvas.t :=
  Canvas.new (HTMLCanvasElement.new (Canvas.width v) (Canvas.height v)
                (repeat 0%Z (4 * Canvas.width v * Canvas.height v)))
             (Canvas.width v) (Canvas.height v) (Canvas.canvasBoundingRect v).

(** Reference [c] names a canvas of the heap whose image data can be read:
    its [width] and [height] are not 0. *)
Definition readable (c : ref) (h : gmap ref Canvas.t) : Prop :=
  exists v, h !! c = Some v /\ Canvas.width v <> 0 /\ Canvas.height v <> 0.

(** Bytes that a 2D context keeps exactly as they are given: the bytes of
    pixels that are opaque (alpha 255, colour channels in 0..255) or
    transparent black.  A real context keeps the other pixels premultiplied
    by their alpha and may give them back changed; on the bytes below the
    bitmap of this model is what the context holds. *)
Fixpoint storedExactlyb (d : list Z) : bool :=
  match d with
  | [] => true
  | r :: g :: b :: a :: rest =>
      (((a =? 255) && (0 <=? r) && (r <=? 255) && (0 <=? g) && (g <=? 255)
        && (0 <=? b) && (b <=? 255))
       || ((r =? 0) && (g =? 0) && (b =? 0) && (a =? 0)))%Z
      && storedExactlyb rest
  | _ => false
  end.

Definition storedExactly (d : list Z) : Prop := storedExactlyb d = true.

(** The canvas [v] with [bm] as the bitmap of a node of its size. *)
Definition withBitmap (v : Canvas.t) (bm : list Z) : Canvas.t :=
  Canvas.new (HTMLCanvasElement.new (Canvas.width v) (Canvas.height v) bm)
             (Canvas.width v) (Canvas.height v) (Canvas.canvasBoundingRect v).

(** No canvas of the heap has a node of width or height 0 (where
    [getMouseEventCoordinates] would divide by 0). *)
Definition nodesNotEmpty (h : gmap ref Canvas.t) : Prop :=
  forall c v, h !! c = Some v ->
    HTMLCanvasElement.width (Canvas.canvas v) <> 0
    /\ HTMLCanvasElement.height (Canvas.canvas v) <> 0.


(** A 1 x 2 canvas holding two opaque pixels, (10,20,30) and (0,255,128),
    and a world with it as canvas 2. *)
Definition paintedCanvas : Canvas.t :=
  Canvas.new (HTMLCanvasElement.new 1 2 [10; 20; 30; 255; 0; 255; 128; 255]%Z) 1 2
             (ClientRect.new (ZQ 0) (ZQ 0) (ZQ 1) (ZQ 2)).

Definition paintedWorld : World :=
  mkWorld (<[1 := blankCanvas 1 2]> (<[2 := paintedCanvas]> ∅)) [].

(** A point with integer coordinates. *)
Definition integral (p : Point.t) : Prop :=
  exists zx zy : Z, p = Point.new (inject_Z zx) (inject_Z zy).

(** A possibly-null point is null or integral. *)
Definition integralOrNull (o : option Point.t) : Prop :=
  match o with
  | Some p => integral p
  | None => True
  end.

(** Is the event a pointer-down? *)
Definition is_down (pe : PointerEvent) : bool :=
  match pe with
  | MouseDown _ => true
  | MouseMove _ | MouseUp _ => false
  end.

(** The position of an event as a tool takes it from canvas [v]: mapped by
    [getMouseEventCoordinates], then floored. *)
Definition positionOn (v : Canvas.t) (event : MouseEvent.t) : Point.t :=
  Point.floor (Canvas.getMouseEventCoordinates event v).

Section Strokes.
Context `{DrawingPrimitives}.

(** The segments from [from] through the points of [ps], drawn in order by
    [Line.draw] with [Line.paintItBlack]. *)
Fixpoint polyline (img : ImageData.t) (from : Point.t) (ps : list Point.t)
    : ImageData.t :=
  match ps with
  | [] => img
  | p :: ps' => polyline (Line_draw img from p Line_paintItBlack) p ps'
  end.

(** The last point of a stroke. *)
Definition strokeEnd (from : Point.t) (ps : list Point.t) : Point.t :=
  List.last ps from.

(** [Line.draw] cannot resize the [ImageData] it is given (its [width] and
    [height] are read-only and its [data] is a typed array). *)
Definition Line_keeps_shape : Prop :=
  forall img p q cb,
    ImageData.width (Line_draw img p q cb) = ImageData.width img
    /\ ImageData.height (Line_draw img p q cb) = ImageData.height img
    /\ length (ImageData.data (Line_draw img p q cb)) = length (ImageData.data img).

(** The same for [ColorEffects.inverseColors]. *)
Definition inverseColors_keeps_shape : Prop :=
  forall img,
    ImageData.width (ColorEffects_inverseColors img) = ImageData.width img
    /\ ImageData.height (ColorEffects_inverseColors img) = ImageData.height img
    /\ length (ImageData.data (ColorEffects_inverseColors img))
       = length (ImageData.data img).
End Strokes.

(** * Properties *)

(** ** The canvas methods, step by step *)

Lemma getMouseEventCoordinates_on_ref c event w v :
  heap w !! c = Some v ->
  Canvas_getMouseEventCoordinates c event w
  = Some (Canvas.getMouseEventCoordinates event v, w).
Proof.
  intros Hc. unfold Canvas_getMouseEventCoordinates, bind, deref, ret.
  now rewrite Hc.
Qed.

Lemma getImageData_on_ref c w v img :
  heap w !! c = Some v ->
  Canvas.getImageData v = Some img ->
  Canvas_getImageData c w = Some (img, mkWorld (heap w) (GetImageData c :: calls w)).
Proof.
  intros Hc Hg. unfold Canvas_getImageData. now rewrite Hc, Hg.
Qed.

Lemma setImageData_on_ref c img w v :
  heap w !! c = Some v ->
  Canvas_setImageData c img w
  = Some (tt, mkWorld (<[c := Canvas.setImageData img v]> (heap w))
                      (PutImageData c :: calls w)).
Proof.
  intros Hc. unfold Canvas_setImageData. now rewrite Hc.
Qed.

Lemma clear_on_ref c w v :
  heap w !! c = Some v ->
  Canvas_clear c w
  = Some (tt, mkWorld (<[c := Canvas.clear v]> (heap w)) (ClearRect c :: calls w)).
Proof.
  intros Hc. unfold Canvas_clear. now rewrite Hc.
Qed.

(** What a successful call on a reference leaves behind. *)

Lemma getMouseEventCoordinates_inv c event w p w' :
  Canvas_getMouseEventCoordinates c event w = Some (p, w') ->
  w' = w /\ exists v, heap w !! c = Some v /\ p = Canvas.getMouseEventCoordinates event v.
Proof.
  unfold Canvas_getMouseEventCoordinates, bind, deref, ret.
  destruct (heap w !! c) as [v|] eqn:Hc; [|discriminate].
  intros [= <- <-]. eauto.
Qed.

Lemma getImageData_inv c w img w' :
  Canvas_getImageData c w = Some (img, w') ->
  exists v, heap w !! c = Some v /\ Canvas.getImageData v = Some img
            /\ w' = mkWorld (heap w) (GetImageData c :: calls w).
Proof.
  unfold Canvas_getImageData.
  destruct (heap w !! c) as [v|] eqn:Hc; [|discriminate].
  destruct (Canvas.getImageData v) as [d|] eqn:Hd; [|discriminate].
  intros [= <- <-]. eauto.
Qed.

Lemma setImageData_inv c img w u w' :
  Canvas_setImageData c img w = Some (u, w') ->
  exists v, heap w !! c = Some v
            /\ w' = mkWorld (<[c := Canvas.setImageData img v]> (heap w))
                            (PutImageData c :: calls w).
Proof.
  unfold Canvas_setImageData.
  destruct (heap w !! c) as [v|] eqn:Hc; [|discriminate].
  intros [= <- <-]. eauto.
Qed.

Lemma clear_inv c w u w' :
  Canvas_clear c w = Some (u, w') ->
  exists v, heap w !! c = Some v
            /\ w' = mkWorld (<[c := Canvas.clear v]> (heap w)) (ClearRect c :: calls w).
Proof.
  unfold Canvas_clear.
  destruct (heap w !! c) as [v|] eqn:Hc; [|discriminate].
  intros [= <- <-]. eauto.
Qed.

Lemma bind_inv {A B : Type} (m : M A) (k : A -> M B) w b w' :
  bind m k w = Some (b, w') ->
  exists a w1, m w = Some (a, w1) /\ k a w1 = Some (b, w').
Proof.
  unfold bind. destruct (m w) as [[a w1]|]; [|discriminate]. eauto.
Qed.

Lemma nonnull_inv {A : Type} (o : option A) w a w' :
  nonnull o w = Some (a, w') -> o = Some a /\ w' = w.
Proof.
  unfold nonnull. destruct o; [|discriminate]. now intros [= <- <-].
Qed.

Section ToolProperties.
Context `{DrawingPrimitives}.

(** [apply] of the ellipse tool on a canvas, once both points are set. *)
Lemma EllipseTool_apply_run image this w v img p q :
  heap w !! image = Some v ->
  Canvas.getImageData v = Some img ->
  EllipseTool.firstPoint this = Some p ->
  EllipseTool.secondPoint this = Some q ->
  EllipseTool.apply image this w
  = Some (tt, mkWorld (<[image := Canvas.setImageData
                                    (Ellipse_drawFromBoundingRect p q img) v]> (heap w))
                      (PutImageData image :: GetImageData image :: calls w)).
Proof.
  intros Hv Hg Hp Hq. unfold EllipseTool.apply, bind.
  rewrite (getImageData_on_ref _ _ _ _ Hv Hg), Hp, Hq. simpl.
  now rewrite (setImageData_on_ref _ _ _ v).
Qed.

(** C6: a pointer-up in the Idle state (no anchor, no last position) is
    dropped: the handler of either tool returns normally, and the tool and
    the world (both surfaces, and the log of context calls) are as before. *)
Theorem idle_pointer_up_is_dropped :
  forall (event : MouseEvent.t) (w : World)
         (ellipse : EllipseTool.t) (freehand : FreeHandTool.t),
    EllipseTool.firstPoint ellipse = None ->
    FreeHandTool.lastPosition freehand = None ->
    EllipseTool.onMouseUp event ellipse w = Some (ellipse, w)
    /\ FreeHandTool.onMouseUp event freehand w = Some (freehand, w).
Proof.
  intros event w ellipse freehand He Hf. split.
  - unfold EllipseTool.onMouseUp. now rewrite He.
  - unfold FreeHandTool.onMouseUp, FreeHandTool.onMouseMove, bind.
    rewrite Hf. unfold ret. destruct freehand as [ps last ws].
    simpl in Hf. subst last. reflexivity.
Qed.

(** C10: with a selected layer, [apply] of the effect succeeds and changes
    nothing but the bitmap of the selected layer's canvas: that canvas keeps
    its dimensions and its bounding rectangle, and every other canvas of the
    heap (the canvases of the other layers, the preview canvas) is the same
    object as before.  The workspace record, with its selection, is only
    read by [apply]. *)
Theorem inverse_color_effect_frame :
  forall (this : InverseColorEffect.t) (w : World)
         (layer : Layer.t) (v : Canvas.t) (img : ImageData.t),
    DrawingLayers.selectedLayer
      (ImageWorkspace.drawingLayers (InverseColorEffect.workspace this)) = Some layer ->
    heap w !! Layer.canvas layer = Some v ->
    Canvas.getImageData v = Some img ->
    exists (w' : World) (v' : Canvas.t),
      InverseColorEffect.apply this w = Some (tt, w')
      /\ heap w' !! Layer.canvas layer = Some v'
      /\ Canvas.width v' = Canvas.width v
      /\ Canvas.height v' = Canvas.height v
      /\ Canvas.canvasBoundingRect v' = Canvas.canvasBoundingRect v
      /\ HTMLCanvasElement.width (Canvas.canvas v') = HTMLCanvasElement.width (Canvas.canvas v)
      /\ HTMLCanvasElement.height (Canvas.canvas v') = HTMLCanvasElement.height (Canvas.canvas v)
      /\ forall c : ref, c <> Layer.canvas layer -> heap w' !! c = heap w !! c.
Proof.
  intros this w layer v img Hsel Hv Hg.
  unfold InverseColorEffect.apply. rewrite Hsel. unfold bind.
  rewrite (getImageData_on_ref _ _ _ _ Hv Hg).
  rewrite (setImageData_on_ref _ _ _ v) by exact Hv.
  eexists _, _. split; [reflexivity|]. simpl.
  split; [apply lookup_insert_eq|].
  repeat split; intros c Hc. now apply lookup_insert_ne.
Qed.

(** ** The invariant of the ellipse tool *)

Lemma EllipseTool_onMouseDown_inv event this w this' w' :
  EllipseTool.onMouseDown event this w = Some (this', w') ->
  w' = w /\ exists p, this' = EllipseTool.set_firstPoint (Some p) this.
Proof.
  unfold EllipseTool.onMouseDown. intros Hrun.
  apply bind_inv in Hrun as (p & w1 & Hc & Hr).
  apply getMouseEventCoordinates_inv in Hc as (-> & _).
  unfold ret in Hr. injection Hr as <- <-. eauto.
Qed.

Lemma EllipseTool_apply_inv image this w u w' :
  EllipseTool.apply image this w = Some (u, w') ->
  exists v img,
    heap w !! image = Some v
    /\ w' = mkWorld (<[image := Canvas.setImageData img v]> (heap w))
                    (PutImageData image :: GetImageData image :: calls w).
Proof.
  unfold EllipseTool.apply. intros Hrun.
  apply bind_inv in Hrun as (img & w1 & Hg & Hrun).
  apply getImageData_inv in Hg as (v & Hv & _ & ->).
  apply bind_inv in Hrun as (p & w2 & Hp & Hrun). apply nonnull_inv in Hp as (_ & ->).
  apply bind_inv in Hrun as (q & w3 & Hq & Hrun). apply nonnull_inv in Hq as (_ & ->).
  apply setImageData_inv in Hrun as (v' & Hv' & ->). simpl in *.
  rewrite Hv in Hv'. injection Hv' as <-. eauto.
Qed.

Lemma EllipseTool_onMouseMove_inv event this w this' w' :
  EllipseTool.onMouseMove event this w = Some (this', w') ->
  (EllipseTool.firstPoint this = None /\ this' = this /\ w' = w)
  \/ (exists anchor q v1 v2,
        EllipseTool.firstPoint this = Some anchor
        /\ this' = EllipseTool.set_secondPoint (Some q) this
        /\ heap w' = <[EllipseTool.workingCanvas this := v2]>
                       (<[EllipseTool.workingCanvas this := v1]> (heap w))
        /\ calls w' = PutImageData (EllipseTool.workingCanvas this)
                        :: GetImageData (EllipseTool.workingCanvas this)
                        :: ClearRect (EllipseTool.workingCanvas this) :: calls w).
Proof.
  unfold EllipseTool.onMouseMove. intros Hrun.
  destruct (EllipseTool.firstPoint this) as [anchor|] eqn:Ha.
  - right.
    apply bind_inv in Hrun as (p & w1 & Hc & Hrun).
    apply getMouseEventCoordinates_inv in Hc as (-> & _).
    apply bind_inv in Hrun as (u1 & w2 & Hclear & Hrun).
    apply clear_inv in Hclear as (v & Hv & ->).
    apply bind_inv in Hrun as (u2 & w3 & Happ & Hrun).
    apply EllipseTool_apply_inv in Happ as (v' & img & Hv' & ->).
    unfold ret in Hrun. injection Hrun as <- <-. simpl.
    eexists _, _, _, _. repeat split; reflexivity.
  - left. unfold ret in Hrun. injection Hrun as <- <-. auto.
Qed.

Lemma EllipseTool_onMouseUp_inv event this w this' w' :
  EllipseTool.onMouseUp event this w = Some (this', w') ->
  (EllipseTool.firstPoint this = None /\ this' = this /\ w' = w)
  \/ (exists anchor v1 v2 v3,
        EllipseTool.firstPoint this = Some anchor
        /\ this' = EllipseTool.mk None None (EllipseTool.workingCanvas this)
                                  (EllipseTool.drawingCanvas this)
        /\ heap w !! EllipseTool.drawingCanvas this = Some v1
        /\ heap w' = <[EllipseTool.workingCanvas this := v3]>
                       (<[EllipseTool.drawingCanvas this := v2]> (heap w))
        /\ calls w' = ClearRect (EllipseTool.workingCanvas this)
                        :: PutImageData (EllipseTool.drawingCanvas this)
                        :: GetImageData (EllipseTool.drawingCanvas this) :: calls w).
Proof.
  unfold EllipseTool.onMouseUp. intros Hrun.
  destruct (EllipseTool.firstPoint this) as [anchor|] eqn:Ha.
  - right.
    apply bind_inv in Hrun as (p & w1 & Hc & Hrun).
    apply getMouseEventCoordinates_inv in Hc as (-> & _).
    apply bind_inv in Hrun as (u1 & w2 & Happ & Hrun).
    apply EllipseTool_apply_inv in Happ as (v & img & Hv & ->).
    apply bind_inv in Hrun as (u2 & w3 & Hclear & Hrun).
    apply clear_inv in Hclear as (v' & Hv' & ->).
    unfold ret in Hrun. injection Hrun as <- <-. simpl in *.
    eexists _, _, _, _. repeat split; try reflexivity. exact Hv.
  - left. unfold ret in Hrun. injection Hrun as <- <-. auto.
Qed.

Lemma EllipseTool_dispatch_invariant pe this w this' w' :
  (EllipseTool.firstPoint this = None -> EllipseTool.secondPoint this = None) ->
  EllipseTool.dispatch pe this w = Some (this', w') ->
  EllipseTool.firstPoint this' = None -> EllipseTool.secondPoint this' = None.
Proof.
  intros Hinv Hrun. destruct pe as [event|event|event]; simpl in Hrun.
  - apply EllipseTool_onMouseDown_inv in Hrun as (_ & p & ->). discriminate.
  - apply EllipseTool_onMouseMove_inv in Hrun
      as [(Ha & -> & _) | (anchor & q & v1 & v2 & Ha & -> & _)].
    + exact Hinv.
    + simpl. rewrite Ha. discriminate.
  - apply EllipseTool_onMouseUp_inv in Hrun
      as [(Ha & -> & _) | (anchor & v1 & v2 & v3 & Ha & -> & _)].
    + exact Hinv.
    + reflexivity.
Qed.

Lemma EllipseTool_run_invariant es : forall this w this' w',
  (EllipseTool.firstPoint this = None -> EllipseTool.secondPoint this = None) ->
  EllipseTool.run es this w = Some (this', w') ->
  EllipseTool.firstPoint this' = None -> EllipseTool.secondPoint this' = None.
Proof.
  induction es as [|pe es IH]; intros this w this' w' Hinv Hrun; simpl in Hrun.
  - unfold ret in Hrun. injection Hrun as <- <-. exact Hinv.
  - apply bind_inv in Hrun as (this1 & w1 & Hstep & Hrest).
    eapply IH; [|exact Hrest].
    eapply EllipseTool_dispatch_invariant; eauto.
Qed.

(** C9: the two points of the ellipse tool are null after construction; in
    every state reached from there by a sequence of completed handlers,
    [firstPoint] null implies [secondPoint] null; from such a state every
    completed [onMouseUp] leaves both points null, and no handler started
    with [firstPoint] null sets [secondPoint]. *)
Theorem ellipse_points_invariant :
  forall (es : list PointerEvent) (working drawing : ref) (w w' : World)
         (this : EllipseTool.t),
    EllipseTool.run es (EllipseTool.constructor working drawing) w = Some (this, w') ->
    (EllipseTool.firstPoint (EllipseTool.constructor working drawing) = None
     /\ EllipseTool.secondPoint (EllipseTool.constructor working drawing) = None)
    /\ (EllipseTool.firstPoint this = None -> EllipseTool.secondPoint this = None)
    /\ (forall event this2 w2,
          EllipseTool.onMouseUp event this w' = Some (this2, w2) ->
          EllipseTool.firstPoint this2 = None /\ EllipseTool.secondPoint this2 = None)
    /\ (forall pe this2 w2,
          EllipseTool.firstPoint this = None ->
          EllipseTool.dispatch pe this w' = Some (this2, w2) ->
          EllipseTool.secondPoint this2 = None).
Proof.
  intros es working drawing w w' this Hrun.
  assert (Hinv : EllipseTool.firstPoint this = None -> EllipseTool.secondPoint this = None).
  { eapply EllipseTool_run_invariant; [|exact Hrun]. reflexivity. }
  split; [split; reflexivity|]. split; [exact Hinv|]. split.
  - intros event this2 w2 Hup.
    apply EllipseTool_onMouseUp_inv in Hup
      as [(Ha & -> & _) | (anchor & v1 & v2 & v3 & Ha & -> & _)]; auto.
  - intros pe this2 w2 Ha Hstep.
    destruct pe as [event|event|event]; simpl in Hstep.
    + apply EllipseTool_onMouseDown_inv in Hstep as (_ & p & ->). simpl. auto.
    + apply EllipseTool_onMouseMove_inv in Hstep
        as [(_ & -> & _) | (anchor & q & v1 & v2 & Ha' & _)]; [auto|congruence].
    + apply EllipseTool_onMouseUp_inv in Hstep
        as [(_ & -> & _) | (anchor & v1 & v2 & v3 & Ha' & _)]; [auto|congruence].
Qed.
(** ** The free-hand tool *)

(** A pointer-move of the free-hand tool while a gesture is in progress. *)
Lemma FreeHandTool_onMouseMove_run event this w last wcv dcv img :
  FreeHandTool.lastPosition this = Some last ->
  heap w !! ImageWorkspace.workingCanvas (FreeHandTool.workspace this) = Some wcv ->
  heap w !! ImageWorkspace.drawingCanvas (FreeHandTool.workspace this) = Some dcv ->
  Canvas.getImageData dcv = Some img ->
  FreeHandTool.onMouseMove event this w
  = let drawing := ImageWorkspace.drawingCanvas (FreeHandTool.workspace this) in
    let current := Point.floor (Canvas.getMouseEventCoordinates event wcv) in
    Some (FreeHandTool.set_lastPosition (Some current) this,
          mkWorld (<[drawing := Canvas.setImageData
                                  (Line_draw img last current Line_paintItBlack) dcv]>
                     (heap w))
                  (PutImageData drawing :: GetImageData drawing :: calls w)).
Proof.
  intros Hl Hwc Hdc Hg. unfold FreeHandTool.onMouseMove. rewrite Hl. unfold bind.
  rewrite (getMouseEventCoordinates_on_ref _ _ _ _ Hwc).
  unfold FreeHandTool.drawLine, bind.
  rewrite (getImageData_on_ref _ _ _ _ Hdc Hg), Hl. simpl.
  now rewrite (setImageData_on_ref _ _ _ dcv).
Qed.

(** A pointer-down of the free-hand tool leaves a last position. *)
Lemma FreeHandTool_onMouseDown_dragging event this w this' w' :
  FreeHandTool.onMouseDown event this w = Some (this', w') ->
  FreeHandTool.lastPosition this' <> None.
Proof.
  unfold FreeHandTool.onMouseDown.
  destruct (FreeHandTool.lastPosition this) as [last|] eqn:Hl; intros Hrun.
  - unfold ret in Hrun. injection Hrun as <- <-. now rewrite Hl.
  - apply bind_inv in Hrun as (p & w1 & _ & Hr).
    unfold ret in Hr. injection Hr as <- <-. discriminate.
Qed.

(** A pointer-down of the free-hand tool while a gesture is in progress does
    nothing. *)
Lemma FreeHandTool_onMouseDown_dragging_noop event this w :
  FreeHandTool.lastPosition this <> None ->
  FreeHandTool.onMouseDown event this w = Some (this, w).
Proof.
  unfold FreeHandTool.onMouseDown.
  destruct (FreeHandTool.lastPosition this); [reflexivity|congruence].
Qed.

(** For the free-hand tool, a second pointer-down in a row changes nothing in
    the rest of the run: "down, down, move, up" is "down, move, up". *)
Lemma FreeHandTool_duplicate_down e1 e2 rest this w :
  FreeHandTool.run (MouseDown e1 :: MouseDown e2 :: rest) this w
  = FreeHandTool.run (MouseDown e1 :: rest) this w.
Proof.
  simpl. unfold bind at 1 3.
  destruct (FreeHandTool.onMouseDown e1 this w) as [[this1 w1]|] eqn:Hd; [|reflexivity].
  unfold bind.
  rewrite FreeHandTool_onMouseDown_dragging_noop; [reflexivity|].
  eapply FreeHandTool_onMouseDown_dragging; eauto.
Qed.

(** C4 (as amended): a pointer-up of the free-hand tool while a gesture is in
    progress first draws, as a pointer-move with the same event does, the
    segment from the last position to the floored release position on the
    drawing canvas, and then sets the last position to null. *)
Theorem freehand_pointer_up_draws_last_segment :
  forall (event : MouseEvent.t) (this : FreeHandTool.t) (w : World)
         (last : Point.t) (wcv dcv : Canvas.t) (img : ImageData.t),
    FreeHandTool.lastPosition this = Some last ->
    heap w !! ImageWorkspace.workingCanvas (FreeHandTool.workspace this) = Some wcv ->
    heap w !! ImageWorkspace.drawingCanvas (FreeHandTool.workspace this) = Some dcv ->
    Canvas.getImageData dcv = Some img ->
    let drawing := ImageWorkspace.drawingCanvas (FreeHandTool.workspace this) in
    let release := Point.floor (Canvas.getMouseEventCoordinates event wcv) in
    let drawn :=
      mkWorld (<[drawing := Canvas.setImageData
                              (Line_draw img last release Line_paintItBlack) dcv]>
                 (heap w))
              (PutImageData drawing :: GetImageData drawing :: calls w) in
    FreeHandTool.onMouseMove event this w
    = Some (FreeHandTool.set_lastPosition (Some release) this, drawn)
    /\ FreeHandTool.onMouseUp event this w
       = Some (FreeHandTool.set_lastPosition None this, drawn).
Proof.
  intros event this w last wcv dcv img Hl Hwc Hdc Hg drawing release drawn.
  pose proof (FreeHandTool_onMouseMove_run event this w last wcv dcv img Hl Hwc Hdc Hg)
    as Hmove.
  split; [exact Hmove|].
  unfold FreeHandTool.onMouseUp, bind. rewrite Hmove. reflexivity.
Qed.

(** ** Which handler writes which surface *)

Lemma writes_cons call c log :
  writes c (call :: log) = (if is_write c call then 1 else 0) + writes c log.
Proof. unfold writes. simpl. now destruct (is_write c call). Qed.

(** The effect of one event on the ellipse tool: the drawing canvas is
    written once if the event ends a gesture and not at all otherwise, and
    then no canvas but the working one changes. *)
Lemma EllipseTool_dispatch_writes pe this w this' w' :
  EllipseTool.workingCanvas this <> EllipseTool.drawingCanvas this ->
  EllipseTool.dispatch pe this w = Some (this', w') ->
  writes (EllipseTool.drawingCanvas this) (calls w')
  = (if ends_gesture pe this then 1 else 0)
    + writes (EllipseTool.drawingCanvas this) (calls w)
  /\ (ends_gesture pe this = false ->
      forall c : ref, c <> EllipseTool.workingCanvas this -> heap w' !! c = heap w !! c).
Proof.
  intros Hne Hstep.
  assert (Hwd : (EllipseTool.workingCanvas this =? EllipseTool.drawingCanvas this)
                = false) by now apply Nat.eqb_neq.
  split.
  - unfold ends_gesture. destruct pe as [e|e|e]; simpl in Hstep.
    + apply EllipseTool_onMouseDown_inv in Hstep as (-> & _). reflexivity.
    + apply EllipseTool_onMouseMove_inv in Hstep
        as [(_ & _ & ->) | (anchor & q & v1 & v2 & _ & _ & _ & Hcalls)];
        [reflexivity|].
      rewrite Hcalls, !writes_cons. simpl. now rewrite Hwd.
    + apply EllipseTool_onMouseUp_inv in Hstep
        as [(Ha & _ & ->) | (anchor & v1 & v2 & v3 & Ha & _ & _ & _ & Hcalls)];
        rewrite Ha; [reflexivity|].
      rewrite Hcalls, !writes_cons. simpl. now rewrite Hwd, Nat.eqb_refl.
  - unfold ends_gesture. intros Hends c Hc. destruct pe as [e|e|e]; simpl in Hstep.
    + now apply EllipseTool_onMouseDown_inv in Hstep as (-> & _).
    + apply EllipseTool_onMouseMove_inv in Hstep
        as [(_ & _ & ->) | (anchor & q & v1 & v2 & _ & _ & Hheap & _)];
        [reflexivity|].
      rewrite Hheap, !lookup_insert_ne; auto.
    + apply EllipseTool_onMouseUp_inv in Hstep
        as [(_ & _ & ->) | (anchor & v1 & v2 & v3 & Ha & _)]; [reflexivity|].
      rewrite Ha in Hends. discriminate.
Qed.

(** The handlers of the ellipse tool never change its two canvas fields. *)
Lemma EllipseTool_dispatch_canvases pe this w this' w' :
  EllipseTool.dispatch pe this w = Some (this', w') ->
  EllipseTool.workingCanvas this' = EllipseTool.workingCanvas this
  /\ EllipseTool.drawingCanvas this' = EllipseTool.drawingCanvas this.
Proof.
  intros Hstep. destruct pe as [e|e|e]; simpl in Hstep.
  - apply EllipseTool_onMouseDown_inv in Hstep as (_ & p & ->). auto.
  - apply EllipseTool_onMouseMove_inv in Hstep
      as [(_ & -> & _) | (anchor & q & v1 & v2 & _ & -> & _)]; auto.
  - apply EllipseTool_onMouseUp_inv in Hstep
      as [(_ & -> & _) | (anchor & v1 & v2 & v3 & _ & -> & _)]; auto.
Qed.

Lemma EllipseTool_run_app es1 : forall es2 this w,
  EllipseTool.run (es1 ++ es2) this w
  = bind (EllipseTool.run es1 this) (EllipseTool.run es2) w.
Proof.
  induction es1 as [|pe es1 IH]; intros es2 this w; simpl.
  - reflexivity.
  - unfold bind at 1 2 3.
    destruct (EllipseTool.dispatch pe this w) as [[this1 w1]|]; [|reflexivity].
    apply IH.
Qed.

(** While the button is held, pointer-moves keep the anchor and write
    nothing to the drawing canvas. *)
Lemma EllipseTool_moves_preview_only moves : forall this w this' w',
  EllipseTool.workingCanvas this <> EllipseTool.drawingCanvas this ->
  EllipseTool.firstPoint this <> None ->
  EllipseTool.run (map MouseMove moves) this w = Some (this', w') ->
  EllipseTool.firstPoint this' = EllipseTool.firstPoint this
  /\ EllipseTool.workingCanvas this' = EllipseTool.workingCanvas this
  /\ EllipseTool.drawingCanvas this' = EllipseTool.drawingCanvas this
  /\ writes (EllipseTool.drawingCanvas this) (calls w')
     = writes (EllipseTool.drawingCanvas this) (calls w)
  /\ heap w' !! EllipseTool.drawingCanvas this = heap w !! EllipseTool.drawingCanvas this.
Proof.
  induction moves as [|e moves IH]; intros this w this' w' Hne Ha Hrun; simpl in Hrun.
  - unfold ret in Hrun. injection Hrun as <- <-. auto.
  - apply bind_inv in Hrun as (this1 & w1 & Hstep & Hrest).
    destruct (EllipseTool_dispatch_writes (MouseMove e) _ _ _ _ Hne Hstep) as (Hw1 & Hh1).
    destruct (EllipseTool_dispatch_canvases (MouseMove e) _ _ _ _ Hstep) as (Hwc & Hdc).
    assert (Hfp : EllipseTool.firstPoint this1 = EllipseTool.firstPoint this).
    { simpl in Hstep. apply EllipseTool_onMouseMove_inv in Hstep
        as [(_ & -> & _) | (anchor & q & v1 & v2 & _ & -> & _)]; reflexivity. }
    destruct (IH this1 w1 this' w') as (Hfp' & Hwc' & Hdc' & Hw' & Hh'); auto.
    { now rewrite Hwc, Hdc. }
    { now rewrite Hfp. }
    rewrite Hdc in Hw', Hh'. simpl in Hw1.
    repeat split; try congruence.
    rewrite Hh'. apply Hh1; [reflexivity|]. auto.
Qed.

(** A whole gesture of the ellipse tool, "down, move*, up", writes the
    drawing canvas once. *)
Lemma EllipseTool_gesture_writes_once down moves up this w this' w' :
  EllipseTool.workingCanvas this <> EllipseTool.drawingCanvas this ->
  EllipseTool.run (MouseDown down :: map MouseMove moves ++ [MouseUp up]) this w
  = Some (this', w') ->
  writes (EllipseTool.drawingCanvas this) (calls w')
  = 1 + writes (EllipseTool.drawingCanvas this) (calls w).
Proof.
  intros Hne Hrun. simpl in Hrun.
  apply bind_inv in Hrun as (this1 & w1 & Hdown & Hrun).
  apply EllipseTool_onMouseDown_inv in Hdown as (-> & p & ->).
  rewrite EllipseTool_run_app in Hrun.
  apply bind_inv in Hrun as (this2 & w2 & Hmoves & Hup).
  apply EllipseTool_moves_preview_only in Hmoves
    as (Hfp & Hwc & Hdc & Hw & _); [|exact Hne|discriminate].
  simpl in Hfp, Hwc, Hdc, Hw. simpl in Hup.
  apply bind_inv in Hup as (this3 & w3 & Hup & Hret).
  unfold ret in Hret. injection Hret as <- <-.
  assert (Hne2 : EllipseTool.workingCanvas this2 <> EllipseTool.drawingCanvas this2)
    by now rewrite Hwc, Hdc.
  destruct (EllipseTool_dispatch_writes (MouseUp up) _ _ _ _ Hne2 Hup) as (Hw3 & _).
  unfold ends_gesture in Hw3. rewrite Hfp, Hdc in Hw3. rewrite Hw3, Hw. reflexivity.
Qed.

(** C1 (as amended): the handlers of the ellipse tool, with distinct working
    and drawing canvases, leave every canvas but the working (preview) one
    untouched, and make no write to the drawing canvas, unless the event is
    the pointer-up that ends a gesture, which writes the drawing canvas
    once.  The free-hand tool has no preview: a pointer-move while a gesture
    is in progress draws its segment on the drawing canvas. *)
Theorem ellipse_previews_freehand_draws_directly :
  forall (pe : PointerEvent) (ellipse ellipse' : EllipseTool.t) (w w' : World)
         (event : MouseEvent.t) (freehand : FreeHandTool.t) (wf : World)
         (last : Point.t) (wcv dcv : Canvas.t) (img : ImageData.t),
    EllipseTool.workingCanvas ellipse <> EllipseTool.drawingCanvas ellipse ->
    EllipseTool.dispatch pe ellipse w = Some (ellipse', w') ->
    FreeHandTool.lastPosition freehand = Some last ->
    heap wf !! ImageWorkspace.workingCanvas (FreeHandTool.workspace freehand) = Some wcv ->
    heap wf !! ImageWorkspace.drawingCanvas (FreeHandTool.workspace freehand) = Some dcv ->
    Canvas.getImageData dcv = Some img ->
    (writes (EllipseTool.drawingCanvas ellipse) (calls w')
     = (if ends_gesture pe ellipse then 1 else 0)
       + writes (EllipseTool.drawingCanvas ellipse) (calls w))
    /\ (ends_gesture pe ellipse = false ->
        forall c : ref, c <> EllipseTool.workingCanvas ellipse ->
                        heap w' !! c = heap w !! c)
    /\ (let drawing := ImageWorkspace.drawingCanvas (FreeHandTool.workspace freehand) in
        let current := Point.floor (Canvas.getMouseEventCoordinates event wcv) in
        FreeHandTool.onMouseMove event freehand wf
        = Some (FreeHandTool.set_lastPosition (Some current) freehand,
                mkWorld (<[drawing := Canvas.setImageData
                                        (Line_draw img last current Line_paintItBlack)
                                        dcv]> (heap wf))
                        (PutImageData drawing :: GetImageData drawing :: calls wf))).
Proof.
  intros pe ellipse ellipse' w w' event freehand wf last wcv dcv img
         Hne Hstep Hl Hwc Hdc Hg.
  destruct (EllipseTool_dispatch_writes _ _ _ _ _ Hne Hstep) as (Hwrites & Hframe).
  split; [exact Hwrites|]. split; [exact Hframe|].
  now apply FreeHandTool_onMouseMove_run.
Qed.
End ToolProperties.

(** ** Colour inversion *)

Lemma clamp8_byte b : (0 <= b <= 255)%Z -> clamp8 b = b.
Proof. unfold clamp8. lia. Qed.

Lemma clamp8_inverse_byte b : (0 <= b <= 255)%Z -> clamp8 (255 - b) = (255 - b)%Z.
Proof. unfold clamp8. lia. Qed.

Lemma clamp8_range v : (0 <= clamp8 v <= 255)%Z.
Proof. unfold clamp8. lia. Qed.

(** Induction on a list by groups of four elements. *)
Lemma list_ind4 {A : Type} (P : list A -> Prop) :
  P [] -> (forall a, P [a]) -> (forall a b, P [a; b]) -> (forall a b c, P [a; b; c]) ->
  (forall a b c d l, P l -> P (a :: b :: c :: d :: l)) ->
  forall l, P l.
Proof.
  intros H0 H1 H2 H3 H4 l.
  assert (Hn : forall n l, length l <= n -> P l).
  { intros n. induction n as [|n IH]; intros l' Hlen.
    - destruct l'; [exact H0|simpl in Hlen; lia].
    - destruct l' as [|a [|b [|c [|d l']]]]; auto.
      apply H4. apply IH. simpl in Hlen. lia. }
  apply (Hn (length l)). lia.
Qed.

Lemma inverse_length d : length (ColorEffects.inverse d) = length d.
Proof.
  induction d as [| | | |r g b a rest IH] using list_ind4; try reflexivity.
  simpl. now rewrite IH.
Qed.

Lemma inverse_bytes d : bytes d -> bytes (ColorEffects.inverse d).
Proof.
  unfold bytes.
  induction d as [| | | |r g b a rest IH] using list_ind4; intros Hd; try exact Hd.
  simpl. inversion Hd as [|? ? _ Hd1]; subst. inversion Hd1 as [|? ? _ Hd2]; subst.
  inversion Hd2 as [|? ? _ Hd3]; subst. inversion Hd3 as [|? ? Ha Hd4]; subst.
  repeat (constructor; [first [apply clamp8_range | exact Ha]|]). now apply IH.
Qed.

Lemma inverse_involutive d :
  bytes d -> ColorEffects.inverse (ColorEffects.inverse d) = d.
Proof.
  unfold bytes.
  induction d as [| | | |r g b a rest IH] using list_ind4; intros Hd; try reflexivity.
  inversion Hd as [|? ? Hr Hd1]; subst. inversion Hd1 as [|? ? Hg Hd2]; subst.
  inversion Hd2 as [|? ? Hb Hd3]; subst. inversion Hd3 as [|? ? Ha Hd4]; subst.
  simpl. rewrite (IH Hd4). unfold clamp8. f_equal; [lia|]. f_equal; [lia|].
  f_equal. lia.
Qed.

Lemma inverse_pixel i : forall d,
  bytes d -> 4 * i + 3 < length d ->
  nth (4 * i) (ColorEffects.inverse d) 0%Z = (255 - nth (4 * i) d 0)%Z
  /\ nth (4 * i + 1) (ColorEffects.inverse d) 0%Z = (255 - nth (4 * i + 1) d 0)%Z
  /\ nth (4 * i + 2) (ColorEffects.inverse d) 0%Z = (255 - nth (4 * i + 2) d 0)%Z
  /\ nth (4 * i + 3) (ColorEffects.inverse d) 0%Z = nth (4 * i + 3) d 0%Z.
Proof.
  induction i as [|i IH]; intros d Hd Hlen;
    destruct d as [|r [|g [|b [|a rest]]]]; simpl in Hlen; try lia;
    inversion Hd as [|? ? Hr Hd1]; subst; inversion Hd1 as [|? ? Hg Hd2]; subst;
    inversion Hd2 as [|? ? Hb Hd3]; subst; inversion Hd3 as [|? ? Ha Hd4]; subst.
  - simpl. rewrite !clamp8_inverse_byte by assumption. auto.
  - replace (4 * S i) with (S (S (S (S (4 * i))))) by lia.
    change (ColorEffects.inverse (r :: g :: b :: a :: rest))
      with (clamp8 (255 - r) :: clamp8 (255 - g) :: clamp8 (255 - b) :: a
              :: ColorEffects.inverse rest).
    cbn [nth Nat.add]. apply IH; [exact Hd4|lia].
Qed.

(** C8: on a buffer of bytes, [inverseColors] keeps the dimensions, replaces
    the R, G and B channels of every pixel by 255 minus the channel and
    keeps its alpha channel; applied twice it gives the buffer back, the
    alpha channel of every pixel being kept by the second application
    too. *)
Theorem inverseColors_inverts_and_is_involutive :
  forall img : ImageData.t,
    bytes (ImageData.data img) ->
    let once := ColorEffects.inverseColors img in
    let twice := ColorEffects.inverseColors once in
    ImageData.width once = ImageData.width img
    /\ ImageData.height once = ImageData.height img
    /\ length (ImageData.data once) = length (ImageData.data img)
    /\ (forall i : nat,
          4 * i + 3 < length (ImageData.data img) ->
          nth (4 * i) (ImageData.data once) 0%Z
          = (255 - nth (4 * i) (ImageData.data img) 0)%Z
          /\ nth (4 * i + 1) (ImageData.data once) 0%Z
             = (255 - nth (4 * i + 1) (ImageData.data img) 0)%Z
          /\ nth (4 * i + 2) (ImageData.data once) 0%Z
             = (255 - nth (4 * i + 2) (ImageData.data img) 0)%Z
          /\ nth (4 * i + 3) (ImageData.data once) 0%Z
             = nth (4 * i + 3) (ImageData.data img) 0%Z
          /\ nth (4 * i + 3) (ImageData.data twice) 0%Z
             = nth (4 * i + 3) (ImageData.data once) 0%Z)
    /\ twice = img.
Proof.
  intros img Hd once twice.
  assert (Htwice : twice = img).
  { destruct img as [wd ht d]. unfold twice, once, ColorEffects.inverseColors. simpl.
    f_equal. now apply inverse_involutive. }
  repeat split; try reflexivity.
  - apply inverse_length.
  - now apply inverse_pixel.
  - now apply inverse_pixel.
  - now apply inverse_pixel.
  - now apply inverse_pixel.
  - apply (inverse_pixel i (ImageData.data once)).
    + now apply inverse_bytes.
    + unfold once, ColorEffects.inverseColors. simpl. now rewrite inverse_length.
  - exact Htwice.
Qed.

(** * Runs on concrete inputs *)

(** C1, counterexample: between the pointer-down at (0,0) and any pointer-up,
    the pointer-move to (3,0) of the free-hand tool changes the drawing
    canvas (reference primitives, 4 x 1 canvases): the gesture is still in
    progress, and the four pixels of the drawing canvas have become black. *)
Lemma freehand_move_writes_drawing_surface :
  observe (@FreeHandTool.run reference_primitives
             [MouseDown (mouseAt 0 0)]
             (FreeHandTool.constructor (workspaceOf None)) (blankWorld 4 1))
  = Some (FreeHandTool.mk FreeHandParameters.new (Some (pointAt 0 0)) (workspaceOf None),
          Some (blackPixels 0), Some (blackPixels 0))
  /\ observe (@FreeHandTool.run reference_primitives
                [MouseDown (mouseAt 0 0); MouseMove (mouseAt 3 0)]
                (FreeHandTool.constructor (workspaceOf None)) (blankWorld 4 1))
     = Some (FreeHandTool.mk FreeHandParameters.new (Some (pointAt 3 0)) (workspaceOf None),
             Some (blackPixels 0), Some (blackPixels 4))
  /\ blackPixels 0 <> blackPixels 4.
Proof.
  split; [vm_compute; reflexivity|]. split; [vm_compute; reflexivity|].
  vm_compute. discriminate.
Qed.

(** C4, counterexample: after "down (0,0), move (1,0)" the drawing canvas
    has two black pixels; the pointer-up at (3,0) that follows paints two
    more (reference primitives, 4 x 1 canvases). *)
Lemma freehand_up_draws_beyond_last_move :
  observe (@FreeHandTool.run reference_primitives
             [MouseDown (mouseAt 0 0); MouseMove (mouseAt 1 0)]
             (FreeHandTool.constructor (workspaceOf None)) (blankWorld 4 1))
  = Some (FreeHandTool.mk FreeHandParameters.new (Some (pointAt 1 0)) (workspaceOf None),
          Some (blackPixels 0), Some (blackPixels 2))
  /\ observe (@FreeHandTool.run reference_primitives
                [MouseDown (mouseAt 0 0); MouseMove (mouseAt 1 0); MouseUp (mouseAt 3 0)]
                (FreeHandTool.constructor (workspaceOf None)) (blankWorld 4 1))
     = Some (FreeHandTool.mk FreeHandParameters.new None (workspaceOf None),
             Some (blackPixels 0), Some (blackPixels 4))
  /\ blackPixels 2 <> blackPixels 4.
Proof.
  split; [vm_compute; reflexivity|]. split; [vm_compute; reflexivity|].
  vm_compute. discriminate.
Qed.

(** C2, at the failing input: for the ellipse tool a second pointer-down in
    a row, at (5,5) after (1,1), replaces the anchor point; and the drawing
    canvas after "down (1,1), down (5,5), move (8,8), up (8,8)" is not the
    one after "down (1,1), move (8,8), up (8,8)" (reference primitives,
    10 x 10 canvases). *)
Theorem ellipse_duplicate_down_moves_anchor :
  observe (@EllipseTool.run reference_primitives
             [MouseDown (mouseAt 1 1)]
             (EllipseTool.constructor 1 2) (blankWorld 10 10))
  = Some (EllipseTool.mk (Some (pointAt 1 1)) None 1 2,
          Some (repeat 0%Z 400), Some (repeat 0%Z 400))
  /\ observe (@EllipseTool.run reference_primitives
                [MouseDown (mouseAt 1 1); MouseDown (mouseAt 5 5)]
                (EllipseTool.constructor 1 2) (blankWorld 10 10))
     = Some (EllipseTool.mk (Some (pointAt 5 5)) None 1 2,
             Some (repeat 0%Z 400), Some (repeat 0%Z 400))
  /\ observe (@EllipseTool.run reference_primitives
                [MouseDown (mouseAt 1 1); MouseDown (mouseAt 5 5);
                 MouseMove (mouseAt 8 8); MouseUp (mouseAt 8 8)]
                (EllipseTool.constructor 1 2) (blankWorld 10 10))
     <> observe (@EllipseTool.run reference_primitives
                   [MouseDown (mouseAt 1 1);
                    MouseMove (mouseAt 8 8); MouseUp (mouseAt 8 8)]
                   (EllipseTool.constructor 1 2) (blankWorld 10 10)).
Proof.
  split; [vm_compute; reflexivity|]. split; [vm_compute; reflexivity|].
  vm_compute. discriminate.
Qed.

(** For any primitives, a pointer-down of the ellipse tool replaces the
    anchor point by the floored position of the event, gesture in progress or
    not. *)
Lemma EllipseTool_onMouseDown_run event this w wc :
  heap w !! EllipseTool.workingCanvas this = Some wc ->
  EllipseTool.onMouseDown event this w
  = Some (EllipseTool.set_firstPoint
            (Some (Point.floor (Canvas.getMouseEventCoordinates event wc))) this, w).
Proof.
  intros Hwc. unfold EllipseTool.onMouseDown, bind.
  now rewrite (getMouseEventCoordinates_on_ref _ _ _ _ Hwc).
Qed.

Lemma inject_nat_nonzero (n : nat) : n <> 0 -> ~ (inject_Z (Z.of_nat n) == 0)%Q.
Proof. intros Hn H0. unfold Qeq in H0. simpl in H0. lia. Qed.

(** For a canvas displayed at its own size, as [updateDimensions] leaves it,
    the coordinates of an event are its offset in the bounding rectangle. *)
Lemma getMouseEventCoordinates_unscaled event c :
  HTMLCanvasElement.width (Canvas.canvas c) <> 0 ->
  HTMLCanvasElement.height (Canvas.canvas c) <> 0 ->
  (ClientRect.right (Canvas.canvasBoundingRect c)
   - ClientRect.left (Canvas.canvasBoundingRect c)
   == inject_Z (Z.of_nat (HTMLCanvasElement.width (Canvas.canvas c))))%Q ->
  (ClientRect.bottom (Canvas.canvasBoundingRect c)
   - ClientRect.top (Canvas.canvasBoundingRect c)
   == inject_Z (Z.of_nat (HTMLCanvasElement.height (Canvas.canvas c))))%Q ->
  (Point.x (Canvas.getMouseEventCoordinates event c)
   == MouseEvent.clientX event - ClientRect.left (Canvas.canvasBoundingRect c))%Q
  /\ (Point.y (Canvas.getMouseEventCoordinates event c)
      == MouseEvent.clientY event - ClientRect.top (Canvas.canvasBoundingRect c))%Q.
Proof.
  intros Hw Hh Hx Hy. unfold Canvas.getMouseEventCoordinates. simpl.
  rewrite Hx, Hy. split; field; now apply inject_nat_nonzero.
Qed.

(** C3, at the failing input: a 2 x 2 canvas displayed at 4 x 4 (scale 2) at
    the origin of the client area, and an event at client position (2,2),
    the centre of the displayed canvas.  The code returns (4,4), the offset
    multiplied by the scale, which is out of the buffer; the offset divided
    by the scale is (1,1). *)
Theorem getMouseEventCoordinates_multiplies_by_display_scale :
  let c := Canvas.new (HTMLCanvasElement.new 2 2 (repeat 0%Z 16)) 2 2
                      (ClientRect.new (ZQ 0) (ZQ 0) (ZQ 4) (ZQ 4)) in
  let p := Canvas.getMouseEventCoordinates (mouseAt 2 2) c in
  (Point.x p == 4)%Q /\ (Point.y p == 4)%Q
  /\ ~ (Point.x p == 1)%Q /\ ~ (Point.y p == 1)%Q.
Proof.
  repeat split; vm_compute; congruence.
Qed.

(** ** Instances of the general statements *)

(** Two freshly constructed tools receive a pointer-up. *)
Lemma idle_pointer_up_is_dropped_witness :
  EllipseTool.firstPoint (EllipseTool.constructor 1 2) = None
  /\ FreeHandTool.lastPosition (FreeHandTool.constructor (workspaceOf None)) = None
  /\ @EllipseTool.onMouseUp reference_primitives (mouseAt 3 3)
        (EllipseTool.constructor 1 2) (blankWorld 4 4)
      = Some (EllipseTool.constructor 1 2, blankWorld 4 4)
  /\ @FreeHandTool.onMouseUp reference_primitives (mouseAt 3 3)
        (FreeHandTool.constructor (workspaceOf None)) (blankWorld 4 4)
      = Some (FreeHandTool.constructor (workspaceOf None), blankWorld 4 4).
Proof.
  split; [reflexivity|]. split; [reflexivity|].
  apply (@idle_pointer_up_is_dropped reference_primitives); reflexivity.
Defined.

(** With the layer of canvas 2 selected, the effect leaves canvas 1 (the
    preview) as it is. *)
Lemma inverse_color_effect_frame_witness :
  DrawingLayers.selectedLayer
    (ImageWorkspace.drawingLayers
       (InverseColorEffect.workspace
          (InverseColorEffect.mk (workspaceOf (Some (Layer.new 2))))))
  = Some (Layer.new 2)
  /\ heap (blankWorld 2 2) !! Layer.canvas (Layer.new 2) = Some (blankCanvas 2 2)
  /\ Canvas.getImageData (blankCanvas 2 2) = Some (blankImage 2 2)
  /\ exists w' : World,
       @InverseColorEffect.apply reference_primitives
         (InverseColorEffect.mk (workspaceOf (Some (Layer.new 2)))) (blankWorld 2 2)
       = Some (tt, w')
       /\ heap w' !! 1 = heap (blankWorld 2 2) !! 1.
Proof.
  split; [reflexivity|]. split; [reflexivity|]. split; [reflexivity|].
  destruct (@inverse_color_effect_frame reference_primitives
              (InverseColorEffect.mk (workspaceOf (Some (Layer.new 2)))) (blankWorld 2 2)
              (Layer.new 2) (blankCanvas 2 2) (blankImage 2 2)
              eq_refl eq_refl eq_refl)
    as (w' & v' & Happ & _ & _ & _ & _ & _ & _ & Hframe).
  exists w'. split; [exact Happ|]. apply Hframe. discriminate.
Defined.

(** A whole gesture of the ellipse tool on 4 x 4 canvases: both points are
    null at its end. *)
Lemma ellipse_points_invariant_witness :
  @EllipseTool.run reference_primitives
    [MouseDown (mouseAt 1 1); MouseMove (mouseAt 2 2); MouseUp (mouseAt 3 3)]
    (EllipseTool.constructor 1 2) (blankWorld 4 4)
  = Some (EllipseTool.mk None None 1 2,
          mkWorld
            (<[1 := blankCanvas 4 4]>
               (<[2 := Canvas.setImageData
                         (Ellipse.drawFromBoundingRect (pointAt 1 1) (pointAt 3 3)
                                                       (blankImage 4 4))
                         (blankCanvas 4 4)]> ∅))
            [ClearRect 1; PutImageData 2; GetImageData 2;
             PutImageData 1; GetImageData 1; ClearRect 1])
  /\ (EllipseTool.firstPoint (EllipseTool.mk None None 1 2) = None ->
      EllipseTool.secondPoint (EllipseTool.mk None None 1 2) = None).
Proof.
  assert (Hrun :
    @EllipseTool.run reference_primitives
      [MouseDown (mouseAt 1 1); MouseMove (mouseAt 2 2); MouseUp (mouseAt 3 3)]
      (EllipseTool.constructor 1 2) (blankWorld 4 4)
    = Some (EllipseTool.mk None None 1 2,
            mkWorld
              (<[1 := blankCanvas 4 4]>
                 (<[2 := Canvas.setImageData
                           (Ellipse.drawFromBoundingRect (pointAt 1 1) (pointAt 3 3)
                                                         (blankImage 4 4))
                           (blankCanvas 4 4)]> ∅))
              [ClearRect 1; PutImageData 2; GetImageData 2;
               PutImageData 1; GetImageData 1; ClearRect 1]))
    by (vm_compute; reflexivity).
  split; [exact Hrun|].
  exact (proj1 (proj2 (@ellipse_points_invariant reference_primitives _ _ _ _ _ _ Hrun))).
Defined.

(** The free-hand tool, last at (0,0) on 4 x 1 canvases, receives the
    pointer-up at (3,0). *)
Lemma freehand_pointer_up_draws_last_segment_witness :
  FreeHandTool.lastPosition
    (FreeHandTool.mk FreeHandParameters.new (Some (pointAt 0 0)) (workspaceOf None))
  = Some (pointAt 0 0)
  /\ heap (blankWorld 4 1) !! 1 = Some (blankCanvas 4 1)
  /\ heap (blankWorld 4 1) !! 2 = Some (blankCanvas 4 1)
  /\ Canvas.getImageData (blankCanvas 4 1) = Some (blankImage 4 1)
  /\ @FreeHandTool.onMouseUp reference_primitives (mouseAt 3 0)
       (FreeHandTool.mk FreeHandParameters.new (Some (pointAt 0 0)) (workspaceOf None))
       (blankWorld 4 1)
     = Some (FreeHandTool.mk FreeHandParameters.new None (workspaceOf None),
             mkWorld
               (<[2 := Canvas.setImageData
                         (Line.draw (blankImage 4 1) (pointAt 0 0)
                                    (Point.floor (Canvas.getMouseEventCoordinates
                                                    (mouseAt 3 0) (blankCanvas 4 1)))
                                    Line.paintItBlack)
                         (blankCanvas 4 1)]> (heap (blankWorld 4 1)))
               [PutImageData 2; GetImageData 2]).
Proof.
  split; [reflexivity|]. split; [reflexivity|].
  split; [reflexivity|]. split; [reflexivity|].
  apply (@freehand_pointer_up_draws_last_segment reference_primitives (mouseAt 3 0)
           (FreeHandTool.mk FreeHandParameters.new (Some (pointAt 0 0)) (workspaceOf None))
           (blankWorld 4 1) (pointAt 0 0) (blankCanvas 4 1) (blankCanvas 4 1)
           (blankImage 4 1)); reflexivity.
Defined.

(** A pointer-move of the ellipse tool anchored at (1,1) makes no write to
    the drawing canvas 2; a pointer-move of the free-hand tool writes it. *)
Lemma ellipse_previews_freehand_draws_directly_witness :
  1 <> 2
  /\ @EllipseTool.dispatch reference_primitives (MouseMove (mouseAt 2 2))
       (EllipseTool.mk (Some (pointAt 1 1)) None 1 2) (blankWorld 4 4)
     = Some (EllipseTool.mk (Some (pointAt 1 1)) (Some (pointAt 2 2)) 1 2,
             mkWorld
               (<[1 := Canvas.setImageData
                         (Ellipse.drawFromBoundingRect (pointAt 1 1) (pointAt 2 2)
                                                       (blankImage 4 4))
                         (blankCanvas 4 4)]> (heap (blankWorld 4 4)))
               [PutImageData 1; GetImageData 1; ClearRect 1])
  /\ FreeHandTool.lastPosition
       (FreeHandTool.mk FreeHandParameters.new (Some (pointAt 0 0)) (workspaceOf None))
     = Some (pointAt 0 0)
  /\ heap (blankWorld 4 1) !! 1 = Some (blankCanvas 4 1)
  /\ heap (blankWorld 4 1) !! 2 = Some (blankCanvas 4 1)
  /\ Canvas.getImageData (blankCanvas 4 1) = Some (blankImage 4 1)
  /\ writes 2 [PutImageData 1; GetImageData 1; ClearRect 1] = 0
  /\ @FreeHandTool.onMouseMove reference_primitives (mouseAt 3 0)
       (FreeHandTool.mk FreeHandParameters.new (Some (pointAt 0 0)) (workspaceOf None))
       (blankWorld 4 1)
     = Some (FreeHandTool.mk FreeHandParameters.new (Some (pointAt 3 0)) (workspaceOf None),
             mkWorld
               (<[2 := Canvas.setImageData
                         (Line.draw (blankImage 4 1) (pointAt 0 0) (pointAt 3 0)
                                    Line.paintItBlack)
                         (blankCanvas 4 1)]> (heap (blankWorld 4 1)))
               [PutImageData 2; GetImageData 2]).
Proof.
  assert (Hmove :
    @EllipseTool.dispatch reference_primitives (MouseMove (mouseAt 2 2))
      (EllipseTool.mk (Some (pointAt 1 1)) None 1 2) (blankWorld 4 4)
    = Some (EllipseTool.mk (Some (pointAt 1 1)) (Some (pointAt 2 2)) 1 2,
            mkWorld
              (<[1 := Canvas.setImageData
                        (Ellipse.drawFromBoundingRect (pointAt 1 1) (pointAt 2 2)
                                                      (blankImage 4 4))
                        (blankCanvas 4 4)]> (heap (blankWorld 4 4)))
              [PutImageData 1; GetImageData 1; ClearRect 1]))
    by (vm_compute; reflexivity).
  assert (Hne : 1 <> 2) by discriminate.
  destruct (@ellipse_previews_freehand_draws_directly reference_primitives
              (MouseMove (mouseAt 2 2))
              (EllipseTool.mk (Some (pointAt 1 1)) None 1 2) _ (blankWorld 4 4) _
              (mouseAt 3 0)
              (FreeHandTool.mk FreeHandParameters.new (Some (pointAt 0 0))
                               (workspaceOf None))
              (blankWorld 4 1) (pointAt 0 0) (blankCanvas 4 1) (blankCanvas 4 1)
              (blankImage 4 1) Hne Hmove eq_refl eq_refl eq_refl eq_refl)
    as (Hwrites & _ & Hfree).
  split; [exact Hne|]. split; [exact Hmove|].
  split; [reflexivity|]. split; [reflexivity|].
  split; [reflexivity|]. split; [reflexivity|].
  split; [exact Hwrites|]. exact Hfree.
Defined.

(** A buffer of two pixels, inverted once and twice. *)
Lemma inverseColors_inverts_and_is_involutive_witness :
  bytes (ImageData.data (ImageData.new 1 2 [10; 20; 30; 40; 0; 255; 128; 255]%Z))
  /\ ImageData.data
       (ColorEffects.inverseColors (ImageData.new 1 2 [10; 20; 30; 40; 0; 255; 128; 255]%Z))
     = [245; 235; 225; 40; 255; 0; 127; 255]%Z
  /\ ColorEffects.inverseColors
       (ColorEffects.inverseColors (ImageData.new 1 2 [10; 20; 30; 40; 0; 255; 128; 255]%Z))
     = ImageData.new 1 2 [10; 20; 30; 40; 0; 255; 128; 255]%Z.
Proof.
  assert (Hb : bytes (ImageData.data
                        (ImageData.new 1 2 [10; 20; 30; 40; 0; 255; 128; 255]%Z))).
  { unfold bytes. simpl. repeat constructor; lia. }
  split; [exact Hb|]. split; [reflexivity|].
  apply (inverseColors_inverts_and_is_involutive _ Hb).
Defined.

(** * More properties of the code *)

(** ** Pixel arrays *)

Lemma length_flat_map_blocks {A B : Type} (g : A -> list B) (k : nat) (l : list A) :
  (forall a, length (g a) = k) -> length (flat_map g l) = length l * k.
Proof.
  intros Hk. induction l as [|a l IH]; simpl; [reflexivity|].
  rewrite List.length_app, Hk, IH. reflexivity.
Qed.

Lemma nth_flat_map_blocks {A B : Type} (g : A -> list B) (k : nat) (d : B) (a0 : A) :
  (forall a, length (g a) = k) ->
  forall (l : list A) (i j : nat),
    i < length l -> j < k ->
    nth (i * k + j) (flat_map g l) d = nth j (g (nth i l a0)) d.
Proof.
  intros Hk. induction l as [|a l IH]; intros i j Hi Hj; simpl in Hi; [lia|].
  destruct i as [|i]; simpl.
  - rewrite app_nth1; [reflexivity|]. rewrite Hk. exact Hj.
  - rewrite app_nth2; rewrite Hk; [|lia].
    replace (k + i * k + j - k) with (i * k + j) by lia.
    apply IH; lia.
Qed.

Lemma tabulate_length w h f : length (tabulate w h f) = 4 * w * h.
Proof.
  unfold tabulate.
  rewrite (length_flat_map_blocks _ (w * 4)).
  - rewrite List.length_seq. lia.
  - intros y. rewrite (length_flat_map_blocks _ 4); [now rewrite List.length_seq|].
    reflexivity.
Qed.

Lemma tabulate_nth w h f x y c :
  x < w -> y < h -> c < 4 ->
  nth (pixel_index w x y + c) (tabulate w h f) 0%Z = f x y c.
Proof.
  intros Hx Hy Hc. unfold tabulate, pixel_index.
  replace (4 * (y * w + x) + c) with (y * (w * 4) + (x * 4 + c)) by lia.
  rewrite (nth_flat_map_blocks _ (w * 4) _ 0).
  - rewrite seq_nth by exact Hy. simpl.
    rewrite (nth_flat_map_blocks _ 4 _ 0); try reflexivity.
    + rewrite seq_nth by exact Hx. simpl.
      destruct c as [|[|[|[|c]]]]; try reflexivity. lia.
    + now rewrite List.length_seq.
    + exact Hc.
  - intros y'. rewrite (length_flat_map_blocks _ 4); [now rewrite List.length_seq|].
    reflexivity.
  - now rewrite List.length_seq.
  - lia.
Qed.

(** Every index of a [w] x [h] array is the index of a channel of a pixel. *)
Lemma pixel_index_cover w h n :
  n < 4 * w * h ->
  exists x y c, x < w /\ y < h /\ c < 4 /\ n = pixel_index w x y + c.
Proof.
  intros Hn. assert (Hw : w <> 0) by (intros ->; lia).
  exists ((n / 4) mod w), (n / 4 / w), (n mod 4). unfold pixel_index.
  pose proof (Nat.div_mod_eq n 4) as H4.
  pose proof (Nat.div_mod_eq (n / 4) w) as Hq.
  pose proof (Nat.mod_upper_bound n 4 ltac:(lia)) as Hc.
  pose proof (Nat.mod_upper_bound (n / 4) w Hw) as Hx.
  repeat split; try assumption; [|lia].
  apply Nat.Div0.div_lt_upper_bound. apply Nat.Div0.div_lt_upper_bound. lia.
Qed.

Lemma channel_tabulate w h f x y c :
  x < w -> y < h -> c < 4 -> channel w h (tabulate w h f) x y c = f x y c.
Proof.
  intros Hx Hy Hc. unfold channel.
  apply Nat.ltb_lt in Hx as Hx'. apply Nat.ltb_lt in Hy as Hy'. rewrite Hx', Hy'. simpl.
  now apply tabulate_nth.
Qed.

Lemma tabulate_ext w h f g :
  (forall x y c, x < w -> y < h -> c < 4 -> f x y c = g x y c) ->
  tabulate w h f = tabulate w h g.
Proof.
  intros Hfg. apply (nth_ext _ _ 0%Z 0%Z).
  - now rewrite !tabulate_length.
  - intros n Hn. rewrite tabulate_length in Hn.
    destruct (pixel_index_cover w h n Hn) as (x & y & c & Hx & Hy & Hc & ->).
    rewrite !tabulate_nth by assumption. now apply Hfg.
Qed.

(** Reading every channel of an array gives the array back. *)
Lemma tabulate_channel w h d :
  length d = 4 * w * h -> tabulate w h (channel w h d) = d.
Proof.
  intros Hd. apply (nth_ext _ _ 0%Z 0%Z).
  - now rewrite tabulate_length.
  - intros n Hn. rewrite tabulate_length in Hn.
    destruct (pixel_index_cover w h n Hn) as (x & y & c & Hx & Hy & Hc & ->).
    rewrite tabulate_nth by assumption. unfold channel.
    apply Nat.ltb_lt in Hx. apply Nat.ltb_lt in Hy. now rewrite Hx, Hy.
Qed.

Lemma tabulate_zero w h : tabulate w h (fun _ _ _ => 0%Z) = repeat 0%Z (4 * w * h).
Proof.
  apply (nth_ext _ _ 0%Z 0%Z).
  - now rewrite tabulate_length, repeat_length.
  - intros n Hn. rewrite tabulate_length in Hn.
    destruct (pixel_index_cover w h n Hn) as (x & y & c & Hx & Hy & Hc & ->).
    rewrite tabulate_nth by assumption. now rewrite nth_repeat.
Qed.

(** ** The canvas *)

Lemma Canvas_eta (v : Canvas.t) (bm : list Z) :
  bm = HTMLCanvasElement.bitmap (Canvas.canvas v) ->
  Canvas.new (HTMLCanvasElement.new (HTMLCanvasElement.width (Canvas.canvas v))
                                    (HTMLCanvasElement.height (Canvas.canvas v)) bm)
             (Canvas.width v) (Canvas.height v) (Canvas.canvasBoundingRect v)
  = v.
Proof. intros ->. destruct v as [[ew eh bm'] w h r]. reflexivity. Qed.

Lemma getImageData_wellFormed v img :
  wellFormed v -> Canvas.getImageData v = Some img ->
  img = ImageData.new (Canvas.width v) (Canvas.height v)
                      (HTMLCanvasElement.bitmap (Canvas.canvas v))
  /\ Canvas.width v <> 0 /\ Canvas.height v <> 0.
Proof.
  intros (Hw & Hh & Hlen). unfold Canvas.getImageData, HTMLCanvasElement.getImageData.
  destruct (Canvas.width v =? 0) eqn:Hw0; [discriminate|].
  destruct (Canvas.height v =? 0) eqn:Hh0; [discriminate|]. simpl.
  intros [= <-]. rewrite Hw, Hh, tabulate_channel by exact Hlen.
  apply Nat.eqb_neq in Hw0, Hh0. auto.
Qed.

Lemma setImageData_fits d v :
  wellFormed v -> fits d v ->
  Canvas.setImageData d v
  = Canvas.new (HTMLCanvasElement.new (Canvas.width v) (Canvas.height v) (ImageData.data d))
               (Canvas.width v) (Canvas.height v) (Canvas.canvasBoundingRect v).
Proof.
  intros (Hw & Hh & Hlen) (Hdw & Hdh & Hdlen).
  unfold Canvas.setImageData, HTMLCanvasElement.putImageData.
  rewrite Hw, Hh, Hdw, Hdh. do 2 f_equal.
  transitivity (tabulate (Canvas.width v) (Canvas.height v)
                         (channel (Canvas.width v) (Canvas.height v) (ImageData.data d)));
    [|now apply tabulate_channel].
  apply tabulate_ext. intros x y c Hx Hy Hc.
  apply Nat.ltb_lt in Hx, Hy. now rewrite Hx, Hy.
Qed.

Lemma setImageData_wellFormed d v :
  wellFormed v -> fits d v -> wellFormed (Canvas.setImageData d v).
Proof.
  intros Hv Hd. rewrite (setImageData_fits _ _ Hv Hd).
  destruct Hd as (_ & _ & Hlen). repeat split; simpl; auto.
Qed.

Lemma clear_wellFormed_eq v :
  wellFormed v ->
  Canvas.clear v
  = Canvas.new (HTMLCanvasElement.new (Canvas.width v) (Canvas.height v)
                  (repeat 0%Z (4 * Canvas.width v * Canvas.height v)))
               (Canvas.width v) (Canvas.height v) (Canvas.canvasBoundingRect v).
Proof.
  intros (Hw & Hh & Hlen). unfold Canvas.clear, HTMLCanvasElement.clearRect.
  rewrite Hw, Hh. do 2 f_equal. rewrite <- tabulate_zero.
  apply tabulate_ext. intros x y c Hx Hy Hc.
  apply Nat.ltb_lt in Hx, Hy. now rewrite Hx, Hy.
Qed.

(** X1: on a well-formed canvas, [getImageData] returns an image of the size
    of the canvas holding its bitmap, and writing that image back with
    [setImageData] leaves the canvas exactly as it was. *)
Theorem Canvas_get_then_set_is_identity :
  forall (v : Canvas.t) (img : ImageData.t),
    wellFormed v ->
    Canvas.getImageData v = Some img ->
    fits img v
    /\ ImageData.data img = HTMLCanvasElement.bitmap (Canvas.canvas v)
    /\ Canvas.setImageData img v = v.
Proof.
  intros v img Hv Hg.
  destruct (getImageData_wellFormed _ _ Hv Hg) as (-> & _ & _).
  assert (Hfits : fits (ImageData.new (Canvas.width v) (Canvas.height v)
                          (HTMLCanvasElement.bitmap (Canvas.canvas v))) v).
  { destruct Hv as (_ & _ & Hlen). repeat split; simpl; auto. }
  split; [exact Hfits|]. split; [reflexivity|].
  rewrite (setImageData_fits _ _ Hv Hfits). simpl.
  destruct Hv as (Hw & Hh & _). destruct v as [[ew eh bm] w h r].
  simpl in *. now subst.
Qed.

(** X2: on a well-formed canvas of non-zero size, an image of the size of
    the canvas whose pixels are all opaque or transparent black (the bytes a
    2D context keeps exactly) and that is written with [setImageData] is
    what [getImageData] then returns; the canvas stays well-formed, and a
    second [setImageData] replaces the first altogether. *)
Theorem Canvas_set_then_get :
  forall (v : Canvas.t) (d d' : ImageData.t),
    wellFormed v -> fits d v -> fits d' v ->
    Canvas.width v <> 0 -> Canvas.height v <> 0 ->
    storedExactly (ImageData.data d) ->
    Canvas.getImageData (Canvas.setImageData d v) = Some d
    /\ HTMLCanvasElement.bitmap (Canvas.canvas (Canvas.setImageData d v))
       = ImageData.data d
    /\ wellFormed (Canvas.setImageData d v)
    /\ Canvas.setImageData d' (Canvas.setImageData d v) = Canvas.setImageData d' v.
Proof.
  intros v d d' Hv Hd Hd' Hw0 Hh0 _.
  pose proof (setImageData_wellFormed _ _ Hv Hd) as Hv'.
  split; [|split; [|split; [exact Hv'|]]].
  - rewrite (setImageData_fits _ _ Hv Hd).
    unfold Canvas.getImageData, HTMLCanvasElement.getImageData. simpl.
    apply Nat.eqb_neq in Hw0, Hh0. rewrite Hw0, Hh0. simpl.
    destruct Hd as (Hdw & Hdh & Hdlen). rewrite tabulate_channel by exact Hdlen.
    destruct d as [dw dh dd]. simpl in *. now subst.
  - now rewrite (setImageData_fits _ _ Hv Hd).
  - assert (Hd'' : fits d' (Canvas.setImageData d v)).
    { rewrite (setImageData_fits _ _ Hv Hd). exact Hd'. }
    rewrite (setImageData_fits _ _ Hv' Hd''), (setImageData_fits _ _ Hv Hd').
    rewrite (setImageData_fits _ _ Hv Hd). reflexivity.
Qed.

(** X3: [clear] sets every byte of the bitmap of a well-formed canvas to 0
    ("all the RGBA pixels to (0, 0, 0, 0)"), whatever was written before: a
    cleared canvas only depends on the size and on the bounding rectangle,
    and clearing twice is clearing once. *)
Theorem Canvas_clear_erases :
  forall (v : Canvas.t) (d : ImageData.t),
    wellFormed v -> fits d v ->
    HTMLCanvasElement.bitmap (Canvas.canvas (Canvas.clear v))
    = repeat 0%Z (4 * Canvas.width v * Canvas.height v)
    /\ wellFormed (Canvas.clear v)
    /\ Canvas.clear (Canvas.setImageData d v) = Canvas.clear v
    /\ Canvas.clear (Canvas.clear v) = Canvas.clear v.
Proof.
  intros v d Hv Hd.
  assert (Hc : wellFormed (Canvas.clear v)).
  { rewrite (clear_wellFormed_eq _ Hv). repeat split; simpl; auto.
    now rewrite repeat_length. }
  split; [now rewrite (clear_wellFormed_eq _ Hv)|]. split; [exact Hc|]. split.
  - rewrite (clear_wellFormed_eq _ (setImageData_wellFormed _ _ Hv Hd)).
    rewrite (clear_wellFormed_eq _ Hv), (setImageData_fits _ _ Hv Hd). reflexivity.
  - rewrite (clear_wellFormed_eq _ Hc), (clear_wellFormed_eq _ Hv). reflexivity.
Qed.

(** X4: [drawCanvas] puts the top-left corner of the other canvas at
    [(this.width, this.height)], the bottom-right corner of this one: on a
    well-formed canvas it changes no pixel, whatever the other canvas holds
    and however pixels are composited. *)
Theorem Canvas_drawCanvas_draws_nothing :
  forall (over : Color -> Color -> Color) (other this : Canvas.t),
    wellFormed this ->
    CanvasImage.drawCanvas over other this = this.
Proof.
  intros over other this (Hw & Hh & Hlen).
  unfold CanvasImage.drawCanvas, CanvasImage.drawImage.
  apply Canvas_eta.
  transitivity (tabulate (HTMLCanvasElement.width (Canvas.canvas this))
                         (HTMLCanvasElement.height (Canvas.canvas this))
                         (channel (HTMLCanvasElement.width (Canvas.canvas this))
                                  (HTMLCanvasElement.height (Canvas.canvas this))
                                  (HTMLCanvasElement.bitmap (Canvas.canvas this))));
    [|apply tabulate_channel; rewrite Hw, Hh; exact Hlen].
  apply tabulate_ext. intros x y c Hx Hy Hc.
  rewrite Hw in Hx. apply Nat.leb_gt in Hx. now rewrite Hx.
Qed.

(** ** Positions of events *)

Lemma Math_floor_integer (z : Z) : Math_floor (inject_Z z) = inject_Z z.
Proof. unfold Math_floor. now rewrite Qfloor_Z. Qed.

Lemma floor_integral (p : Point.t) : integral (Point.floor p).
Proof.
  exists (Qfloor (Point.x p)), (Qfloor (Point.y p)). reflexivity.
Qed.

Lemma positionOn_integral v event : integral (positionOn v event).
Proof. apply floor_integral. Qed.

(** X5: for a canvas displayed at its own size (the bounding rectangle has
    the width and the height of the node, both non-zero), the position a
    tool takes from an event is the client offset of the event in the
    bounding rectangle, floored. *)
Theorem position_of_unscaled_canvas :
  forall (event : MouseEvent.t) (v : Canvas.t),
    HTMLCanvasElement.width (Canvas.canvas v) <> 0 ->
    HTMLCanvasElement.height (Canvas.canvas v) <> 0 ->
    (ClientRect.right (Canvas.canvasBoundingRect v)
     - ClientRect.left (Canvas.canvasBoundingRect v)
     == inject_Z (Z.of_nat (HTMLCanvasElement.width (Canvas.canvas v))))%Q ->
    (ClientRect.bottom (Canvas.canvasBoundingRect v)
     - ClientRect.top (Canvas.canvasBoundingRect v)
     == inject_Z (Z.of_nat (HTMLCanvasElement.height (Canvas.canvas v))))%Q ->
    positionOn v event
    = Point.new
        (inject_Z (Qfloor (MouseEvent.clientX event
                           - ClientRect.left (Canvas.canvasBoundingRect v))))
        (inject_Z (Qfloor (MouseEvent.clientY event
                           - ClientRect.top (Canvas.canvasBoundingRect v)))).
Proof.
  intros event v Hw Hh Hx Hy.
  destruct (getMouseEventCoordinates_unscaled event v Hw Hh Hx Hy) as (Ex & Ey).
  unfold positionOn, Point.floor, Math_floor.
  now rewrite (Qfloor_comp _ _ Ex), (Qfloor_comp _ _ Ey).
Qed.

(** X6: the position a tool takes from an event only depends on where the
    event is relative to the bounding rectangle: moving the rectangle and
    the event by the same vector (a scroll, a moved window) gives the same
    position, whatever the scale. *)
Theorem position_is_relative_to_bounding_rectangle :
  forall (event : MouseEvent.t) (v : Canvas.t) (dx dy : number),
    positionOn
      (Canvas.new (Canvas.canvas v) (Canvas.width v) (Canvas.height v)
         (ClientRect.new
            (ClientRect.left (Canvas.canvasBoundingRect v) + dx)%Q
            (ClientRect.top (Canvas.canvasBoundingRect v) + dy)%Q
            (ClientRect.right (Canvas.canvasBoundingRect v) + dx)%Q
            (ClientRect.bottom (Canvas.canvasBoundingRect v) + dy)%Q))
      (MouseEvent.new (MouseEvent.clientX event + dx)%Q
                      (MouseEvent.clientY event + dy)%Q)
    = positionOn v event.
Proof.
  intros event v dx dy.
  unfold positionOn, Point.floor, Math_floor, Canvas.getMouseEventCoordinates.
  cbn [Point.x Point.y Canvas.canvasBoundingRect Canvas.canvas ClientRect.left
       ClientRect.top ClientRect.right ClientRect.bottom MouseEvent.clientX
       MouseEvent.clientY].
  f_equal; f_equal; apply Qfloor_comp; unfold Qdiv; ring.
Qed.

(** ** The tools on sequences of events *)

Lemma ret_inv {A : Type} (a b : A) (w w' : World) :
  ret a w = Some (b, w') -> b = a /\ w' = w.
Proof. unfold ret. now intros [= <- <-]. Qed.

Section ToolRuns.
Context `{DrawingPrimitives}.

(** *** Each handler of the ellipse tool, in full *)

Lemma EllipseTool_onMouseDown_full_inv event this w this' w' :
  EllipseTool.onMouseDown event this w = Some (this', w') ->
  exists wc, heap w !! EllipseTool.workingCanvas this = Some wc
             /\ this' = EllipseTool.set_firstPoint (Some (positionOn wc event)) this
             /\ w' = w.
Proof.
  unfold EllipseTool.onMouseDown. intros Hrun.
  apply bind_inv in Hrun as (p & w1 & Hc & Hr).
  apply getMouseEventCoordinates_inv in Hc as (-> & wc & Hwc & ->).
  apply ret_inv in Hr as (-> & ->). eauto.
Qed.

Lemma EllipseTool_onMouseMove_run event this w anchor wc img0 :
  EllipseTool.firstPoint this = Some anchor ->
  heap w !! EllipseTool.workingCanvas this = Some wc ->
  Canvas.getImageData (Canvas.clear wc) = Some img0 ->
  EllipseTool.onMouseMove event this w
  = Some (EllipseTool.set_secondPoint (Some (positionOn wc event)) this,
          mkWorld
            (<[EllipseTool.workingCanvas this :=
                 Canvas.setImageData
                   (Ellipse_drawFromBoundingRect anchor (positionOn wc event) img0)
                   (Canvas.clear wc)]>
               (<[EllipseTool.workingCanvas this := Canvas.clear wc]> (heap w)))
            (PutImageData (EllipseTool.workingCanvas this)
               :: GetImageData (EllipseTool.workingCanvas this)
               :: ClearRect (EllipseTool.workingCanvas this) :: calls w)).
Proof.
  intros Ha Hwc Hg. unfold EllipseTool.onMouseMove. rewrite Ha. unfold bind.
  rewrite (getMouseEventCoordinates_on_ref _ _ _ _ Hwc).
  cbv beta zeta. cbn [EllipseTool.workingCanvas EllipseTool.set_secondPoint].
  rewrite (clear_on_ref _ _ _ Hwc).
  rewrite (EllipseTool_apply_run _ _ _ (Canvas.clear wc) img0 anchor (positionOn wc event)).
  - reflexivity.
  - simpl. apply lookup_insert_eq.
  - exact Hg.
  - exact Ha.
  - reflexivity.
Qed.

Lemma EllipseTool_onMouseUp_run event this w anchor wc dc img :
  EllipseTool.firstPoint this = Some anchor ->
  EllipseTool.workingCanvas this <> EllipseTool.drawingCanvas this ->
  heap w !! EllipseTool.workingCanvas this = Some wc ->
  heap w !! EllipseTool.drawingCanvas this = Some dc ->
  Canvas.getImageData dc = Some img ->
  EllipseTool.onMouseUp event this w
  = Some (EllipseTool.mk None None (EllipseTool.workingCanvas this)
                         (EllipseTool.drawingCanvas this),
          mkWorld
            (<[EllipseTool.workingCanvas this := Canvas.clear wc]>
               (<[EllipseTool.drawingCanvas this :=
                    Canvas.setImageData
                      (Ellipse_drawFromBoundingRect anchor (positionOn wc event) img) dc]>
                  (heap w)))
            (ClearRect (EllipseTool.workingCanvas this)
               :: PutImageData (EllipseTool.drawingCanvas this)
               :: GetImageData (EllipseTool.drawingCanvas this) :: calls w)).
Proof.
  intros Ha Hne Hwc Hdc Hg.
  unfold EllipseTool.onMouseUp. rewrite Ha. unfold bind.
  rewrite (getMouseEventCoordinates_on_ref _ _ _ _ Hwc).
  rewrite (EllipseTool_apply_run _ _ _ dc img anchor (positionOn wc event)); auto.
  simpl. erewrite clear_on_ref; [reflexivity|].
  simpl. rewrite lookup_insert_ne; auto.
Qed.

(** *** The points kept by the tools *)

Lemma EllipseTool_dispatch_integral pe this w this' w' :
  integralOrNull (EllipseTool.firstPoint this) ->
  integralOrNull (EllipseTool.secondPoint this) ->
  EllipseTool.dispatch pe this w = Some (this', w') ->
  integralOrNull (EllipseTool.firstPoint this')
  /\ integralOrNull (EllipseTool.secondPoint this').
Proof.
  intros H1 H2 Hstep. destruct pe as [e|e|e]; simpl in Hstep.
  - apply EllipseTool_onMouseDown_full_inv in Hstep as (wc & _ & -> & _).
    split; [apply positionOn_integral|exact H2].
  - unfold EllipseTool.onMouseMove in Hstep.
    destruct (EllipseTool.firstPoint this) as [a|] eqn:Ha.
    + apply bind_inv in Hstep as (p & w1 & _ & Hstep).
      apply bind_inv in Hstep as (u1 & w2 & _ & Hstep).
      apply bind_inv in Hstep as (u2 & w3 & _ & Hstep).
      apply ret_inv in Hstep as (-> & _). simpl. rewrite Ha.
      split; [exact H1|apply floor_integral].
    + apply ret_inv in Hstep as (-> & _). rewrite Ha. auto.
  - apply EllipseTool_onMouseUp_inv in Hstep
      as [(Ha & -> & _) | (anchor & v1 & v2 & v3 & Ha & -> & _)].
    + auto.
    + split; exact I.
Qed.

Lemma FreeHandTool_onMouseMove_inv event this w this' w' :
  FreeHandTool.onMouseMove event this w = Some (this', w') ->
  (FreeHandTool.lastPosition this = None /\ this' = this /\ w' = w)
  \/ (exists last wc v,
        FreeHandTool.lastPosition this = Some last
        /\ heap w !! ImageWorkspace.workingCanvas (FreeHandTool.workspace this) = Some wc
        /\ this' = FreeHandTool.set_lastPosition (Some (positionOn wc event)) this
        /\ heap w' = <[ImageWorkspace.drawingCanvas (FreeHandTool.workspace this) := v]>
                       (heap w)
        /\ calls w'
           = PutImageData (ImageWorkspace.drawingCanvas (FreeHandTool.workspace this))
               :: GetImageData (ImageWorkspace.drawingCanvas (FreeHandTool.workspace this))
               :: calls w).
Proof.
  unfold FreeHandTool.onMouseMove. intros Hrun.
  destruct (FreeHandTool.lastPosition this) as [last|] eqn:Hl.
  - right.
    apply bind_inv in Hrun as (p & w1 & Hc & Hrun).
    apply getMouseEventCoordinates_inv in Hc as (-> & wc & Hwc & ->).
    apply bind_inv in Hrun as (u & w2 & Hdraw & Hrun).
    apply ret_inv in Hrun as (-> & ->).
    unfold FreeHandTool.drawLine in Hdraw.
    apply bind_inv in Hdraw as (img & w3 & Hg & Hdraw).
    apply getImageData_inv in Hg as (dc & Hdc & _ & ->).
    apply bind_inv in Hdraw as (from & w4 & Hn & Hdraw).
    apply nonnull_inv in Hn as (_ & ->).
    apply setImageData_inv in Hdraw as (dc' & _ & ->). simpl.
    eexists _, _, _. repeat split; eauto.
  - left. apply ret_inv in Hrun as (-> & ->). auto.
Qed.

Lemma FreeHandTool_onMouseDown_inv event this w this' w' :
  FreeHandTool.onMouseDown event this w = Some (this', w') ->
  w' = w
  /\ ((FreeHandTool.lastPosition this <> None /\ this' = this)
      \/ (exists wc,
            FreeHandTool.lastPosition this = None
            /\ heap w !! ImageWorkspace.workingCanvas (FreeHandTool.workspace this)
               = Some wc
            /\ this' = FreeHandTool.set_lastPosition (Some (positionOn wc event)) this)).
Proof.
  unfold FreeHandTool.onMouseDown. intros Hrun.
  destruct (FreeHandTool.lastPosition this) as [last|] eqn:Hl.
  - apply ret_inv in Hrun as (-> & ->). split; [reflexivity|]. left. now split.
  - apply bind_inv in Hrun as (p & w1 & Hc & Hrun).
    apply getMouseEventCoordinates_inv in Hc as (-> & wc & Hwc & ->).
    apply ret_inv in Hrun as (-> & ->). split; [reflexivity|]. right. eauto.
Qed.

Lemma FreeHandTool_onMouseUp_inv event this w this' w' :
  FreeHandTool.onMouseUp event this w = Some (this', w') ->
  exists this1,
    FreeHandTool.onMouseMove event this w = Some (this1, w')
    /\ this' = FreeHandTool.set_lastPosition None this1.
Proof.
  unfold FreeHandTool.onMouseUp. intros Hrun.
  apply bind_inv in Hrun as (this1 & w1 & Hmove & Hret).
  apply ret_inv in Hret as (-> & ->). eauto.
Qed.

Lemma FreeHandTool_dispatch_integral pe this w this' w' :
  integralOrNull (FreeHandTool.lastPosition this) ->
  FreeHandTool.dispatch pe this w = Some (this', w') ->
  integralOrNull (FreeHandTool.lastPosition this').
Proof.
  intros Hi Hstep. destruct pe as [e|e|e]; simpl in Hstep.
  - apply FreeHandTool_onMouseDown_inv in Hstep as (_ & [(_ & ->) | (wc & _ & _ & ->)]).
    + exact Hi.
    + apply positionOn_integral.
  - apply FreeHandTool_onMouseMove_inv in Hstep
      as [(_ & -> & _) | (last & wc & v & _ & _ & -> & _)].
    + exact Hi.
    + apply positionOn_integral.
  - apply FreeHandTool_onMouseUp_inv in Hstep as (this1 & _ & ->). exact I.
Qed.

(** No handler changes the size of the node of a canvas. *)

Lemma nodesNotEmpty_insert (h : gmap ref Canvas.t) k v v' :
  h !! k = Some v ->
  HTMLCanvasElement.width (Canvas.canvas v') = HTMLCanvasElement.width (Canvas.canvas v) ->
  HTMLCanvasElement.height (Canvas.canvas v') = HTMLCanvasElement.height (Canvas.canvas v) ->
  nodesNotEmpty h -> nodesNotEmpty (<[k := v']> h).
Proof.
  intros Hk Hw Hh Hn c u Hu. destruct (decide (c = k)) as [->|Hne].
  - rewrite lookup_insert_eq in Hu. injection Hu as <-.
    rewrite Hw, Hh. exact (Hn k v Hk).
  - rewrite lookup_insert_ne in Hu by auto. exact (Hn c u Hu).
Qed.

Lemma setImageData_nodes c d w u w' :
  Canvas_setImageData c d w = Some (u, w') ->
  nodesNotEmpty (heap w) -> nodesNotEmpty (heap w').
Proof.
  intros Hrun Hn. apply setImageData_inv in Hrun as (v & Hv & ->). simpl.
  now apply (nodesNotEmpty_insert _ c v).
Qed.

Lemma clear_nodes c w u w' :
  Canvas_clear c w = Some (u, w') ->
  nodesNotEmpty (heap w) -> nodesNotEmpty (heap w').
Proof.
  intros Hrun Hn. apply clear_inv in Hrun as (v & Hv & ->). simpl.
  now apply (nodesNotEmpty_insert _ c v).
Qed.

Lemma EllipseTool_apply_nodes image this w u w' :
  EllipseTool.apply image this w = Some (u, w') ->
  nodesNotEmpty (heap w) -> nodesNotEmpty (heap w').
Proof.
  unfold EllipseTool.apply. intros Hrun Hn.
  apply bind_inv in Hrun as (img & w1 & Hg & Hrun).
  apply getImageData_inv in Hg as (v & Hv & _ & ->).
  apply bind_inv in Hrun as (p & w2 & Hp & Hrun). apply nonnull_inv in Hp as (_ & ->).
  apply bind_inv in Hrun as (q & w3 & Hq & Hrun). apply nonnull_inv in Hq as (_ & ->).
  now apply setImageData_nodes in Hrun.
Qed.

Lemma EllipseTool_dispatch_nodes pe this w this' w' :
  EllipseTool.dispatch pe this w = Some (this', w') ->
  nodesNotEmpty (heap w) -> nodesNotEmpty (heap w').
Proof.
  intros Hstep Hn. destruct pe as [e|e|e]; simpl in Hstep.
  - now apply EllipseTool_onMouseDown_full_inv in Hstep as (wc & _ & _ & ->).
  - unfold EllipseTool.onMouseMove in Hstep.
    destruct (EllipseTool.firstPoint this) as [a|].
    + apply bind_inv in Hstep as (p & w1 & Hc & Hstep).
      apply getMouseEventCoordinates_inv in Hc as (-> & _).
      apply bind_inv in Hstep as (u1 & w2 & Hclear & Hstep).
      apply clear_nodes in Hclear; [|exact Hn].
      apply bind_inv in Hstep as (u2 & w3 & Happ & Hstep).
      apply EllipseTool_apply_nodes in Happ; [|exact Hclear].
      now apply ret_inv in Hstep as (_ & ->).
    + now apply ret_inv in Hstep as (_ & ->).
  - unfold EllipseTool.onMouseUp in Hstep.
    destruct (EllipseTool.firstPoint this) as [a|].
    + apply bind_inv in Hstep as (p & w1 & Hc & Hstep).
      apply getMouseEventCoordinates_inv in Hc as (-> & _).
      apply bind_inv in Hstep as (u1 & w2 & Happ & Hstep).
      apply EllipseTool_apply_nodes in Happ; [|exact Hn].
      apply bind_inv in Hstep as (u2 & w3 & Hclear & Hstep).
      apply clear_nodes in Hclear; [|exact Happ].
      now apply ret_inv in Hstep as (_ & ->).
    + now apply ret_inv in Hstep as (_ & ->).
Qed.

Lemma FreeHandTool_onMouseMove_nodes e this w this' w' :
  FreeHandTool.onMouseMove e this w = Some (this', w') ->
  nodesNotEmpty (heap w) -> nodesNotEmpty (heap w').
Proof.
  unfold FreeHandTool.onMouseMove. intros Hrun Hn.
  destruct (FreeHandTool.lastPosition this) as [last|].
  - apply bind_inv in Hrun as (p & w1 & Hc & Hrun).
    apply getMouseEventCoordinates_inv in Hc as (-> & _).
    apply bind_inv in Hrun as (u & w2 & Hdraw & Hrun).
    apply ret_inv in Hrun as (_ & ->).
    unfold FreeHandTool.drawLine in Hdraw.
    apply bind_inv in Hdraw as (img & w3 & Hg & Hdraw).
    apply getImageData_inv in Hg as (dc & Hdc & _ & ->).
    apply bind_inv in Hdraw as (from & w4 & Hfrom & Hdraw).
    apply nonnull_inv in Hfrom as (_ & ->).
    now apply setImageData_nodes in Hdraw.
  - now apply ret_inv in Hrun as (_ & ->).
Qed.

Lemma FreeHandTool_dispatch_nodes pe this w this' w' :
  FreeHandTool.dispatch pe this w = Some (this', w') ->
  nodesNotEmpty (heap w) -> nodesNotEmpty (heap w').
Proof.
  intros Hstep Hn. destruct pe as [e|e|e]; simpl in Hstep.
  - now apply FreeHandTool_onMouseDown_inv in Hstep as (-> & _).
  - now apply FreeHandTool_onMouseMove_nodes in Hstep.
  - apply FreeHandTool_onMouseUp_inv in Hstep as (this1 & Hstep & _).
    now apply FreeHandTool_onMouseMove_nodes in Hstep.
Qed.

(** X7: every point the tools keep has integer coordinates.  On canvases
    whose nodes have a non-zero width and height (so that no position is
    the result of a division by 0), in every state reached from
    construction by completed handlers, [firstPoint] and [secondPoint] of
    the ellipse tool and [lastPosition] of the free-hand tool are null or
    points with integer coordinates; and the nodes still have a non-zero
    width and height. *)
Theorem tools_keep_integral_points :
  forall (es fs : list PointerEvent) (working drawing : ref)
         (workspace : ImageWorkspace.t) (w w' wf wf' : World)
         (ellipse : EllipseTool.t) (freehand : FreeHandTool.t),
    nodesNotEmpty (heap w) ->
    nodesNotEmpty (heap wf) ->
    EllipseTool.run es (EllipseTool.constructor working drawing) w = Some (ellipse, w') ->
    FreeHandTool.run fs (FreeHandTool.constructor workspace) wf = Some (freehand, wf') ->
    integralOrNull (EllipseTool.firstPoint ellipse)
    /\ integralOrNull (EllipseTool.secondPoint ellipse)
    /\ integralOrNull (FreeHandTool.lastPosition freehand)
    /\ nodesNotEmpty (heap w')
    /\ nodesNotEmpty (heap wf').
Proof.
  intros es fs working drawing workspace w w' wf wf' ellipse freehand Hn Hnf He Hf.
  assert (HE : forall es this w this' w',
             integralOrNull (EllipseTool.firstPoint this) ->
             integralOrNull (EllipseTool.secondPoint this) ->
             nodesNotEmpty (heap w) ->
             EllipseTool.run es this w = Some (this', w') ->
             integralOrNull (EllipseTool.firstPoint this')
             /\ integralOrNull (EllipseTool.secondPoint this')
             /\ nodesNotEmpty (heap w')).
  { clear. intros es. induction es as [|pe es IH]; intros this w this' w' H1 H2 Hn Hrun;
      simpl in Hrun.
    - apply ret_inv in Hrun as (-> & ->). auto.
    - apply bind_inv in Hrun as (this1 & w1 & Hstep & Hrest).
      destruct (EllipseTool_dispatch_integral _ _ _ _ _ H1 H2 Hstep) as (H1' & H2').
      apply EllipseTool_dispatch_nodes in Hstep; [|exact Hn].
      eapply IH; eauto. }
  assert (HF : forall fs this w this' w',
             integralOrNull (FreeHandTool.lastPosition this) ->
             nodesNotEmpty (heap w) ->
             FreeHandTool.run fs this w = Some (this', w') ->
             integralOrNull (FreeHandTool.lastPosition this')
             /\ nodesNotEmpty (heap w')).
  { clear. intros fs. induction fs as [|pe fs IH]; intros this w this' w' Hi Hn Hrun;
      simpl in Hrun.
    - apply ret_inv in Hrun as (-> & ->). auto.
    - apply bind_inv in Hrun as (this1 & w1 & Hstep & Hrest).
      pose proof (FreeHandTool_dispatch_integral _ _ _ _ _ Hi Hstep) as Hi'.
      apply FreeHandTool_dispatch_nodes in Hstep; [|exact Hn].
      eapply IH; eauto. }
  apply HE in He as (H1 & H2 & Hn'); [|exact I|exact I|exact Hn].
  apply HF in Hf as (H3 & Hnf'); [|exact I|exact Hnf]. auto.
Qed.

(** *** Events received while no gesture is in progress *)

(** X8: before the first pointer-down, nothing happens: a tool in the Idle
    state that receives pointer-moves and pointer-ups, in any number and
    order, returns normally from each handler and neither its state nor any
    canvas nor the log of context calls changes. *)
Theorem idle_tools_ignore_moves_and_ups :
  forall (es : list PointerEvent) (w : World)
         (ellipse : EllipseTool.t) (freehand : FreeHandTool.t),
    forallb (fun pe => negb (is_down pe)) es = true ->
    EllipseTool.firstPoint ellipse = None ->
    FreeHandTool.lastPosition freehand = None ->
    EllipseTool.run es ellipse w = Some (ellipse, w)
    /\ FreeHandTool.run es freehand w = Some (freehand, w).
Proof.
  intros es w ellipse freehand Hes He Hf.
  assert (Hfree : forall e, FreeHandTool.onMouseUp e freehand w = Some (freehand, w)).
  { intros e. unfold FreeHandTool.onMouseUp, FreeHandTool.onMouseMove, bind.
    rewrite Hf. unfold ret. destruct freehand as [ps last ws].
    simpl in Hf. now subst last. }
  induction es as [|pe es IH]; [split; reflexivity|].
  simpl in Hes. apply andb_prop in Hes as (Hpe & Hes).
  destruct (IH Hes) as (IHe & IHf).
  destruct pe as [e|e|e]; [discriminate| |]; simpl; unfold bind.
  - unfold EllipseTool.onMouseMove, FreeHandTool.onMouseMove. rewrite He, Hf.
    unfold ret. auto.
  - unfold EllipseTool.onMouseUp. rewrite He, Hfree. unfold ret. auto.
Qed.

(** *** Geometry of the canvases *)

Lemma sameGeometry_refl v : sameGeometry v v.
Proof. repeat split. Qed.

Lemma sameGeometry_trans v1 v2 v3 :
  sameGeometry v1 v2 -> sameGeometry v2 v3 -> sameGeometry v1 v3.
Proof.
  intros (A1 & A2 & A3) (B1 & B2 & B3). repeat split; congruence.
Qed.

Lemma positionOn_sameGeometry v v' event :
  wellFormed v -> wellFormed v' -> sameGeometry v v' ->
  positionOn v' event = positionOn v event.
Proof.
  intros (Hw & Hh & _) (Hw' & Hh' & _) (Gw & Gh & Gr).
  unfold positionOn, Canvas.getMouseEventCoordinates.
  now rewrite Hw, Hh, Hw', Hh', Gw, Gh, Gr.
Qed.

Lemma setImageData_keeps_wellFormed d v :
  wellFormed v -> wellFormed (Canvas.setImageData d v) /\ sameGeometry v (Canvas.setImageData d v).
Proof.
  intros (Hw & Hh & Hlen). split; [|repeat split].
  repeat split; simpl; auto. rewrite tabulate_length, Hw, Hh. reflexivity.
Qed.

Lemma clear_is_blankLike v : wellFormed v -> Canvas.clear v = blankLike v.
Proof. apply clear_wellFormed_eq. Qed.

Lemma blankLike_wellFormed v : wellFormed (blankLike v) /\ sameGeometry v (blankLike v).
Proof.
  split; [|repeat split]. repeat split; simpl; auto. now rewrite repeat_length.
Qed.

Lemma blankLike_sameGeometry v v' : sameGeometry v v' -> blankLike v' = blankLike v.
Proof. intros (Gw & Gh & Gr). unfold blankLike. now rewrite Gw, Gh, Gr. Qed.

Lemma getImageData_blankLike v :
  Canvas.width v <> 0 -> Canvas.height v <> 0 ->
  Canvas.getImageData (blankLike v)
  = Some (blankImage (Canvas.width v) (Canvas.height v)).
Proof.
  intros Hw Hh. unfold Canvas.getImageData, HTMLCanvasElement.getImageData, blankLike.
  simpl. apply Nat.eqb_neq in Hw, Hh. rewrite Hw, Hh. simpl.
  unfold blankImage. f_equal. f_equal. apply tabulate_channel. now rewrite repeat_length.
Qed.

(** *** The preview of the ellipse tool *)

Lemma EllipseTool_onMouseMove_preview event this w anchor wc :
  EllipseTool.firstPoint this = Some anchor ->
  heap w !! EllipseTool.workingCanvas this = Some wc ->
  wellFormed wc -> Canvas.width wc <> 0 -> Canvas.height wc <> 0 ->
  exists w',
    EllipseTool.onMouseMove event this w
    = Some (EllipseTool.set_secondPoint (Some (positionOn wc event)) this, w')
    /\ heap w'
       = <[EllipseTool.workingCanvas this :=
             Canvas.setImageData
               (Ellipse_drawFromBoundingRect
                  anchor (positionOn wc event)
                  (blankImage (Canvas.width wc) (Canvas.height wc)))
               (blankLike wc)]> (heap w).
Proof.
  intros Ha Hwc Hwf Hw Hh.
  pose proof (getImageData_blankLike wc Hw Hh) as Hg.
  rewrite <- (clear_is_blankLike _ Hwf) in Hg.
  eexists. split.
  - apply (EllipseTool_onMouseMove_run event this w anchor wc _ Ha Hwc Hg).
  - simpl. rewrite insert_insert_eq. now rewrite (clear_is_blankLike _ Hwf).
Qed.

(** X10: a pointer-move of the ellipse tool while a gesture is in progress
    succeeds on a well-formed working canvas of non-zero size, records the
    floored position as second point, and leaves on the working canvas the
    shape drawn on a blank image: nothing of the former preview (or of
    whatever the canvas held) remains, and no other canvas changes. *)
Theorem ellipse_preview_is_redrawn_from_blank :
  forall (event : MouseEvent.t) (this : EllipseTool.t) (w : World)
         (anchor : Point.t) (wc : Canvas.t),
    EllipseTool.firstPoint this = Some anchor ->
    heap w !! EllipseTool.workingCanvas this = Some wc ->
    wellFormed wc -> Canvas.width wc <> 0 -> Canvas.height wc <> 0 ->
    exists w' : World,
      EllipseTool.onMouseMove event this w
      = Some (EllipseTool.set_secondPoint (Some (positionOn wc event)) this, w')
      /\ heap w'
         = <[EllipseTool.workingCanvas this :=
               Canvas.setImageData
                 (Ellipse_drawFromBoundingRect
                    anchor (positionOn wc event)
                    (blankImage (Canvas.width wc) (Canvas.height wc)))
                 (blankLike wc)]> (heap w).
Proof. intros. now apply EllipseTool_onMouseMove_preview. Qed.
(** *** A whole gesture of the ellipse tool *)

(** Pointer-moves while the button is held: they succeed, keep the anchor,
    and only replace the working canvas by one of the same geometry. *)
Lemma EllipseTool_moves_run moves : forall this w anchor wc wcur,
  EllipseTool.firstPoint this = Some anchor ->
  heap w !! EllipseTool.workingCanvas this = Some wcur ->
  wellFormed wc -> Canvas.width wc <> 0 -> Canvas.height wc <> 0 ->
  wellFormed wcur -> sameGeometry wc wcur ->
  exists this' w' wc',
    EllipseTool.run (map MouseMove moves) this w = Some (this', w')
    /\ EllipseTool.firstPoint this' = Some anchor
    /\ EllipseTool.workingCanvas this' = EllipseTool.workingCanvas this
    /\ EllipseTool.drawingCanvas this' = EllipseTool.drawingCanvas this
    /\ heap w' = <[EllipseTool.workingCanvas this := wc']> (heap w)
    /\ wellFormed wc' /\ sameGeometry wc wc'.
Proof.
  induction moves as [|e moves IH]; intros this w anchor wc wcur Ha Hcur Hwf Hw Hh Hwfc Hg.
  - exists this, w, wcur. simpl.
    split; [reflexivity|]. split; [exact Ha|]. split; [reflexivity|].
    split; [reflexivity|]. split; [now rewrite insert_id|]. split; assumption.
  - assert (Hw' : Canvas.width wcur <> 0) by (destruct Hg as (-> & _); exact Hw).
    assert (Hh' : Canvas.height wcur <> 0) by (destruct Hg as (_ & -> & _); exact Hh).
    destruct (EllipseTool_onMouseMove_preview e this w anchor wcur Ha Hcur Hwfc Hw' Hh')
      as (w1 & Hmove & Hheap).
    set (this1 := EllipseTool.set_secondPoint (Some (positionOn wcur e)) this) in *.
    set (wc1 := Canvas.setImageData
                  (Ellipse_drawFromBoundingRect
                     anchor (positionOn wcur e)
                     (blankImage (Canvas.width wcur) (Canvas.height wcur)))
                  (blankLike wcur)) in *.
    assert (Hwc1 : wellFormed wc1 /\ sameGeometry wc wc1).
    { destruct (blankLike_wellFormed wcur) as (Hb & Gb).
      destruct (setImageData_keeps_wellFormed
                  (Ellipse_drawFromBoundingRect
                     anchor (positionOn wcur e)
                     (blankImage (Canvas.width wcur) (Canvas.height wcur)))
                  (blankLike wcur) Hb) as (Hs & Gs).
      split; [exact Hs|].
      eapply sameGeometry_trans; [exact Hg|].
      eapply sameGeometry_trans; [exact Gb|exact Gs]. }
    destruct Hwc1 as (Hwf1 & Hg1).
    destruct (IH this1 w1 anchor wc wc1) as (this' & w' & wc' & Hrun & Ha' & Hwk & Hdr & Hh2 & Hwf2 & Hg2);
      auto.
    { rewrite Hheap. apply lookup_insert_eq. }
    exists this', w', wc'. simpl. unfold bind. rewrite Hmove.
    split; [exact Hrun|]. split; [exact Ha'|]. split; [exact Hwk|].
    split; [exact Hdr|]. split; [|split; assumption].
    rewrite Hh2, Hheap. simpl. now rewrite insert_insert_eq.
Qed.

(** X9: a whole gesture of the ellipse tool, "down, move*, up", on distinct
    canvases (the working one well-formed and of non-zero size, the drawing
    one readable) succeeds whatever the state of the tool before and
    whatever the moves in between: it leaves the tool Idle, writes the
    drawing canvas once, with the ellipse of the floored positions of the
    pointer-down and of the pointer-up, leaves the working canvas cleared,
    and changes no other canvas. *)
Theorem ellipse_gesture_commits_one_ellipse :
  forall (down up : MouseEvent.t) (moves : list MouseEvent.t)
         (this : EllipseTool.t) (w : World) (wc dc : Canvas.t) (img : ImageData.t),
    EllipseTool.workingCanvas this <> EllipseTool.drawingCanvas this ->
    heap w !! EllipseTool.workingCanvas this = Some wc ->
    heap w !! EllipseTool.drawingCanvas this = Some dc ->
    wellFormed wc -> Canvas.width wc <> 0 -> Canvas.height wc <> 0 ->
    Canvas.getImageData dc = Some img ->
    exists w' : World,
      EllipseTool.run (MouseDown down :: map MouseMove moves ++ [MouseUp up]) this w
      = Some (EllipseTool.mk None None (EllipseTool.workingCanvas this)
                             (EllipseTool.drawingCanvas this), w')
      /\ heap w'
         = <[EllipseTool.workingCanvas this := Canvas.clear wc]>
             (<[EllipseTool.drawingCanvas this :=
                  Canvas.setImageData
                    (Ellipse_drawFromBoundingRect (positionOn wc down)
                                                  (positionOn wc up) img) dc]>
                (heap w))
      /\ writes (EllipseTool.drawingCanvas this) (calls w')
         = 1 + writes (EllipseTool.drawingCanvas this) (calls w).
Proof.
  intros down up moves this w wc dc img Hne Hwc Hdc Hwf Hw Hh Hg.
  set (this0 := EllipseTool.set_firstPoint (Some (positionOn wc down)) this).
  destruct (EllipseTool_moves_run moves this0 w (positionOn wc down) wc wc)
    as (this2 & w2 & wc2 & Hmoves & Ha2 & Hwk2 & Hdr2 & Hheap2 & Hwf2 & Hg2);
    auto using sameGeometry_refl.
  simpl in Hwk2, Hdr2, Hheap2.
  assert (Hup : EllipseTool.onMouseUp up this2 w2
                = Some (EllipseTool.mk None None (EllipseTool.workingCanvas this)
                                       (EllipseTool.drawingCanvas this),
                        mkWorld
                          (<[EllipseTool.workingCanvas this := Canvas.clear wc2]>
                             (<[EllipseTool.drawingCanvas this :=
                                  Canvas.setImageData
                                    (Ellipse_drawFromBoundingRect
                                       (positionOn wc down) (positionOn wc2 up) img) dc]>
                                (heap w2)))
                          (ClearRect (EllipseTool.workingCanvas this)
                             :: PutImageData (EllipseTool.drawingCanvas this)
                             :: GetImageData (EllipseTool.drawingCanvas this)
                             :: calls w2))).
  { rewrite <- Hwk2, <- Hdr2.
    apply EllipseTool_onMouseUp_run; rewrite ?Hwk2, ?Hdr2; auto.
    - rewrite Hheap2. apply lookup_insert_eq.
    - rewrite Hheap2, lookup_insert_ne; auto. }
  assert (Hrun : EllipseTool.run (MouseDown down :: map MouseMove moves ++ [MouseUp up])
                                 this w
                 = Some (EllipseTool.mk None None (EllipseTool.workingCanvas this)
                                        (EllipseTool.drawingCanvas this),
                         mkWorld
                           (<[EllipseTool.workingCanvas this := Canvas.clear wc2]>
                              (<[EllipseTool.drawingCanvas this :=
                                   Canvas.setImageData
                                     (Ellipse_drawFromBoundingRect
                                        (positionOn wc down) (positionOn wc2 up) img) dc]>
                                 (heap w2)))
                           (ClearRect (EllipseTool.workingCanvas this)
                              :: PutImageData (EllipseTool.drawingCanvas this)
                              :: GetImageData (EllipseTool.drawingCanvas this)
                              :: calls w2))).
  { change (EllipseTool.run (MouseDown down :: map MouseMove moves ++ [MouseUp up]) this w)
      with (bind (EllipseTool.onMouseDown down this)
                 (EllipseTool.run (map MouseMove moves ++ [MouseUp up])) w).
    unfold bind at 1. rewrite (EllipseTool_onMouseDown_run down this w wc Hwc).
    fold (positionOn wc down). fold this0.
    rewrite EllipseTool_run_app. unfold bind at 1. rewrite Hmoves.
    simpl. unfold bind. now rewrite Hup. }
  eexists. split; [exact Hrun|]. split.
  - simpl. rewrite Hheap2.
    rewrite (positionOn_sameGeometry wc wc2 up Hwf Hwf2 Hg2).
    rewrite (clear_is_blankLike _ Hwf2), (clear_is_blankLike _ Hwf).
    rewrite (blankLike_sameGeometry _ _ Hg2).
    apply map_eq. intros k.
    destruct (decide (k = EllipseTool.workingCanvas this)) as [->|Hk1].
    + now rewrite !lookup_insert_eq.
    + rewrite !(lookup_insert_ne _ (EllipseTool.workingCanvas this)) by auto.
      destruct (decide (k = EllipseTool.drawingCanvas this)) as [->|Hk2].
      * now rewrite !lookup_insert_eq.
      * rewrite !(lookup_insert_ne _ (EllipseTool.drawingCanvas this)) by auto.
        rewrite lookup_insert_ne; auto.
  - apply (EllipseTool_gesture_writes_once down moves up this w _ _ Hne Hrun).
Qed.
(** *** A whole stroke of the free-hand tool *)

Lemma getImageData_setImageData d v :
  wellFormed v -> fits d v -> Canvas.width v <> 0 -> Canvas.height v <> 0 ->
  Canvas.getImageData (Canvas.setImageData d v) = Some d.
Proof.
  intros Hv Hd Hw0 Hh0. rewrite (setImageData_fits _ _ Hv Hd).
  unfold Canvas.getImageData, HTMLCanvasElement.getImageData. simpl.
  apply Nat.eqb_neq in Hw0, Hh0. rewrite Hw0, Hh0. simpl.
  destruct Hd as (Hdw & Hdh & Hdlen). rewrite tabulate_channel by exact Hdlen.
  destruct d as [dw dh dd]. simpl in *. now subst.
Qed.

Lemma setImageData_setImageData d d' v :
  wellFormed v -> fits d v -> fits d' v ->
  Canvas.setImageData d' (Canvas.setImageData d v) = Canvas.setImageData d' v.
Proof.
  intros Hv Hd Hd'.
  pose proof (setImageData_wellFormed _ _ Hv Hd) as Hv'.
  assert (Hd'' : fits d' (Canvas.setImageData d v)).
  { rewrite (setImageData_fits _ _ Hv Hd). exact Hd'. }
  rewrite (setImageData_fits _ _ Hv' Hd''), (setImageData_fits _ _ Hv Hd').
  rewrite (setImageData_fits _ _ Hv Hd). reflexivity.
Qed.

Lemma setImageData_of_getImageData v img :
  wellFormed v -> Canvas.getImageData v = Some img ->
  fits img v /\ Canvas.setImageData img v = v.
Proof.
  intros Hv Hg.
  destruct (getImageData_wellFormed _ _ Hv Hg) as (-> & _ & _).
  assert (Hfits : fits (ImageData.new (Canvas.width v) (Canvas.height v)
                          (HTMLCanvasElement.bitmap (Canvas.canvas v))) v).
  { destruct Hv as (_ & _ & Hlen). repeat split; simpl; auto. }
  split; [exact Hfits|].
  rewrite (setImageData_fits _ _ Hv Hfits). simpl.
  destruct Hv as (Hw & Hh & _). destruct v as [[ew eh bm] w h r].
  simpl in *. now subst.
Qed.

Lemma Line_draw_fits img p q v :
  Line_keeps_shape -> fits img v -> fits (Line_draw img p q Line_paintItBlack) v.
Proof.
  intros Hshape (Hw & Hh & Hlen).
  destruct (Hshape img p q Line_paintItBlack) as (Sw & Sh & Slen).
  repeat split; congruence.
Qed.

Lemma last_cons {A : Type} (ps : list A) : forall (q d : A),
  List.last (q :: ps) d = List.last ps q.
Proof.
  induction ps as [|p ps IH]; intros q d; [reflexivity|].
  change (List.last (q :: p :: ps) d) with (List.last (p :: ps) d).
  now rewrite !IH.
Qed.

Lemma polyline_app img from ps q :
  polyline img from (ps ++ [q])
  = Line_draw (polyline img from ps) (strokeEnd from ps) q Line_paintItBlack.
Proof.
  revert img from. induction ps as [|p ps IH]; intros img from; [reflexivity|].
  cbn [polyline app]. rewrite IH. unfold strokeEnd. now rewrite last_cons.
Qed.

Lemma FreeHandTool_run_app es1 : forall es2 this w,
  FreeHandTool.run (es1 ++ es2) this w
  = bind (FreeHandTool.run es1 this) (FreeHandTool.run es2) w.
Proof.
  induction es1 as [|pe es1 IH]; intros es2 this w; simpl.
  - reflexivity.
  - unfold bind at 1 2 3.
    destruct (FreeHandTool.dispatch pe this w) as [[this1 w1]|]; [|reflexivity].
    apply IH.
Qed.

(** The canvas that gives the positions, while the drawing canvas is being
    redrawn: the working canvas, or the drawing canvas itself if the two
    fields name the same canvas; its geometry is that of the start. *)
Lemma working_lookup_after_draw (h0 : gmap ref Canvas.t) wr dr wc dc d :
  h0 !! wr = Some wc -> h0 !! dr = Some dc ->
  exists wcur,
    (<[dr := Canvas.setImageData d dc]> h0) !! wr = Some wcur
    /\ forall e, positionOn wcur e = positionOn wc e.
Proof.
  intros Hwc Hdc. destruct (decide (wr = dr)) as [->|Hne].
  - rewrite Hwc in Hdc. injection Hdc as ->.
    exists (Canvas.setImageData d dc). split; [apply lookup_insert_eq|reflexivity].
  - exists wc. split; [|reflexivity]. now rewrite lookup_insert_ne.
Qed.

Lemma FreeHandTool_moves_run moves :
  forall (this : FreeHandTool.t) (w : World) (h0 : gmap ref Canvas.t)
         (wc dc : Canvas.t) (img : ImageData.t) (last : Point.t),
    Line_keeps_shape ->
    h0 !! ImageWorkspace.workingCanvas (FreeHandTool.workspace this) = Some wc ->
    h0 !! ImageWorkspace.drawingCanvas (FreeHandTool.workspace this) = Some dc ->
    wellFormed dc -> Canvas.width dc <> 0 -> Canvas.height dc <> 0 ->
    fits img dc ->
    FreeHandTool.lastPosition this = Some last ->
    heap w = <[ImageWorkspace.drawingCanvas (FreeHandTool.workspace this) :=
                 Canvas.setImageData img dc]> h0 ->
    exists w',
      FreeHandTool.run (map MouseMove moves) this w
      = Some (FreeHandTool.set_lastPosition
                (Some (strokeEnd last (map (positionOn wc) moves))) this, w')
      /\ heap w'
         = <[ImageWorkspace.drawingCanvas (FreeHandTool.workspace this) :=
               Canvas.setImageData (polyline img last (map (positionOn wc) moves)) dc]> h0.
Proof.
  induction moves as [|e moves IH];
    intros this w h0 wc dc img last Hshape Hwc Hdc Hwf Hw Hh Hfits Hl Hheap.
  - exists w. simpl. split; [|exact Hheap].
    destruct this as [ps lp ws]. simpl in Hl. subst lp. reflexivity.
  - destruct (working_lookup_after_draw h0 _ _ wc dc img Hwc Hdc) as (wcur & Hcur & Hpos).
    rewrite <- Hheap in Hcur.
    assert (Hdcur : heap w !! ImageWorkspace.drawingCanvas (FreeHandTool.workspace this)
                    = Some (Canvas.setImageData img dc))
      by (rewrite Hheap; apply lookup_insert_eq).
    pose proof (FreeHandTool_onMouseMove_run e this w last wcur
                  (Canvas.setImageData img dc) img Hl Hcur Hdcur
                  (getImageData_setImageData _ _ Hwf Hfits Hw Hh)) as Hmove.
    cbv zeta in Hmove. fold (positionOn wcur e) in Hmove. rewrite Hpos in Hmove.
    pose proof (Line_draw_fits img last (positionOn wc e) dc Hshape Hfits) as Hfits1.
    rewrite (setImageData_setImageData _ _ _ Hwf Hfits Hfits1) in Hmove.
    match type of Hmove with _ = Some (?t1, ?w1) =>
      destruct (IH t1 w1 h0 wc dc
                   (Line_draw img last (positionOn wc e) Line_paintItBlack)
                   (positionOn wc e)) as (w' & Hrun & Hheap'); auto
    end.
    { simpl. rewrite Hheap. now rewrite insert_insert_eq. }
    exists w'. split; [|exact Hheap'].
    change (FreeHandTool.run (map MouseMove (e :: moves)) this w)
      with (bind (FreeHandTool.onMouseMove e this)
                 (FreeHandTool.run (map MouseMove moves)) w).
    unfold bind. rewrite Hmove, Hrun. cbn [map]. unfold strokeEnd.
    now rewrite last_cons.
Qed.

(** X11: a whole stroke of the free-hand tool, "down, move*, up" from the
    Idle state, on a well-formed readable drawing canvas and with a
    [Line.draw] that keeps the shape of its buffer, succeeds, leaves the
    tool Idle, and changes nothing but the drawing canvas, which receives
    the polyline through the floored positions of the events, each segment
    drawn on the result of the one before. *)
Theorem freehand_stroke_is_a_polyline :
  forall (down up : MouseEvent.t) (moves : list MouseEvent.t)
         (this : FreeHandTool.t) (w : World) (wc dc : Canvas.t) (img : ImageData.t),
    Line_keeps_shape ->
    FreeHandTool.lastPosition this = None ->
    heap w !! ImageWorkspace.workingCanvas (FreeHandTool.workspace this) = Some wc ->
    heap w !! ImageWorkspace.drawingCanvas (FreeHandTool.workspace this) = Some dc ->
    wellFormed dc ->
    Canvas.getImageData dc = Some img ->
    exists w' : World,
      FreeHandTool.run (MouseDown down :: map MouseMove moves ++ [MouseUp up]) this w
      = Some (this, w')
      /\ heap w'
         = <[ImageWorkspace.drawingCanvas (FreeHandTool.workspace this) :=
               Canvas.setImageData
                 (polyline img (positionOn wc down)
                           (map (positionOn wc) moves ++ [positionOn wc up])) dc]>
             (heap w).
Proof.
  intros down up moves this w wc dc img Hshape Hl Hwc Hdc Hwf Hg.
  destruct (getImageData_wellFormed _ _ Hwf Hg) as (_ & Hw & Hh).
  destruct (setImageData_of_getImageData _ _ Hwf Hg) as (Hfits & Hid).
  set (this0 := FreeHandTool.set_lastPosition (Some (positionOn wc down)) this).
  assert (Hdown : FreeHandTool.onMouseDown down this w = Some (this0, w)).
  { unfold FreeHandTool.onMouseDown, bind. rewrite Hl.
    now rewrite (getMouseEventCoordinates_on_ref _ _ _ _ Hwc). }
  destruct (FreeHandTool_moves_run (moves ++ [up]) this0 w (heap w) wc dc img
              (positionOn wc down)) as (w' & Hrun & Hheap); auto.
  { rewrite Hid. now rewrite insert_id. }
  exists w'. rewrite map_app in Hrun, Hheap. simpl in Hrun, Hheap.
  split; [|exact Hheap].
  change (FreeHandTool.run (MouseDown down :: map MouseMove moves ++ [MouseUp up]) this w)
    with (bind (FreeHandTool.onMouseDown down this)
               (FreeHandTool.run (map MouseMove moves ++ [MouseUp up])) w).
  unfold bind at 1. rewrite Hdown.
  rewrite FreeHandTool_run_app in Hrun |- *. unfold bind at 1 in Hrun. unfold bind at 1.
  destruct (FreeHandTool.run (map MouseMove moves) this0 w) as [[this1 w1]|];
    [|discriminate].
  simpl in Hrun |- *. unfold FreeHandTool.onMouseUp. unfold bind in Hrun |- *.
  destruct (FreeHandTool.onMouseMove up this1 w1) as [[this2 w2]|]; [|discriminate].
  unfold ret in Hrun |- *. injection Hrun as -> ->. simpl.
  destruct this as [ps lp ws]. simpl in Hl. subst lp. reflexivity.
Qed.
(** *** What the tools never touch *)

Lemma FreeHandTool_dispatch_frame pe this w this' w' :
  FreeHandTool.dispatch pe this w = Some (this', w') ->
  FreeHandTool.workspace this' = FreeHandTool.workspace this
  /\ FreeHandTool.parameters this' = FreeHandTool.parameters this
  /\ forall c : ref,
       c <> ImageWorkspace.drawingCanvas (FreeHandTool.workspace this) ->
       heap w' !! c = heap w !! c /\ writes c (calls w') = writes c (calls w).
Proof.
  assert (Hmove : forall e this w this' w',
             FreeHandTool.onMouseMove e this w = Some (this', w') ->
             FreeHandTool.workspace this' = FreeHandTool.workspace this
             /\ FreeHandTool.parameters this' = FreeHandTool.parameters this
             /\ forall c : ref,
                  c <> ImageWorkspace.drawingCanvas (FreeHandTool.workspace this) ->
                  heap w' !! c = heap w !! c /\ writes c (calls w') = writes c (calls w)).
  { clear. intros e this w this' w' Hstep.
    apply FreeHandTool_onMouseMove_inv in Hstep
      as [(_ & -> & ->) | (last & wc & v & _ & _ & -> & Hheap & Hcalls)]; [auto|].
    split; [reflexivity|]. split; [reflexivity|]. intros c Hc.
    rewrite Hheap, Hcalls, !writes_cons, lookup_insert_ne by auto. simpl.
    apply not_eq_sym, Nat.eqb_neq in Hc. now rewrite Hc. }
  intros Hstep. destruct pe as [e|e|e]; simpl in Hstep.
  - apply FreeHandTool_onMouseDown_inv in Hstep
      as (-> & [(_ & ->) | (wc & _ & _ & ->)]); auto.
  - now apply Hmove in Hstep.
  - apply FreeHandTool_onMouseUp_inv in Hstep as (this1 & Hstep & ->).
    now apply Hmove in Hstep.
Qed.

(** X12: whatever the events it receives, the free-hand tool keeps its
    workspace and its parameters, and every canvas but the drawing one is
    left as it is and receives no write: in particular the tool never
    draws on, nor clears, the working (preview) canvas. *)
Theorem freehand_only_touches_drawing_canvas :
  forall (es : list PointerEvent) (this this' : FreeHandTool.t) (w w' : World),
    FreeHandTool.run es this w = Some (this', w') ->
    FreeHandTool.workspace this' = FreeHandTool.workspace this
    /\ FreeHandTool.parameters this' = FreeHandTool.parameters this
    /\ forall c : ref,
         c <> ImageWorkspace.drawingCanvas (FreeHandTool.workspace this) ->
         heap w' !! c = heap w !! c /\ writes c (calls w') = writes c (calls w).
Proof.
  induction es as [|pe es IH]; intros this this' w w' Hrun; simpl in Hrun.
  - apply ret_inv in Hrun as (-> & ->). auto.
  - apply bind_inv in Hrun as (this1 & w1 & Hstep & Hrest).
    apply FreeHandTool_dispatch_frame in Hstep as (Hws & Hps & Hframe).
    apply IH in Hrest as (Hws' & Hps' & Hframe').
    split; [congruence|]. split; [congruence|]. intros c Hc.
    destruct (Hframe c Hc) as (Hh & Hw).
    destruct (Hframe' c) as (Hh' & Hw'); [now rewrite Hws|].
    split; congruence.
Qed.

Lemma EllipseTool_dispatch_frame pe this w this' w' :
  EllipseTool.dispatch pe this w = Some (this', w') ->
  forall c : ref,
    c <> EllipseTool.workingCanvas this -> c <> EllipseTool.drawingCanvas this ->
    heap w' !! c = heap w !! c /\ writes c (calls w') = writes c (calls w).
Proof.
  intros Hstep c Hc1 Hc2.
  apply not_eq_sym, Nat.eqb_neq in Hc1 as Hb1.
  apply not_eq_sym, Nat.eqb_neq in Hc2 as Hb2.
  destruct pe as [e|e|e]; simpl in Hstep.
  - apply EllipseTool_onMouseDown_inv in Hstep as (-> & _). auto.
  - apply EllipseTool_onMouseMove_inv in Hstep
      as [(_ & _ & ->) | (anchor & q & v1 & v2 & _ & _ & Hheap & Hcalls)]; [auto|].
    rewrite Hheap, Hcalls, !writes_cons, !lookup_insert_ne by auto. simpl.
    now rewrite Hb1.
  - apply EllipseTool_onMouseUp_inv in Hstep
      as [(_ & _ & ->) | (anchor & v1 & v2 & v3 & _ & _ & _ & Hheap & Hcalls)]; [auto|].
    rewrite Hheap, Hcalls, !writes_cons, !lookup_insert_ne by auto. simpl.
    now rewrite Hb1, Hb2.
Qed.

(** X13: whatever the events it receives, the ellipse tool keeps its two
    canvas fields, and every canvas other than its working and drawing
    canvases is left as it is and receives no write. *)
Theorem ellipse_only_touches_its_two_canvases :
  forall (es : list PointerEvent) (this this' : EllipseTool.t) (w w' : World),
    EllipseTool.run es this w = Some (this', w') ->
    EllipseTool.workingCanvas this' = EllipseTool.workingCanvas this
    /\ EllipseTool.drawingCanvas this' = EllipseTool.drawingCanvas this
    /\ forall c : ref,
         c <> EllipseTool.workingCanvas this -> c <> EllipseTool.drawingCanvas this ->
         heap w' !! c = heap w !! c /\ writes c (calls w') = writes c (calls w).
Proof.
  induction es as [|pe es IH]; intros this this' w w' Hrun; simpl in Hrun.
  - apply ret_inv in Hrun as (-> & ->). auto.
  - apply bind_inv in Hrun as (this1 & w1 & Hstep & Hrest).
    destruct (EllipseTool_dispatch_canvases _ _ _ _ _ Hstep) as (Hwk & Hdr).
    pose proof (EllipseTool_dispatch_frame _ _ _ _ _ Hstep) as Hframe.
    apply IH in Hrest as (Hwk' & Hdr' & Hframe').
    split; [congruence|]. split; [congruence|]. intros c Hc1 Hc2.
    destruct (Hframe c Hc1 Hc2) as (Hh & Hw).
    destruct (Hframe' c) as (Hh' & Hw'); [now rewrite Hwk|now rewrite Hdr|].
    split; congruence.
Qed.

(** *** The free-hand tool and repeated pointer-downs *)

(** X15: while a gesture of the free-hand tool is in progress, pointer-downs
    are ignored, in any number: the run goes on as if they had not been
    received. *)
Theorem freehand_ignores_downs_while_dragging :
  forall (downs : list MouseEvent.t) (es : list PointerEvent)
         (this : FreeHandTool.t) (w : World),
    FreeHandTool.lastPosition this <> None ->
    FreeHandTool.run (map MouseDown downs ++ es) this w = FreeHandTool.run es this w.
Proof.
  induction downs as [|e downs IH]; intros es this w Hl; [reflexivity|].
  cbn [map app].
  change (FreeHandTool.run (MouseDown e :: map MouseDown downs ++ es) this w)
    with (bind (FreeHandTool.onMouseDown e this)
               (FreeHandTool.run (map MouseDown downs ++ es)) w).
  unfold bind. rewrite (FreeHandTool_onMouseDown_dragging_noop e this w Hl).
  now apply IH.
Qed.

(** *** The colour effect applied twice *)

(** X14: with a selected layer whose canvas is well-formed and readable, an
    [inverseColors] that keeps the shape of its buffer, and a transformed
    image whose pixels are all opaque or transparent black (so that the
    canvas gives it back as it was written), applying the effect twice
    succeeds, changes only the canvas of the selected layer, and leaves on
    it the image transformed twice; so if the transform is its own inverse
    on that image, the second application restores every canvas. *)
Theorem inverse_color_effect_twice :
  forall (this : InverseColorEffect.t) (w : World)
         (layer : Layer.t) (v : Canvas.t) (img : ImageData.t),
    inverseColors_keeps_shape ->
    DrawingLayers.selectedLayer
      (ImageWorkspace.drawingLayers (InverseColorEffect.workspace this)) = Some layer ->
    heap w !! Layer.canvas layer = Some v ->
    wellFormed v ->
    Canvas.getImageData v = Some img ->
    storedExactly (ImageData.data (ColorEffects_inverseColors img)) ->
    exists w1 w2 : World,
      InverseColorEffect.apply this w = Some (tt, w1)
      /\ InverseColorEffect.apply this w1 = Some (tt, w2)
      /\ heap w1
         = <[Layer.canvas layer :=
               withBitmap v (ImageData.data (ColorEffects_inverseColors img))]> (heap w)
      /\ heap w2
         = <[Layer.canvas layer :=
               withBitmap v (ImageData.data
                               (ColorEffects_inverseColors
                                  (ColorEffects_inverseColors img)))]> (heap w)
      /\ (ColorEffects_inverseColors (ColorEffects_inverseColors img) = img ->
          heap w2 = heap w).
Proof.
  intros this w layer v img Hshape Hsel Hv Hwf Hg _.
  destruct (getImageData_wellFormed _ _ Hwf Hg) as (_ & Hw & Hh).
  destruct (setImageData_of_getImageData _ _ Hwf Hg) as (Hfits & Hid).
  assert (Hkeep : forall d, fits d v -> fits (ColorEffects_inverseColors d) v).
  { intros d (Dw & Dh & Dlen). destruct (Hshape d) as (Sw & Sh & Slen).
    repeat split; congruence. }
  pose proof (Hkeep _ Hfits) as Hfits1. pose proof (Hkeep _ Hfits1) as Hfits2.
  assert (H1 : InverseColorEffect.apply this w
               = Some (tt, mkWorld
                             (<[Layer.canvas layer :=
                                  Canvas.setImageData (ColorEffects_inverseColors img) v]>
                                (heap w))
                             (PutImageData (Layer.canvas layer)
                                :: GetImageData (Layer.canvas layer) :: calls w))).
  { unfold InverseColorEffect.apply. rewrite Hsel. unfold bind.
    rewrite (getImageData_on_ref _ _ _ _ Hv Hg).
    now rewrite (setImageData_on_ref _ _ _ v). }
  eexists _, _. split; [exact H1|].
  assert (Hheap :
    <[Layer.canvas layer :=
        Canvas.setImageData (ColorEffects_inverseColors (ColorEffects_inverseColors img))
                            (Canvas.setImageData (ColorEffects_inverseColors img) v)]>
      (<[Layer.canvas layer := Canvas.setImageData (ColorEffects_inverseColors img) v]>
         (heap w))
    = <[Layer.canvas layer :=
          Canvas.setImageData
            (ColorEffects_inverseColors (ColorEffects_inverseColors img)) v]> (heap w)).
  { rewrite insert_insert_eq.
    now rewrite (setImageData_setImageData _ _ _ Hwf Hfits1 Hfits2). }
  split; [|split; [|split]].
  - unfold InverseColorEffect.apply. rewrite Hsel. unfold bind.
    erewrite getImageData_on_ref;
      [|apply lookup_insert_eq|apply (getImageData_setImageData _ _ Hwf Hfits1 Hw Hh)].
    erewrite setImageData_on_ref; [reflexivity|apply lookup_insert_eq].
  - simpl. now rewrite (setImageData_fits _ _ Hwf Hfits1).
  - simpl. rewrite Hheap. now rewrite (setImageData_fits _ _ Hwf Hfits2).
  - intros Hinv. simpl. rewrite Hheap, Hinv, Hid. now apply insert_id.
Qed.
End ToolRuns.

(** ** The handlers never throw *)

Lemma readable_insert c k v v' (h : gmap ref Canvas.t) :
  h !! k = Some v ->
  Canvas.width v' = Canvas.width v -> Canvas.height v' = Canvas.height v ->
  readable c h -> readable c (<[k := v']> h).
Proof.
  intros Hk Hw Hh (u & Hu & Uw & Uh). destruct (decide (c = k)) as [->|Hne].
  - exists v'. rewrite lookup_insert_eq. rewrite Hk in Hu. injection Hu as <-.
    repeat split; congruence.
  - exists u. now rewrite lookup_insert_ne.
Qed.

Lemma getImageData_readable c w :
  readable c (heap w) ->
  exists img, Canvas_getImageData c w
              = Some (img, mkWorld (heap w) (GetImageData c :: calls w)).
Proof.
  intros (v & Hv & Hw & Hh). unfold Canvas_getImageData. rewrite Hv.
  unfold Canvas.getImageData, HTMLCanvasElement.getImageData.
  apply Nat.eqb_neq in Hw, Hh. rewrite Hw, Hh. simpl. eauto.
Qed.

Lemma setImageData_readable c d w :
  readable c (heap w) ->
  exists w', Canvas_setImageData c d w = Some (tt, w')
             /\ forall c', readable c' (heap w) -> readable c' (heap w').
Proof.
  intros (v & Hv & Hw & Hh). unfold Canvas_setImageData. rewrite Hv.
  eexists. split; [reflexivity|]. intros c' Hc'. simpl.
  now apply (readable_insert c' c v).
Qed.

Lemma clear_readable c w :
  readable c (heap w) ->
  exists w', Canvas_clear c w = Some (tt, w')
             /\ forall c', readable c' (heap w) -> readable c' (heap w').
Proof.
  intros (v & Hv & Hw & Hh). unfold Canvas_clear. rewrite Hv.
  eexists. split; [reflexivity|]. intros c' Hc'. simpl.
  now apply (readable_insert c' c v).
Qed.

Lemma getMouseEventCoordinates_readable c event w :
  readable c (heap w) ->
  exists p, Canvas_getMouseEventCoordinates c event w = Some (p, w).
Proof.
  intros (v & Hv & _). rewrite (getMouseEventCoordinates_on_ref _ _ _ _ Hv). eauto.
Qed.

Section NoThrow.
Context `{DrawingPrimitives}.

Lemma EllipseTool_apply_readable image this w p q :
  EllipseTool.firstPoint this = Some p -> EllipseTool.secondPoint this = Some q ->
  readable image (heap w) ->
  exists w', EllipseTool.apply image this w = Some (tt, w')
             /\ forall c', readable c' (heap w) -> readable c' (heap w').
Proof.
  intros Hp Hq Hr. unfold EllipseTool.apply, bind.
  destruct (getImageData_readable image w Hr) as (img & ->). rewrite Hp, Hq. simpl.
  destruct (setImageData_readable image (Ellipse_drawFromBoundingRect p q img)
              (mkWorld (heap w) (GetImageData image :: calls w)) Hr) as (w' & -> & Hk).
  eauto.
Qed.

Lemma EllipseTool_dispatch_readable pe this w :
  readable (EllipseTool.workingCanvas this) (heap w) ->
  readable (EllipseTool.drawingCanvas this) (heap w) ->
  exists this' w',
    EllipseTool.dispatch pe this w = Some (this', w')
    /\ EllipseTool.workingCanvas this' = EllipseTool.workingCanvas this
    /\ EllipseTool.drawingCanvas this' = EllipseTool.drawingCanvas this
    /\ forall c', readable c' (heap w) -> readable c' (heap w').
Proof.
  intros Hwk Hdr. destruct pe as [e|e|e]; simpl.
  - unfold EllipseTool.onMouseDown, bind.
    destruct (getMouseEventCoordinates_readable _ e w Hwk) as (p & ->).
    eexists _, _. split; [reflexivity|]. auto.
  - unfold EllipseTool.onMouseMove.
    destruct (EllipseTool.firstPoint this) as [a|] eqn:Ha;
      [|eexists _, _; split; [reflexivity|]; auto].
    unfold bind.
    destruct (getMouseEventCoordinates_readable _ e w Hwk) as (p & ->).
    cbv beta zeta. cbn [EllipseTool.workingCanvas EllipseTool.set_secondPoint].
    destruct (clear_readable _ w Hwk) as (w1 & -> & K1).
    match goal with |- context [EllipseTool.apply ?i ?t ?ww] =>
      destruct (EllipseTool_apply_readable i t ww a (Point.floor p))
        as (w2 & -> & K2); [exact Ha|reflexivity|exact (K1 _ Hwk)|]
    end.
    eexists _, _. split; [reflexivity|]. auto.
  - unfold EllipseTool.onMouseUp.
    destruct (EllipseTool.firstPoint this) as [a|] eqn:Ha;
      [|eexists _, _; split; [reflexivity|]; auto].
    unfold bind.
    destruct (getMouseEventCoordinates_readable _ e w Hwk) as (p & ->).
    cbv beta zeta.
    cbn [EllipseTool.workingCanvas EllipseTool.drawingCanvas EllipseTool.set_secondPoint].
    match goal with |- context [EllipseTool.apply ?i ?t ?ww] =>
      destruct (EllipseTool_apply_readable i t ww a (Point.floor p))
        as (w1 & -> & K1); [exact Ha|reflexivity|exact Hdr|]
    end.
    destruct (clear_readable _ w1 (K1 _ Hwk)) as (w2 & -> & K2).
    eexists _, _. split; [reflexivity|]. auto.
Qed.

Lemma FreeHandTool_dispatch_readable pe this w :
  readable (ImageWorkspace.workingCanvas (FreeHandTool.workspace this)) (heap w) ->
  readable (ImageWorkspace.drawingCanvas (FreeHandTool.workspace this)) (heap w) ->
  exists this' w',
    FreeHandTool.dispatch pe this w = Some (this', w')
    /\ FreeHandTool.workspace this' = FreeHandTool.workspace this
    /\ forall c', readable c' (heap w) -> readable c' (heap w').
Proof.
  intros Hwk Hdr.
  assert (Hmove : forall e, exists this' w',
             FreeHandTool.onMouseMove e this w = Some (this', w')
             /\ FreeHandTool.workspace this' = FreeHandTool.workspace this
             /\ forall c', readable c' (heap w) -> readable c' (heap w')).
  { intros e. unfold FreeHandTool.onMouseMove.
    destruct (FreeHandTool.lastPosition this) as [last|] eqn:Hl;
      [|eexists _, _; split; [reflexivity|]; auto].
    unfold bind.
    destruct (getMouseEventCoordinates_readable _ e w Hwk) as (p & ->).
    unfold FreeHandTool.drawLine, bind.
    destruct (getImageData_readable _ w Hdr) as (img & ->). rewrite Hl. simpl.
    destruct (setImageData_readable
                (ImageWorkspace.drawingCanvas (FreeHandTool.workspace this))
                (Line_draw img last (Point.floor p) Line_paintItBlack)
                (mkWorld (heap w)
                   (GetImageData (ImageWorkspace.drawingCanvas (FreeHandTool.workspace this))
                      :: calls w)) Hdr) as (w1 & -> & K1).
    eexists _, _. split; [reflexivity|]. auto. }
  destruct pe as [e|e|e]; simpl.
  - unfold FreeHandTool.onMouseDown.
    destruct (FreeHandTool.lastPosition this) as [last|];
      [eexists _, _; split; [reflexivity|]; auto|].
    unfold bind. destruct (getMouseEventCoordinates_readable _ e w Hwk) as (p & ->).
    eexists _, _. split; [reflexivity|]. auto.
  - apply Hmove.
  - unfold FreeHandTool.onMouseUp, bind.
    destruct (Hmove e) as (this1 & w1 & -> & Hws & K).
    eexists _, _. split; [reflexivity|]. auto.
Qed.

(** X16: the handlers of the tools never throw: when the working and the
    drawing canvas of a tool are canvases of non-zero size (be they one and
    the same canvas or not), every sequence of pointer events, in any order,
    is handled to the end by the ellipse tool and by the free-hand tool,
    whatever their state and whatever the primitives draw. *)
Theorem tools_handle_every_event_sequence :
  forall (es : list PointerEvent) (ellipse : EllipseTool.t) (freehand : FreeHandTool.t)
         (w wf : World),
    readable (EllipseTool.workingCanvas ellipse) (heap w) ->
    readable (EllipseTool.drawingCanvas ellipse) (heap w) ->
    readable (ImageWorkspace.workingCanvas (FreeHandTool.workspace freehand)) (heap wf) ->
    readable (ImageWorkspace.drawingCanvas (FreeHandTool.workspace freehand)) (heap wf) ->
    (exists ellipse' w', EllipseTool.run es ellipse w = Some (ellipse', w'))
    /\ (exists freehand' wf', FreeHandTool.run es freehand wf = Some (freehand', wf')).
Proof.
  intros es ellipse freehand w wf He1 He2 Hf1 Hf2. split.
  - clear Hf1 Hf2 freehand wf. revert ellipse w He1 He2.
    induction es as [|pe es IH]; intros this w0 H1 H2; simpl.
    + eexists _, _. reflexivity.
    + destruct (EllipseTool_dispatch_readable pe this w0 H1 H2)
        as (this1 & w1 & Hstep & Hwk & Hdr & K).
      unfold bind. rewrite Hstep. apply IH; [rewrite Hwk|rewrite Hdr]; auto.
  - clear He1 He2 ellipse w. revert freehand wf Hf1 Hf2.
    induction es as [|pe es IH]; intros this w0 H1 H2; simpl.
    + eexists _, _. reflexivity.
    + destruct (FreeHandTool_dispatch_readable pe this w0 H1 H2)
        as (this1 & w1 & Hstep & Hws & K).
      unfold bind. rewrite Hstep. apply IH; rewrite Hws; auto.
Qed.
End NoThrow.

(** ** The reference primitives keep the shape of their buffer *)

Lemma setPixel_keeps_shape x y c img :
  ImageData.width (setPixel x y c img) = ImageData.width img
  /\ ImageData.height (setPixel x y c img) = ImageData.height img
  /\ length (ImageData.data (setPixel x y c img)) = length (ImageData.data img).
Proof.
  unfold setPixel. destruct c as [[[r g] b] a].
  destruct ((0 <=? x)%Z && (x <? Z.of_nat (ImageData.width img))%Z
            && (0 <=? y)%Z && (y <? Z.of_nat (ImageData.height img))%Z); simpl; auto.
  now rewrite !length_insert.
Qed.

Lemma walk_keeps_shape fuel : forall x0 y0 x1 y1 dx dy sx sy err cb img,
  ImageData.width (Line.walk fuel x0 y0 x1 y1 dx dy sx sy err cb img) = ImageData.width img
  /\ ImageData.height (Line.walk fuel x0 y0 x1 y1 dx dy sx sy err cb img)
     = ImageData.height img
  /\ length (ImageData.data (Line.walk fuel x0 y0 x1 y1 dx dy sx sy err cb img))
     = length (ImageData.data img).
Proof.
  induction fuel as [|fuel IH]; intros x0 y0 x1 y1 dx dy sx sy err cb img; simpl.
  - apply setPixel_keeps_shape.
  - destruct ((x0 =? x1)%Z && (y0 =? y1)%Z); [apply setPixel_keeps_shape|].
    match goal with |- context [Line.walk fuel ?a ?b ?c ?d ?e ?f ?g ?h ?i ?j ?k] =>
      destruct (IH a b c d e f g h i j k) as (Hw & Hh & Hl)
    end.
    destruct (setPixel_keeps_shape x0 y0 (cb x0 y0) img) as (Pw & Ph & Pl).
    repeat split; congruence.
Qed.

Lemma reference_Line_keeps_shape : @Line_keeps_shape reference_primitives.
Proof. intros img p q cb. apply walk_keeps_shape. Qed.

Lemma reference_inverseColors_keeps_shape :
  @inverseColors_keeps_shape reference_primitives.
Proof.
  intros img. repeat split. simpl. apply inverse_length.
Qed.

Lemma blankCanvas_wellFormed w h : wellFormed (blankCanvas w h).
Proof. repeat split. simpl. now rewrite repeat_length. Qed.

(** ** Instances of the statements above *)

(** A 1 x 2 canvas holding two coloured pixels is read and written back. *)
Lemma Canvas_get_then_set_is_identity_witness :
  wellFormed (Canvas.new (HTMLCanvasElement.new 1 2 [10; 20; 30; 40; 50; 60; 70; 80]%Z)
                         1 2 (ClientRect.new (ZQ 0) (ZQ 0) (ZQ 1) (ZQ 2)))
  /\ Canvas.getImageData
       (Canvas.new (HTMLCanvasElement.new 1 2 [10; 20; 30; 40; 50; 60; 70; 80]%Z)
                   1 2 (ClientRect.new (ZQ 0) (ZQ 0) (ZQ 1) (ZQ 2)))
     = Some (ImageData.new 1 2 [10; 20; 30; 40; 50; 60; 70; 80]%Z)
  /\ Canvas.setImageData (ImageData.new 1 2 [10; 20; 30; 40; 50; 60; 70; 80]%Z)
       (Canvas.new (HTMLCanvasElement.new 1 2 [10; 20; 30; 40; 50; 60; 70; 80]%Z)
                   1 2 (ClientRect.new (ZQ 0) (ZQ 0) (ZQ 1) (ZQ 2)))
     = Canvas.new (HTMLCanvasElement.new 1 2 [10; 20; 30; 40; 50; 60; 70; 80]%Z)
                  1 2 (ClientRect.new (ZQ 0) (ZQ 0) (ZQ 1) (ZQ 2)).
Proof.
  assert (Hwf : wellFormed
                  (Canvas.new
                     (HTMLCanvasElement.new 1 2 [10; 20; 30; 40; 50; 60; 70; 80]%Z)
                     1 2 (ClientRect.new (ZQ 0) (ZQ 0) (ZQ 1) (ZQ 2))))
    by (repeat split).
  split; [exact Hwf|]. split; [reflexivity|].
  apply (Canvas_get_then_set_is_identity _ _ Hwf eq_refl).
Defined.

(** Two images of opaque pixels are written in turn on a blank 1 x 2
    canvas. *)
Lemma Canvas_set_then_get_witness :
  wellFormed (blankCanvas 1 2)
  /\ fits (ImageData.new 1 2 [10; 20; 30; 255; 50; 60; 70; 255]%Z) (blankCanvas 1 2)
  /\ fits (ImageData.new 1 2 [1; 2; 3; 255; 0; 0; 0; 0]%Z) (blankCanvas 1 2)
  /\ Canvas.width (blankCanvas 1 2) <> 0
  /\ Canvas.height (blankCanvas 1 2) <> 0
  /\ storedExactly [10; 20; 30; 255; 50; 60; 70; 255]%Z
  /\ Canvas.getImageData
       (Canvas.setImageData (ImageData.new 1 2 [10; 20; 30; 255; 50; 60; 70; 255]%Z)
                            (blankCanvas 1 2))
     = Some (ImageData.new 1 2 [10; 20; 30; 255; 50; 60; 70; 255]%Z)
  /\ Canvas.setImageData (ImageData.new 1 2 [1; 2; 3; 255; 0; 0; 0; 0]%Z)
       (Canvas.setImageData (ImageData.new 1 2 [10; 20; 30; 255; 50; 60; 70; 255]%Z)
                            (blankCanvas 1 2))
     = Canvas.setImageData (ImageData.new 1 2 [1; 2; 3; 255; 0; 0; 0; 0]%Z)
                           (blankCanvas 1 2).
Proof.
  assert (Hwf : wellFormed (blankCanvas 1 2)) by apply blankCanvas_wellFormed.
  assert (H1 : fits (ImageData.new 1 2 [10; 20; 30; 255; 50; 60; 70; 255]%Z)
                    (blankCanvas 1 2)) by (repeat split).
  assert (H2 : fits (ImageData.new 1 2 [1; 2; 3; 255; 0; 0; 0; 0]%Z) (blankCanvas 1 2))
    by (repeat split).
  assert (Hw : Canvas.width (blankCanvas 1 2) <> 0) by discriminate.
  assert (Hh : Canvas.height (blankCanvas 1 2) <> 0) by discriminate.
  assert (Hx : storedExactly [10; 20; 30; 255; 50; 60; 70; 255]%Z) by reflexivity.
  destruct (Canvas_set_then_get _ _ _ Hwf H1 H2 Hw Hh Hx) as (Hget & _ & _ & Hset).
  repeat split; assumption.
Defined.

(** A canvas on which an image was written is cleared. *)
Lemma Canvas_clear_erases_witness :
  wellFormed (blankCanvas 1 2)
  /\ fits (ImageData.new 1 2 [10; 20; 30; 40; 50; 60; 70; 80]%Z) (blankCanvas 1 2)
  /\ Canvas.clear
       (Canvas.setImageData (ImageData.new 1 2 [10; 20; 30; 40; 50; 60; 70; 80]%Z)
                            (blankCanvas 1 2))
     = Canvas.clear (blankCanvas 1 2)
  /\ HTMLCanvasElement.bitmap (Canvas.canvas (Canvas.clear (blankCanvas 1 2)))
     = repeat 0%Z 8.
Proof.
  assert (Hwf : wellFormed (blankCanvas 1 2)) by apply blankCanvas_wellFormed.
  assert (H1 : fits (ImageData.new 1 2 [10; 20; 30; 40; 50; 60; 70; 80]%Z)
                    (blankCanvas 1 2)) by (repeat split).
  destruct (Canvas_clear_erases _ _ Hwf H1) as (Hzero & _ & Hclear & _).
  repeat split; assumption.
Defined.

(** A canvas holding two opaque pixels is "drawn" on a blank one, the
    pixels of the image replacing those under them. *)
Lemma Canvas_drawCanvas_draws_nothing_witness :
  wellFormed (blankCanvas 1 2)
  /\ CanvasImage.drawCanvas (fun src _ => src)
       (Canvas.new (HTMLCanvasElement.new 1 2 [0; 0; 0; 255; 0; 0; 0; 255]%Z)
                   1 2 (ClientRect.new (ZQ 0) (ZQ 0) (ZQ 1) (ZQ 2)))
       (blankCanvas 1 2)
     = blankCanvas 1 2.
Proof.
  assert (Hwf : wellFormed (blankCanvas 1 2)) by apply blankCanvas_wellFormed.
  split; [exact Hwf|]. apply (Canvas_drawCanvas_draws_nothing _ _ _ Hwf).
Defined.

(** An event at client position (5/2, 7/2) on a 4 x 4 canvas displayed at its
    own size at the origin. *)
Lemma position_of_unscaled_canvas_witness :
  HTMLCanvasElement.width (Canvas.canvas (blankCanvas 4 4)) <> 0
  /\ HTMLCanvasElement.height (Canvas.canvas (blankCanvas 4 4)) <> 0
  /\ positionOn (blankCanvas 4 4) (MouseEvent.new (5 # 2) (7 # 2)) = pointAt 2 3.
Proof.
  assert (Hw : HTMLCanvasElement.width (Canvas.canvas (blankCanvas 4 4)) <> 0)
    by discriminate.
  assert (Hh : HTMLCanvasElement.height (Canvas.canvas (blankCanvas 4 4)) <> 0)
    by discriminate.
  split; [exact Hw|]. split; [exact Hh|].
  exact (position_of_unscaled_canvas (MouseEvent.new (5 # 2) (7 # 2)) (blankCanvas 4 4)
           Hw Hh eq_refl eq_refl).
Defined.

(** Each tool has received a pointer-down at a fractional position, on
    4 x 4 canvases. *)
Lemma tools_keep_integral_points_witness :
  nodesNotEmpty (heap (blankWorld 4 4))
  /\ @EllipseTool.run reference_primitives [MouseDown (MouseEvent.new (5 # 2) (7 # 2))]
       (EllipseTool.constructor 1 2) (blankWorld 4 4)
     = Some (EllipseTool.mk (Some (Point.new (inject_Z 2) (inject_Z 3))) None 1 2,
             blankWorld 4 4)
  /\ @FreeHandTool.run reference_primitives [MouseDown (MouseEvent.new (5 # 2) (7 # 2))]
       (FreeHandTool.constructor (workspaceOf None)) (blankWorld 4 4)
     = Some (FreeHandTool.mk FreeHandParameters.new
                             (Some (Point.new (inject_Z 2) (inject_Z 3)))
                             (workspaceOf None),
             blankWorld 4 4)
  /\ integralOrNull (Some (Point.new (inject_Z 2) (inject_Z 3)))
  /\ integralOrNull (@None Point.t).
Proof.
  assert (Hn : nodesNotEmpty (heap (blankWorld 4 4))).
  { intros c v Hv. simpl in Hv.
    destruct (decide (c = 1)) as [->|H1].
    - rewrite lookup_insert_eq in Hv. injection Hv as <-. split; discriminate.
    - rewrite lookup_insert_ne in Hv by auto.
      destruct (decide (c = 2)) as [->|H2].
      + rewrite lookup_insert_eq in Hv. injection Hv as <-. split; discriminate.
      + rewrite lookup_insert_ne in Hv by auto. rewrite lookup_empty in Hv.
        discriminate. }
  assert (He : @EllipseTool.run reference_primitives
                 [MouseDown (MouseEvent.new (5 # 2) (7 # 2))]
                 (EllipseTool.constructor 1 2) (blankWorld 4 4)
               = Some (EllipseTool.mk (Some (Point.new (inject_Z 2) (inject_Z 3)))
                                      None 1 2, blankWorld 4 4))
    by reflexivity.
  assert (Hf : @FreeHandTool.run reference_primitives
                 [MouseDown (MouseEvent.new (5 # 2) (7 # 2))]
                 (FreeHandTool.constructor (workspaceOf None)) (blankWorld 4 4)
               = Some (FreeHandTool.mk FreeHandParameters.new
                                       (Some (Point.new (inject_Z 2) (inject_Z 3)))
                                       (workspaceOf None), blankWorld 4 4))
    by reflexivity.
  destruct (@tools_keep_integral_points reference_primitives _ _ _ _ _ _ _ _ _ _ _
              Hn Hn He Hf) as (H1 & H2 & _).
  split; [exact Hn|]. split; [exact He|]. split; [exact Hf|].
  split; [exact H1|exact H2].
Defined.

(** Two fresh tools receive a move, an up and a move. *)
Lemma idle_tools_ignore_moves_and_ups_witness :
  forallb (fun pe => negb (is_down pe))
          [MouseMove (mouseAt 1 1); MouseUp (mouseAt 2 2); MouseMove (mouseAt 3 3)] = true
  /\ EllipseTool.firstPoint (EllipseTool.constructor 1 2) = None
  /\ FreeHandTool.lastPosition (FreeHandTool.constructor (workspaceOf None)) = None
  /\ @EllipseTool.run reference_primitives
       [MouseMove (mouseAt 1 1); MouseUp (mouseAt 2 2); MouseMove (mouseAt 3 3)]
       (EllipseTool.constructor 1 2) (blankWorld 4 4)
     = Some (EllipseTool.constructor 1 2, blankWorld 4 4)
  /\ @FreeHandTool.run reference_primitives
       [MouseMove (mouseAt 1 1); MouseUp (mouseAt 2 2); MouseMove (mouseAt 3 3)]
       (FreeHandTool.constructor (workspaceOf None)) (blankWorld 4 4)
     = Some (FreeHandTool.constructor (workspaceOf None), blankWorld 4 4).
Proof.
  split; [reflexivity|]. split; [reflexivity|]. split; [reflexivity|].
  apply (@idle_tools_ignore_moves_and_ups reference_primitives); reflexivity.
Defined.

(** A gesture with two moves on 4 x 4 canvases. *)
Lemma ellipse_gesture_commits_one_ellipse_witness :
  EllipseTool.workingCanvas (EllipseTool.constructor 1 2)
  <> EllipseTool.drawingCanvas (EllipseTool.constructor 1 2)
  /\ heap (blankWorld 4 4) !! 1 = Some (blankCanvas 4 4)
  /\ heap (blankWorld 4 4) !! 2 = Some (blankCanvas 4 4)
  /\ wellFormed (blankCanvas 4 4)
  /\ Canvas.getImageData (blankCanvas 4 4) = Some (blankImage 4 4)
  /\ exists w' : World,
       @EllipseTool.run reference_primitives
         (MouseDown (mouseAt 1 1)
            :: map MouseMove [mouseAt 2 2; mouseAt 3 1] ++ [MouseUp (mouseAt 3 3)])
         (EllipseTool.constructor 1 2) (blankWorld 4 4)
       = Some (EllipseTool.mk None None 1 2, w')
       /\ heap w'
          = <[1 := Canvas.clear (blankCanvas 4 4)]>
              (<[2 := Canvas.setImageData
                        (Ellipse.drawFromBoundingRect
                           (positionOn (blankCanvas 4 4) (mouseAt 1 1))
                           (positionOn (blankCanvas 4 4) (mouseAt 3 3))
                           (blankImage 4 4))
                        (blankCanvas 4 4)]> (heap (blankWorld 4 4)))
       /\ writes 2 (calls w') = 1 + writes 2 (calls (blankWorld 4 4)).
Proof.
  assert (Hne : EllipseTool.workingCanvas (EllipseTool.constructor 1 2)
                <> EllipseTool.drawingCanvas (EllipseTool.constructor 1 2))
    by discriminate.
  split; [exact Hne|]. split; [reflexivity|]. split; [reflexivity|].
  split; [apply blankCanvas_wellFormed|]. split; [reflexivity|].
  apply (@ellipse_gesture_commits_one_ellipse reference_primitives
           (mouseAt 1 1) (mouseAt 3 3) [mouseAt 2 2; mouseAt 3 1]
           (EllipseTool.constructor 1 2) (blankWorld 4 4)
           (blankCanvas 4 4) (blankCanvas 4 4) (blankImage 4 4) Hne);
    first [reflexivity | discriminate | apply blankCanvas_wellFormed].
Defined.

(** A move of the ellipse tool anchored at (1,1), on a working canvas that
    holds an image. *)
Lemma ellipse_preview_is_redrawn_from_blank_witness :
  EllipseTool.firstPoint (EllipseTool.mk (Some (pointAt 1 1)) None 1 2)
  = Some (pointAt 1 1)
  /\ heap (blankWorld 4 4) !! 1 = Some (blankCanvas 4 4)
  /\ wellFormed (blankCanvas 4 4)
  /\ exists w' : World,
       @EllipseTool.onMouseMove reference_primitives (mouseAt 2 2)
         (EllipseTool.mk (Some (pointAt 1 1)) None 1 2) (blankWorld 4 4)
       = Some (EllipseTool.mk (Some (pointAt 1 1)) (Some (pointAt 2 2)) 1 2, w')
       /\ heap w'
          = <[1 := Canvas.setImageData
                     (Ellipse.drawFromBoundingRect (pointAt 1 1) (pointAt 2 2)
                                                   (blankImage 4 4))
                     (blankLike (blankCanvas 4 4))]> (heap (blankWorld 4 4)).
Proof.
  split; [reflexivity|]. split; [reflexivity|].
  split; [apply blankCanvas_wellFormed|].
  apply (@ellipse_preview_is_redrawn_from_blank reference_primitives (mouseAt 2 2)
           (EllipseTool.mk (Some (pointAt 1 1)) None 1 2) (blankWorld 4 4)
           (pointAt 1 1) (blankCanvas 4 4));
    first [reflexivity | discriminate | apply blankCanvas_wellFormed].
Defined.

(** A stroke with one move on 4 x 1 canvases and the reference line. *)
Lemma freehand_stroke_is_a_polyline_witness :
  @Line_keeps_shape reference_primitives
  /\ FreeHandTool.lastPosition (FreeHandTool.constructor (workspaceOf None)) = None
  /\ heap (blankWorld 4 1) !! 1 = Some (blankCanvas 4 1)
  /\ heap (blankWorld 4 1) !! 2 = Some (blankCanvas 4 1)
  /\ wellFormed (blankCanvas 4 1)
  /\ Canvas.getImageData (blankCanvas 4 1) = Some (blankImage 4 1)
  /\ exists w' : World,
       @FreeHandTool.run reference_primitives
         (MouseDown (mouseAt 0 0) :: map MouseMove [mouseAt 1 0] ++ [MouseUp (mouseAt 3 0)])
         (FreeHandTool.constructor (workspaceOf None)) (blankWorld 4 1)
       = Some (FreeHandTool.constructor (workspaceOf None), w')
       /\ heap w'
          = <[2 := Canvas.setImageData
                     (@polyline reference_primitives (blankImage 4 1)
                        (positionOn (blankCanvas 4 1) (mouseAt 0 0))
                        (map (positionOn (blankCanvas 4 1)) [mouseAt 1 0]
                           ++ [positionOn (blankCanvas 4 1) (mouseAt 3 0)]))
                     (blankCanvas 4 1)]> (heap (blankWorld 4 1)).
Proof.
  split; [exact reference_Line_keeps_shape|]. split; [reflexivity|].
  split; [reflexivity|]. split; [reflexivity|].
  split; [apply blankCanvas_wellFormed|]. split; [reflexivity|].
  apply (@freehand_stroke_is_a_polyline reference_primitives
           (mouseAt 0 0) (mouseAt 3 0) [mouseAt 1 0]
           (FreeHandTool.constructor (workspaceOf None)) (blankWorld 4 1)
           (blankCanvas 4 1) (blankCanvas 4 1) (blankImage 4 1)
           reference_Line_keeps_shape);
    first [reflexivity | apply blankCanvas_wellFormed].
Defined.

(** The free-hand tool draws a segment; canvas 1 is as before. *)
Lemma freehand_only_touches_drawing_canvas_witness :
  @FreeHandTool.run reference_primitives
    [MouseDown (mouseAt 0 0); MouseMove (mouseAt 3 0)]
    (FreeHandTool.constructor (workspaceOf None)) (blankWorld 4 1)
  = Some (FreeHandTool.mk FreeHandParameters.new (Some (pointAt 3 0)) (workspaceOf None),
          mkWorld
            (<[2 := Canvas.setImageData
                      (Line.draw (blankImage 4 1) (pointAt 0 0) (pointAt 3 0)
                                 Line.paintItBlack)
                      (blankCanvas 4 1)]> (heap (blankWorld 4 1)))
            [PutImageData 2; GetImageData 2])
  /\ (<[2 := Canvas.setImageData
              (Line.draw (blankImage 4 1) (pointAt 0 0) (pointAt 3 0) Line.paintItBlack)
              (blankCanvas 4 1)]> (heap (blankWorld 4 1))) !! 1
     = heap (blankWorld 4 1) !! 1
  /\ writes 1 [PutImageData 2; GetImageData 2] = writes 1 [].
Proof.
  assert (Hrun :
    @FreeHandTool.run reference_primitives
      [MouseDown (mouseAt 0 0); MouseMove (mouseAt 3 0)]
      (FreeHandTool.constructor (workspaceOf None)) (blankWorld 4 1)
    = Some (FreeHandTool.mk FreeHandParameters.new (Some (pointAt 3 0)) (workspaceOf None),
            mkWorld
              (<[2 := Canvas.setImageData
                        (Line.draw (blankImage 4 1) (pointAt 0 0) (pointAt 3 0)
                                   Line.paintItBlack)
                        (blankCanvas 4 1)]> (heap (blankWorld 4 1)))
              [PutImageData 2; GetImageData 2]))
    by (vm_compute; reflexivity).
  split; [exact Hrun|].
  destruct (@freehand_only_touches_drawing_canvas reference_primitives _ _ _ _ _ Hrun)
    as (_ & _ & Hframe).
  apply (Hframe 1). discriminate.
Defined.

(** The ellipse tool previews a shape; a third canvas is as before. *)
Lemma ellipse_only_touches_its_two_canvases_witness :
  @EllipseTool.run reference_primitives
    [MouseDown (mouseAt 1 1); MouseMove (mouseAt 2 2)]
    (EllipseTool.constructor 1 2)
    (mkWorld (<[3 := blankCanvas 2 2]> (heap (blankWorld 4 4))) [])
  = Some (EllipseTool.mk (Some (pointAt 1 1)) (Some (pointAt 2 2)) 1 2,
          mkWorld
            (<[1 := Canvas.setImageData
                      (Ellipse.drawFromBoundingRect (pointAt 1 1) (pointAt 2 2)
                                                    (blankImage 4 4))
                      (blankCanvas 4 4)]>
               (<[3 := blankCanvas 2 2]> (heap (blankWorld 4 4))))
            [PutImageData 1; GetImageData 1; ClearRect 1])
  /\ (<[1 := Canvas.setImageData
              (Ellipse.drawFromBoundingRect (pointAt 1 1) (pointAt 2 2) (blankImage 4 4))
              (blankCanvas 4 4)]>
       (<[3 := blankCanvas 2 2]> (heap (blankWorld 4 4)))) !! 3
     = (<[3 := blankCanvas 2 2]> (heap (blankWorld 4 4))) !! 3
  /\ writes 3 [PutImageData 1; GetImageData 1; ClearRect 1] = writes 3 [].
Proof.
  assert (Hrun :
    @EllipseTool.run reference_primitives
      [MouseDown (mouseAt 1 1); MouseMove (mouseAt 2 2)]
      (EllipseTool.constructor 1 2)
      (mkWorld (<[3 := blankCanvas 2 2]> (heap (blankWorld 4 4))) [])
    = Some (EllipseTool.mk (Some (pointAt 1 1)) (Some (pointAt 2 2)) 1 2,
            mkWorld
              (<[1 := Canvas.setImageData
                        (Ellipse.drawFromBoundingRect (pointAt 1 1) (pointAt 2 2)
                                                      (blankImage 4 4))
                        (blankCanvas 4 4)]>
                 (<[3 := blankCanvas 2 2]> (heap (blankWorld 4 4))))
              [PutImageData 1; GetImageData 1; ClearRect 1]))
    by (vm_compute; reflexivity).
  split; [exact Hrun|].
  destruct (@ellipse_only_touches_its_two_canvases reference_primitives _ _ _ _ _ Hrun)
    as (_ & _ & Hframe).
  apply (Hframe 3); discriminate.
Defined.

(** The reference inversion applied twice to the layer of canvas 2, which
    holds two opaque pixels: they are inverted, then back. *)
Lemma inverse_color_effect_twice_witness :
  @inverseColors_keeps_shape reference_primitives
  /\ heap paintedWorld !! Layer.canvas (Layer.new 2) = Some paintedCanvas
  /\ wellFormed paintedCanvas
  /\ Canvas.getImageData paintedCanvas
     = Some (ImageData.new 1 2 [10; 20; 30; 255; 0; 255; 128; 255]%Z)
  /\ storedExactly
       (ImageData.data
          (ColorEffects.inverseColors
             (ImageData.new 1 2 [10; 20; 30; 255; 0; 255; 128; 255]%Z)))
  /\ exists w1 w2 : World,
       @InverseColorEffect.apply reference_primitives
         (InverseColorEffect.mk (workspaceOf (Some (Layer.new 2)))) paintedWorld
       = Some (tt, w1)
       /\ @InverseColorEffect.apply reference_primitives
            (InverseColorEffect.mk (workspaceOf (Some (Layer.new 2)))) w1
          = Some (tt, w2)
       /\ heap w1
          = <[2 := withBitmap paintedCanvas [245; 235; 225; 255; 255; 0; 127; 255]%Z]>
              (heap paintedWorld)
       /\ heap w2 = heap paintedWorld.
Proof.
  assert (Hwf : wellFormed paintedCanvas) by (repeat split).
  split; [exact reference_inverseColors_keeps_shape|]. split; [reflexivity|].
  split; [exact Hwf|]. split; [reflexivity|]. split; [reflexivity|].
  destruct (@inverse_color_effect_twice reference_primitives
              (InverseColorEffect.mk (workspaceOf (Some (Layer.new 2)))) paintedWorld
              (Layer.new 2) paintedCanvas
              (ImageData.new 1 2 [10; 20; 30; 255; 0; 255; 128; 255]%Z)
              reference_inverseColors_keeps_shape eq_refl eq_refl Hwf eq_refl eq_refl)
    as (w1 & w2 & H1 & H2 & Hh1 & _ & Hinv).
  exists w1, w2. split; [exact H1|]. split; [exact H2|]. split; [exact Hh1|].
  apply Hinv. reflexivity.
Defined.

(** Two pointer-downs are received in the middle of a stroke. *)
Lemma freehand_ignores_downs_while_dragging_witness :
  FreeHandTool.lastPosition
    (FreeHandTool.mk FreeHandParameters.new (Some (pointAt 0 0)) (workspaceOf None))
  <> None
  /\ @FreeHandTool.run reference_primitives
       (map MouseDown [mouseAt 2 0; mouseAt 1 0] ++ [MouseMove (mouseAt 3 0)])
       (FreeHandTool.mk FreeHandParameters.new (Some (pointAt 0 0)) (workspaceOf None))
       (blankWorld 4 1)
     = @FreeHandTool.run reference_primitives [MouseMove (mouseAt 3 0)]
         (FreeHandTool.mk FreeHandParameters.new (Some (pointAt 0 0)) (workspaceOf None))
         (blankWorld 4 1).
Proof.
  assert (Hl : FreeHandTool.lastPosition
                 (FreeHandTool.mk FreeHandParameters.new (Some (pointAt 0 0))
                                  (workspaceOf None)) <> None) by discriminate.
  split; [exact Hl|].
  apply (@freehand_ignores_downs_while_dragging reference_primitives _ _ _ _ Hl).
Defined.

(** Both tools receive a disordered sequence on 4 x 4 canvases. *)
Lemma tools_handle_every_event_sequence_witness :
  readable 1 (heap (blankWorld 4 4))
  /\ readable 2 (heap (blankWorld 4 4))
  /\ (exists ellipse' w',
        @EllipseTool.run reference_primitives
          [MouseUp (mouseAt 0 0); MouseDown (mouseAt 1 1); MouseDown (mouseAt 2 2);
           MouseMove (mouseAt 9 9); MouseUp (mouseAt 3 3)]
          (EllipseTool.constructor 1 2) (blankWorld 4 4) = Some (ellipse', w'))
  /\ (exists freehand' wf',
        @FreeHandTool.run reference_primitives
          [MouseUp (mouseAt 0 0); MouseDown (mouseAt 1 1); MouseDown (mouseAt 2 2);
           MouseMove (mouseAt 9 9); MouseUp (mouseAt 3 3)]
          (FreeHandTool.constructor (workspaceOf None)) (blankWorld 4 4)
        = Some (freehand', wf')).
Proof.
  assert (H1 : readable 1 (heap (blankWorld 4 4))).
  { exists (blankCanvas 4 4). repeat split; discriminate. }
  assert (H2 : readable 2 (heap (blankWorld 4 4))).
  { exists (blankCanvas 4 4). repeat split; discriminate. }
  split; [exact H1|]. split; [exact H2|].
  apply (@tools_handle_every_event_sequence reference_primitives
           [MouseUp (mouseAt 0 0); MouseDown (mouseAt 1 1); MouseDown (mouseAt 2 2);
            MouseMove (mouseAt 9 9); MouseUp (mouseAt 3 3)]
           (EllipseTool.constructor 1 2) (FreeHandTool.constructor (workspaceOf None))
           (blankWorld 4 4) (blankWorld 4 4) H1 H2 H1 H2).
Defined.

(** * The end of a gesture, and the effect, down to the bytes *)

Section Commit.
Context `{DrawingPrimitives}.

Lemma withBitmap_setImageData d v :
  wellFormed v -> fits d v -> Canvas.setImageData d v = withBitmap v (ImageData.data d).
Proof. apply setImageData_fits. Qed.

Lemma getImageData_withBitmap d v :
  wellFormed v -> fits d v -> Canvas.width v <> 0 -> Canvas.height v <> 0 ->
  Canvas.getImageData (withBitmap v (ImageData.data d)) = Some d.
Proof.
  intros Hwf Hfits Hw Hh. rewrite <- (withBitmap_setImageData _ _ Hwf Hfits).
  now apply getImageData_setImageData.
Qed.


(** C7: with no selected layer, [apply] of the effect returns normally
    without any call on a canvas and leaves the world as it is, whatever the
    world; with a selected layer, it reads the image data of that layer's
    canvas, inverts it, and writes it back to the same canvas.  On a
    well-formed canvas this is, byte for byte: the image given to
    [inverseColors] is the bitmap of the canvas; and, the inverted image
    being of the size of the canvas and of pixels that a context keeps
    exactly, the canvas ends with the bytes of the inverted image as its
    bitmap, and gives that image back when read. *)
Theorem inverse_color_effect_apply :
  forall (idle : InverseColorEffect.t) (w0 : World)
         (this : InverseColorEffect.t) (w : World)
         (layer : Layer.t) (v : Canvas.t) (img : ImageData.t),
    DrawingLayers.selectedLayer
      (ImageWorkspace.drawingLayers (InverseColorEffect.workspace idle)) = None ->
    DrawingLayers.selectedLayer
      (ImageWorkspace.drawingLayers (InverseColorEffect.workspace this)) = Some layer ->
    heap w !! Layer.canvas layer = Some v ->
    Canvas.getImageData v = Some img ->
    InverseColorEffect.apply idle w0 = Some (tt, w0)
    /\ InverseColorEffect.apply this w
       = Some (tt, mkWorld
                     (<[Layer.canvas layer :=
                          Canvas.setImageData (ColorEffects_inverseColors img) v]> (heap w))
                     (PutImageData (Layer.canvas layer)
                        :: GetImageData (Layer.canvas layer) :: calls w))
    /\ (wellFormed v ->
        img = ImageData.new (Canvas.width v) (Canvas.height v)
                            (HTMLCanvasElement.bitmap (Canvas.canvas v))
        /\ (fits (ColorEffects_inverseColors img) v ->
            storedExactly (ImageData.data (ColorEffects_inverseColors img)) ->
            Canvas.setImageData (ColorEffects_inverseColors img) v
            = withBitmap v (ImageData.data (ColorEffects_inverseColors img))
            /\ Canvas.getImageData
                 (withBitmap v (ImageData.data (ColorEffects_inverseColors img)))
               = Some (ColorEffects_inverseColors img))).
Proof.
  intros idle w0 this w layer v img Hidle Hsel Hv Hg.
  unfold InverseColorEffect.apply. rewrite Hidle, Hsel.
  split; [reflexivity|]. split.
  - unfold bind. rewrite (getImageData_on_ref _ _ _ _ Hv Hg).
    now rewrite (setImageData_on_ref _ _ _ v).
  - intros Hwf. destruct (getImageData_wellFormed _ _ Hwf Hg) as (Himg & Hw & Hh).
    split; [exact Himg|]. intros Hfits _.
    split; [now apply withBitmap_setImageData|now apply getImageData_withBitmap].
Qed.
End Commit.


(** The effect without selection on an empty world, and with the layer of
    canvas 2 selected, a canvas of two opaque pixels: (10,20,30) becomes
    (245,235,225) and (0,255,128) becomes (255,0,127), both still opaque. *)
Lemma inverse_color_effect_apply_witness :
  DrawingLayers.selectedLayer
    (ImageWorkspace.drawingLayers
       (InverseColorEffect.workspace (InverseColorEffect.mk (workspaceOf None)))) = None
  /\ DrawingLayers.selectedLayer
       (ImageWorkspace.drawingLayers
          (InverseColorEffect.workspace
             (InverseColorEffect.mk (workspaceOf (Some (Layer.new 2))))))
     = Some (Layer.new 2)
  /\ heap paintedWorld !! Layer.canvas (Layer.new 2) = Some paintedCanvas
  /\ Canvas.getImageData paintedCanvas
     = Some (ImageData.new 1 2 [10; 20; 30; 255; 0; 255; 128; 255]%Z)
  /\ wellFormed paintedCanvas
  /\ storedExactly [245; 235; 225; 255; 255; 0; 127; 255]%Z
  /\ @InverseColorEffect.apply reference_primitives
        (InverseColorEffect.mk (workspaceOf None)) (mkWorld ∅ [])
      = Some (tt, mkWorld ∅ [])
  /\ @InverseColorEffect.apply reference_primitives
        (InverseColorEffect.mk (workspaceOf (Some (Layer.new 2)))) paintedWorld
      = Some (tt, mkWorld
                    (<[2 := withBitmap paintedCanvas
                              [245; 235; 225; 255; 255; 0; 127; 255]%Z]>
                       (heap paintedWorld))
                    [PutImageData 2; GetImageData 2])
  /\ Canvas.getImageData
       (withBitmap paintedCanvas [245; 235; 225; 255; 255; 0; 127; 255]%Z)
     = Some (ImageData.new 1 2 [245; 235; 225; 255; 255; 0; 127; 255]%Z).
Proof.
  assert (Hwf : wellFormed paintedCanvas) by (repeat split).
  destruct (@inverse_color_effect_apply reference_primitives
              (InverseColorEffect.mk (workspaceOf None)) (mkWorld ∅ [])
              (InverseColorEffect.mk (workspaceOf (Some (Layer.new 2)))) paintedWorld
              (Layer.new 2) paintedCanvas
              (ImageData.new 1 2 [10; 20; 30; 255; 0; 255; 128; 255]%Z)
              eq_refl eq_refl eq_refl eq_refl)
    as (Hidle & Hrun & Hbytes).
  destruct (Hbytes Hwf) as (_ & Hset).
  destruct Hset as (Hs & Hget); [repeat split|reflexivity|].
  split; [reflexivity|]. split; [reflexivity|]. split; [reflexivity|].
  split; [reflexivity|]. split; [exact Hwf|]. split; [reflexivity|].
  split; [exact Hidle|]. split; [|exact Hget].
  rewrite Hrun, Hs. reflexivity.
Defined.
